(** * Content-generator adapters: Ollama and Anthropic

    A shallow embedding of the request translation, the tool-support
    fallback, the streaming aggregation, the token estimate, the embeddings
    entry point and the API-key storage helpers of

      - [ollamaContentGenerator.ts], first version (with the rescue of
        tool calls that arrive as JSON text),
      - [ollamaContentGenerator.ts], second version (plain streaming),
      - [packages/core/src/core/anthropicContentGenerator.ts],
      - [apiKeyCredentialStorage.ts].

    JavaScript strings are modelled by [string]: code units range over
    0..255 and [String.length] is the [.length] of the source.  Thrown
    errors are modelled by their message, which is all the source ever
    reads of them ([error instanceof Error ? error.message : String(error)]). *)

From Stdlib Require Import ZArith QArith Bool Ascii String List Lia DecimalString.
From stdpp Require Import gmap strings.
Import ListNotations.

Local Open Scope string_scope.
Local Open Scope list_scope.
Local Open Scope Z_scope.

(** ** JavaScript strings *)

Module JS.

Definition dq : ascii := "034"%char.
Definition backslash : ascii := "092"%char.

(** [quoted s] is [s] between two double quotes. *)
Definition quoted (s : string) : string :=
  String dq (String.append s (String dq EmptyString)).

(** Test literals are written with apostrophes; [q] turns each apostrophe
    into a double quote. *)
Fixpoint q (s : string) : string :=
  match s with
  | EmptyString => EmptyString
  | String c r => String (if Ascii.eqb c "'"%char then dq else c) (q r)
  end.

(** A string is truthy when it is not empty. *)
Definition truthy_string (s : string) : bool :=
  match s with EmptyString => false | String _ _ => true end.

(** [s.startsWith(p)] *)
Fixpoint startsWith (p s : string) : bool :=
  match p, s with
  | EmptyString, _ => true
  | String a p', String b s' => Ascii.eqb a b && startsWith p' s'
  | String _ _, EmptyString => false
  end.

(** [s.includes(p)] *)
Fixpoint includes (p s : string) : bool :=
  startsWith p s ||
  match s with
  | EmptyString => false
  | String _ s' => includes p s'
  end.

(** White space of [String.prototype.trim] among the code units 0..255:
    TAB, LF, VT, FF, CR, SP and NBSP. *)
Definition is_trim_space (c : ascii) : bool :=
  let n := nat_of_ascii c in
  ((9 <=? n) && (n <=? 13))%nat || (n =? 32)%nat || (n =? 160)%nat.

Fixpoint trimStart (s : string) : string :=
  match s with
  | EmptyString => EmptyString
  | String c r => if is_trim_space c then trimStart r else s
  end.

Fixpoint trimEnd (s : string) : string :=
  match s with
  | EmptyString => EmptyString
  | String c r =>
      match trimEnd r with
      | EmptyString => if is_trim_space c then EmptyString else String c EmptyString
      | r' => String c r'
      end
  end.

(** [s.trim()] *)
Definition trim (s : string) : string := trimEnd (trimStart s).

(** [l.join(sep)] *)
Fixpoint join (sep : string) (l : list string) : string :=
  match l with
  | [] => EmptyString
  | [x] => x
  | x :: r => String.append x (String.append sep (join sep r))
  end.

(** [a || b] on strings that may be undefined. *)
Definition or_string (a : option string) (b : string) : string :=
  match a with
  | Some s => if truthy_string s then s else b
  | None => b
  end.

(** [Math.ceil(n / d)] for a length [n] and a positive divisor [d]. *)
Definition ceil_div (n d : Z) : Z := (n + d - 1) / d.

End JS.

(** ** JSON values, [JSON.stringify] and [JSON.parse] *)

Set Warnings "-register-all".

(** Objects keep their properties in enumeration order.  Numbers are the
    integers; the source only forwards, prints and tests them. *)
Inductive JValue : Type :=
| JNull
| JBool (b : bool)
| JNumber (n : Z)
| JString (s : string)
| JArray (l : list JValue)
| JObject (o : list (string * JValue)).

Definition JObj : Type := list (string * JValue).

Module JSON.

(** Truthiness of a value that is present. *)
Definition truthy (v : JValue) : bool :=
  match v with
  | JNull => false
  | JBool b => b
  | JNumber n => negb (n =? 0)
  | JString s => JS.truthy_string s
  | JArray _ => true
  | JObject _ => true
  end.

(** Truthiness of a value that may be undefined. *)
Definition truthy_opt (v : option JValue) : bool :=
  match v with Some x => truthy x | None => false end.

(** [o.k] on an object. *)
Fixpoint get (k : string) (o : JObj) : option JValue :=
  match o with
  | [] => None
  | (k', v) :: r => if String.eqb k k' then Some v else get k r
  end.

(** [o[k] = v]: an existing property keeps its place. *)
Fixpoint set (k : string) (v : JValue) (o : JObj) : JObj :=
  match o with
  | [] => [(k, v)]
  | (k', v') :: r =>
      if String.eqb k k' then (k, v) :: r else (k', v') :: set k v r
  end.

Definition hex_digit (n : nat) : ascii :=
  nth n (list_ascii_of_string "0123456789abcdef") "0"%char.

(** A code unit inside a string literal, as [JSON.stringify] writes it. *)
Definition escape_char (c : ascii) : string :=
  let n := nat_of_ascii c in
  if Ascii.eqb c JS.dq then String JS.backslash (String JS.dq EmptyString)
  else if Ascii.eqb c JS.backslash then String JS.backslash (String JS.backslash EmptyString)
  else if (n =? 8)%nat then String JS.backslash "b"
  else if (n =? 9)%nat then String JS.backslash "t"
  else if (n =? 10)%nat then String JS.backslash "n"
  else if (n =? 12)%nat then String JS.backslash "f"
  else if (n =? 13)%nat then String JS.backslash "r"
  else if (n <? 32)%nat then
    String JS.backslash
      (String "u" (String "0" (String "0"
         (String (hex_digit (n / 16)) (String (hex_digit (n mod 16)) EmptyString)))))
  else String c EmptyString.

Fixpoint escape (s : string) : string :=
  match s with
  | EmptyString => EmptyString
  | String c r => String.append (escape_char c) (escape r)
  end.

Definition quote (s : string) : string := JS.quoted (escape s).

Definition number_to_string (n : Z) : string :=
  NilZero.string_of_int (Z.to_int n).

(** [JSON.stringify(v)] *)
Fixpoint stringify (v : JValue) : string :=
  match v with
  | JNull => "null"
  | JBool true => "true"
  | JBool false => "false"
  | JNumber n => number_to_string n
  | JString s => quote s
  | JArray l =>
      String.append "[" (String.append (JS.join "," (List.map stringify l)) "]")
  | JObject o =>
      String.append "{"
        (String.append
           (JS.join ","
              (List.map (fun kv => String.append (quote (fst kv))
                                     (String.append ":" (stringify (snd kv)))) o))
           "}")
  end.

(** *** Parser *)

Definition is_ws (c : ascii) : bool :=
  let n := nat_of_ascii c in
  (n =? 32)%nat || (n =? 9)%nat || (n =? 10)%nat || (n =? 13)%nat.

Fixpoint skip_ws (s : list ascii) : list ascii :=
  match s with
  | c :: r => if is_ws c then skip_ws r else s
  | [] => []
  end.

Definition is_digit (c : ascii) : bool :=
  let n := nat_of_ascii c in ((48 <=? n) && (n <=? 57))%nat.

Definition hex_value (c : ascii) : option nat :=
  let n := nat_of_ascii c in
  if ((48 <=? n) && (n <=? 57))%nat then Some (n - 48)%nat
  else if ((97 <=? n) && (n <=? 102))%nat then Some (n - 87)%nat
  else if ((65 <=? n) && (n <=? 70))%nat then Some (n - 55)%nat
  else None.

Definition snoc (acc : string) (c : ascii) : string :=
  String.append acc (String c EmptyString).

(** The body of a string literal, after its opening quote.  An escape
    [\uXXXX] above 255 names a code unit outside the model. *)
Fixpoint parse_string_body (s : list ascii) (acc : string) {struct s}
  : option (string * list ascii) :=
  match s with
  | [] => None
  | c :: r =>
      if Ascii.eqb c JS.dq then Some (acc, r)
      else if Ascii.eqb c JS.backslash then
        match r with
        | [] => None
        | e :: r' =>
            if Ascii.eqb e JS.dq then parse_string_body r' (snoc acc JS.dq)
            else if Ascii.eqb e JS.backslash then parse_string_body r' (snoc acc JS.backslash)
            else if Ascii.eqb e "/" then parse_string_body r' (snoc acc "/")
            else if Ascii.eqb e "b" then parse_string_body r' (snoc acc "008")
            else if Ascii.eqb e "f" then parse_string_body r' (snoc acc "012")
            else if Ascii.eqb e "n" then parse_string_body r' (snoc acc "010")
            else if Ascii.eqb e "r" then parse_string_body r' (snoc acc "013")
            else if Ascii.eqb e "t" then parse_string_body r' (snoc acc "009")
            else if Ascii.eqb e "u" then
              match r' with
              | h1 :: h2 :: h3 :: h4 :: r'' =>
                  match hex_value h1, hex_value h2, hex_value h3, hex_value h4 with
                  | Some a, Some b, Some c', Some d =>
                      let n := (((a * 16 + b) * 16 + c') * 16 + d)%nat in
                      if (n <? 256)%nat
                      then parse_string_body r'' (snoc acc (ascii_of_nat n))
                      else None
                  | _, _, _, _ => None
                  end
              | _ => None
              end
            else None
        end
      else if (nat_of_ascii c <? 32)%nat then None
      else parse_string_body r (snoc acc c)
  end.

(** The digits of an integer literal. *)
Fixpoint parse_digits (s : list ascii) (acc : Z) : Z * list ascii :=
  match s with
  | c :: r =>
      if is_digit c
      then parse_digits r (acc * 10 + Z.of_nat (nat_of_ascii c - 48))
      else (acc, s)
  | [] => (acc, [])
  end.

Definition starts_fraction (s : list ascii) : bool :=
  match s with
  | c :: _ => Ascii.eqb c "." || Ascii.eqb c "e" || Ascii.eqb c "E"
  | [] => false
  end.

(** An integer literal: [0] or a non-zero digit followed by digits.  A
    fraction or an exponent is outside the model. *)
Definition parse_nat_literal (s : list ascii) : option (Z * list ascii) :=
  match s with
  | c :: r =>
      if Ascii.eqb c "0" then
        match r with
        | d :: _ => if is_digit d then None
                    else if starts_fraction r then None else Some (0, r)
        | [] => Some (0, r)
        end
      else if is_digit c then
        let '(n, r') := parse_digits s 0 in
        if starts_fraction r' then None else Some (n, r')
      else None
  | [] => None
  end.

Fixpoint expect (w : list ascii) (s : list ascii) : option (list ascii) :=
  match w, s with
  | [], _ => Some s
  | a :: w', b :: s' => if Ascii.eqb a b then expect w' s' else None
  | _ :: _, [] => None
  end.

(** Recursive descent; [fuel] bounds the number of nested and successive
    values. *)
Fixpoint parse_value (fuel : nat) (s : list ascii) {struct fuel}
  : option (JValue * list ascii) :=
  match fuel with
  | O => None
  | S fuel' =>
      match skip_ws s with
      | [] => None
      | c :: r =>
          if Ascii.eqb c "{" then
            match skip_ws r with
            | c' :: r' =>
                if Ascii.eqb c' "}" then Some (JObject [], r')
                else parse_members fuel' (skip_ws r) []
            | [] => None
            end
          else if Ascii.eqb c "[" then
            match skip_ws r with
            | c' :: r' =>
                if Ascii.eqb c' "]" then Some (JArray [], r')
                else parse_elements fuel' (skip_ws r) []
            | [] => None
            end
          else if Ascii.eqb c JS.dq then
            match parse_string_body r EmptyString with
            | Some (str, r') => Some (JString str, r')
            | None => None
            end
          else if Ascii.eqb c "t" then
            option_map (fun r' => (JBool true, r')) (expect (list_ascii_of_string "rue") r)
          else if Ascii.eqb c "f" then
            option_map (fun r' => (JBool false, r')) (expect (list_ascii_of_string "alse") r)
          else if Ascii.eqb c "n" then
            option_map (fun r' => (JNull, r')) (expect (list_ascii_of_string "ull") r)
          else if Ascii.eqb c "-" then
            match parse_nat_literal r with
            | Some (n, r') => Some (JNumber (- n), r')
            | None => None
            end
          else
            match parse_nat_literal (c :: r) with
            | Some (n, r') => Some (JNumber n, r')
            | None => None
            end
      end
  end
with parse_elements (fuel : nat) (s : list ascii) (acc : list JValue) {struct fuel}
  : option (JValue * list ascii) :=
  match fuel with
  | O => None
  | S fuel' =>
      match parse_value fuel' s with
      | Some (v, r) =>
          match skip_ws r with
          | c :: r' =>
              if Ascii.eqb c "," then parse_elements fuel' r' (acc ++ [v])
              else if Ascii.eqb c "]" then Some (JArray (acc ++ [v]), r')
              else None
          | [] => None
          end
      | None => None
      end
  end
with parse_members (fuel : nat) (s : list ascii) (acc : JObj) {struct fuel}
  : option (JValue * list ascii) :=
  match fuel with
  | O => None
  | S fuel' =>
      match skip_ws s with
      | c :: r =>
          if Ascii.eqb c JS.dq then
            match parse_string_body r EmptyString with
            | Some (k, r1) =>
                match skip_ws r1 with
                | c1 :: r2 =>
                    if Ascii.eqb c1 ":" then
                      match parse_value fuel' r2 with
                      | Some (v, r3) =>
                          match skip_ws r3 with
                          | c3 :: r4 =>
                              if Ascii.eqb c3 "," then parse_members fuel' r4 (set k v acc)
                              else if Ascii.eqb c3 "}" then Some (JObject (set k v acc), r4)
                              else None
                          | [] => None
                          end
                      | None => None
                      end
                    else None
                | [] => None
                end
            | None => None
            end
          else None
      | [] => None
      end
  end.

(** [JSON.parse(s)]; [None] when the source throws a [SyntaxError]. *)
Definition parse (s : string) : option JValue :=
  let l := list_ascii_of_string s in
  match parse_value (S (List.length l)) l with
  | Some (v, r) => match skip_ws r with [] => Some v | _ :: _ => None end
  | None => None
  end.

End JSON.

(** ** The request and response shapes of [@google/genai] *)

Module GenAI.

(** A part; the source reads the three properties independently
    ([p.text], [p.functionCall], [p.functionResponse]). *)
Record Part : Type := {
  text : option string;
  functionCall : option JObj;
  functionResponse : option JObj
}.

Definition textPart (s : string) : Part :=
  {| text := Some s; functionCall := None; functionResponse := None |}.
Definition functionCallPart (fc : JObj) : Part :=
  {| text := None; functionCall := Some fc; functionResponse := None |}.
Definition functionResponsePart (fr : JObj) : Part :=
  {| text := None; functionCall := None; functionResponse := Some fr |}.

Record Content : Type := {
  role : option string;
  parts : option (list Part)
}.

(** [request.contents]: absent, a string, one content, or an array. *)
Inductive Contents : Type :=
| NoContents
| ContentsString (s : string)
| OneContent (c : Content)
| ContentArray (l : list Content).

Record FunctionDeclaration : Type := {
  name : option string;
  description : option string;
  parameters : option JValue
}.

Record Tool : Type := {
  functionDeclarations : option (list FunctionDeclaration)
}.

(** [config.systemInstruction]: a string or an object that may have
    [parts]. *)
Inductive SystemInstruction : Type :=
| InstructionString (s : string)
| InstructionContent (ps : option (list Part)).

Record Config : Type := {
  systemInstruction : option SystemInstruction;
  tools : option (list Tool);
  temperature : option Q
}.

Record GenerateContentParameters : Type := {
  config : option Config;
  contents : Contents
}.

(** [p.text] is truthy. *)
Definition hasText (p : Part) : bool :=
  match text p with Some s => JS.truthy_string s | None => false end.
Definition hasFunctionCall (p : Part) : bool :=
  match functionCall p with Some _ => true | None => false end.
Definition hasFunctionResponse (p : Part) : bool :=
  match functionResponse p with Some _ => true | None => false end.

(** [c.parts?.filter(f) || []] *)
Definition filterParts (f : Part -> bool) (c : Content) : list Part :=
  match parts c with Some ps => List.filter f ps | None => [] end.

(** [Array.isArray(contents) ? contents : [contents]], under the guard
    [if (request.contents)].  A string has neither [role] nor [parts]. *)
Definition contentsArr (cs : Contents) : list Content :=
  match cs with
  | NoContents => []
  | ContentsString s =>
      if JS.truthy_string s then [ {| role := None; parts := None |} ] else []
  | OneContent c => [c]
  | ContentArray l => l
  end.

(** The function declarations of a request, tool by tool. *)
Definition declarations (request : GenerateContentParameters)
  : list FunctionDeclaration :=
  match config request with
  | Some cfg =>
      match tools cfg with
      | Some ts =>
          List.flat_map
            (fun t => match functionDeclarations t with
                      | Some fds => fds
                      | None => []
                      end) ts
      | None => []
      end
  | None => []
  end.

(** Parts of a unified response. *)
Inductive ResponsePart : Type :=
| TextPart (t : string)
| FunctionCallPart (fname : option JValue) (args : option JValue)
    (id : option JValue).

Definition isTextPart (p : ResponsePart) : bool :=
  match p with TextPart _ => true | FunctionCallPart _ _ _ => false end.
Definition isFunctionCallPart (p : ResponsePart) : bool :=
  negb (isTextPart p).

Record UsageMetadata : Type := {
  promptTokenCount : Z;
  candidatesTokenCount : Z;
  totalTokenCount : Z
}.

(** One candidate with role ['model']. *)
Record GenerateContentResponse : Type := {
  responseParts : list ResponsePart;
  finishReason : option string;
  usageMetadata : UsageMetadata
}.

End GenAI.

(** [systemInstruction] as text, shared shape of both adapters:
    a string is taken as it is, [parts] are joined with the separator
    written ['\\n'] in the source, a backslash followed by [n]. *)
Definition systemInstructionText (si : GenAI.SystemInstruction) : string :=
  match si with
  | GenAI.InstructionString s => s
  | GenAI.InstructionContent (Some ps) =>
      JS.join (String JS.backslash "n")
        (List.map (fun p => JS.or_string (GenAI.text p) EmptyString) ps)
  | GenAI.InstructionContent None => EmptyString
  end.

(** [v || d] on a value that may be undefined. *)
Definition or_value (v : option JValue) (d : JValue) : JValue :=
  match v with
  | Some x => if JSON.truthy x then x else d
  | None => d
  end.

Definition nonEmpty {A : Type} (l : list A) : bool :=
  match l with [] => false | _ :: _ => true end.

(** ** The wire shapes of the [ollama] client *)

Module OllamaAPI.

Record ToolCall : Type := {
  function_name : option JValue;
  function_arguments : JValue
}.

Record Message : Type := {
  role : string;
  content : string;
  tool_calls : option (list ToolCall)
}.

Record Tool : Type := {
  type : string;
  function_name' : option string;
  function_description : string;
  function_parameters : JValue
}.

Record Options : Type := { temperature : option Q }.

(** The argument of [ollama.chat]. *)
Record ChatRequest : Type := {
  model : string;
  messages : list Message;
  tools : option (list Tool);
  options : Options;
  stream : bool
}.

(** A reply, or one chunk of a streamed reply. *)
Record ChatResponse : Type := {
  message : option Message;
  prompt_eval_count : option Z;
  eval_count : option Z;
  done : bool
}.

(** A streamed reply: chunks, then normal completion or a thrown error. *)
Record ChatStream : Type := {
  chunks : list ChatResponse;
  failure : option string
}.

(** The server: each answer may depend on the requests seen before. *)
Record Server : Type := {
  chat : list ChatRequest -> ChatRequest -> string + ChatResponse;
  chatStream : list ChatRequest -> ChatRequest -> string + ChatStream;
  embeddings : string -> string -> string + list Q
}.

Definition isToolMessage (m : Message) : bool := String.eqb (role m) "tool".

(** *** Shapes shared by the two versions of the adapter *)

(** The result of [mapGeminiParamsToOllama]. *)
Record Params : Type := {
  p_messages : list Message;
  p_tools : option (list Tool);
  p_options : Options
}.

(** A yielded chunk: the unified response and the two plain properties
    [text] and [functionCalls] the source adds next to it. *)
Record StreamChunk : Type := {
  response : GenAI.GenerateContentResponse;
  text : option string;
  functionCalls : option (list (option JValue * JValue))
}.

(** What a consumer that drains a generator sees: the chunks yielded
    and, if the generator threw, the wrapped message. *)
Record Drained : Type := {
  yielded : list StreamChunk;
  thrown : option string
}.

End OllamaAPI.

(** ** The Ollama adapter, first version *)

Module Ollama.

Import OllamaAPI.

(** [isToolsNotSupportedError(error)] *)
Definition isToolsNotSupportedError (error : string) : bool :=
  JS.includes "does not support tools" error.

(** The constructor drops a leading ["ollama/"] from the model name. *)
Definition resolveModel (m : string) : string :=
  if JS.startsWith "ollama/" m then String.substring 7 (String.length m - 7) m else m.

(** An instance: [this.model] and [this.toolsSupported]. *)
Record Instance : Type := {
  model : string;
  toolsSupported : bool
}.

(** [new OllamaContentGenerator(model)]: tool support starts enabled. *)
Definition create (m : string) : Instance :=
  {| model := resolveModel m; toolsSupported := true |}.

Definition disable (self : Instance) : Instance :=
  {| model := model self; toolsSupported := false |}.

(** The system message, if the instruction is truthy and its text is. *)
Definition systemMessages (request : GenAI.GenerateContentParameters)
  : list Message :=
  match GenAI.config request with
  | Some cfg =>
      match GenAI.systemInstruction cfg with
      | Some (GenAI.InstructionString EmptyString) => []
      | Some si =>
          let text := systemInstructionText si in
          if JS.truthy_string text
          then [ {| role := "system"; content := text; tool_calls := None |} ]
          else []
      | None => []
      end
  | None => []
  end.

Definition mapDeclaration (fd : GenAI.FunctionDeclaration) : Tool :=
  {| type := "function";
     function_name' := GenAI.name fd;
     function_description := JS.or_string (GenAI.description fd) EmptyString;
     function_parameters :=
       or_value (GenAI.parameters fd)
         (JObject [("type", JString "object"); ("properties", JObject [])]) |}.

(** [ollamaTools], before the final [?.length] test. *)
Definition ollamaTools (toolsSupported : bool)
  (request : GenAI.GenerateContentParameters) : option (list Tool) :=
  match GenAI.config request with
  | Some cfg =>
      match GenAI.tools cfg with
      | Some ts =>
          if toolsSupported && nonEmpty ts
          then Some (List.map mapDeclaration (GenAI.declarations request))
          else None
      | None => None
      end
  | None => None
  end.

Definition toolResultMessage (part : GenAI.Part) : Message :=
  {| role := "tool";
     content :=
       JSON.stringify
         (or_value
            (match GenAI.functionResponse part with
             | Some fr => JSON.get "response" fr
             | None => None
             end) (JObject []));
     tool_calls := None |}.

Definition toolCallOf (part : GenAI.Part) : ToolCall :=
  match GenAI.functionCall part with
  | Some fc =>
      {| function_name := JSON.get "name" fc;
         function_arguments := or_value (JSON.get "args" fc) (JObject []) |}
  | None => {| function_name := None; function_arguments := JObject [] |}
  end.

(** One turn of the loop over [contentsArr]: the messages it pushes.  The
    [continue] of the source is the empty list. *)
Definition mapContent (toolsSupported : bool) (c : GenAI.Content) : list Message :=
  let ollamaRole :=
    match GenAI.role c with
    | Some r => if String.eqb r "model" then "assistant" else "user"
    | None => "user"
    end in
  let functionResponseParts := GenAI.filterParts GenAI.hasFunctionResponse c in
  if nonEmpty functionResponseParts && negb toolsSupported then []
  else
    let isToolResponse := nonEmpty functionResponseParts in
    let toolMessages := List.map toolResultMessage functionResponseParts in
    let textParts := GenAI.filterParts GenAI.hasText c in
    let functionCallParts := GenAI.filterParts GenAI.hasFunctionCall c in
    toolMessages ++
    (if negb isToolResponse || nonEmpty textParts || nonEmpty functionCallParts
     then
       let text :=
         JS.join EmptyString
           (List.map (fun p => JS.or_string (GenAI.text p) EmptyString) textParts) in
       let calls :=
         if toolsSupported then List.map toolCallOf functionCallParts else [] in
       if JS.truthy_string text || nonEmpty calls
       then [ {| role := ollamaRole; content := text;
                 tool_calls := if nonEmpty calls then Some calls else None |} ]
       else []
     else []).

(** [mapGeminiParamsToOllama(request)], reading [this.toolsSupported]. *)
Definition mapGeminiParamsToOllama (toolsSupported : bool)
  (request : GenAI.GenerateContentParameters) : Params :=
  {| p_messages :=
       systemMessages request ++
       List.flat_map (mapContent toolsSupported)
         (GenAI.contentsArr (GenAI.contents request));
     p_tools :=
       match ollamaTools toolsSupported request with
       | Some (t :: ts) => Some (t :: ts)
       | _ => None
       end;
     p_options :=
       {| temperature :=
            match GenAI.config request with
            | Some cfg => GenAI.temperature cfg
            | None => None
            end |} |}.

(** [n || 0] on a count that may be undefined. *)
Definition or_zero (n : option Z) : Z :=
  match n with Some x => x | None => 0 end.

Definition truthy_count (n : option Z) : bool :=
  match n with Some x => negb (x =? 0) | None => false end.

(** The function-call parts of [message.tool_calls]. *)
Definition toolCallParts (m : option Message) : list GenAI.ResponsePart :=
  match m with
  | Some msg =>
      match tool_calls msg with
      | Some tcs =>
          List.map (fun tc => GenAI.FunctionCallPart (function_name tc)
                                (Some (function_arguments tc)) None) tcs
      | None => []
      end
  | None => []
  end.

Definition contentOf (m : option Message) : string :=
  match m with Some msg => content msg | None => EmptyString end.

(** The unified response built from a reply. *)
Definition toResponse (response : ChatResponse) : GenAI.GenerateContentResponse :=
  {| GenAI.responseParts :=
       (if JS.truthy_string (contentOf (message response))
        then [GenAI.TextPart (contentOf (message response))] else []) ++
       toolCallParts (message response);
     GenAI.finishReason := None;
     GenAI.usageMetadata :=
       {| GenAI.promptTokenCount := or_zero (prompt_eval_count response);
          GenAI.candidatesTokenCount := or_zero (eval_count response);
          GenAI.totalTokenCount :=
            or_zero (prompt_eval_count response) + or_zero (eval_count response) |} |}.

Definition chatRequest (self : Instance) (ms : list Message)
  (ts : option (list Tool)) (os : Options) (streaming : bool) : ChatRequest :=
  {| OllamaAPI.model := model self; messages := ms;
     tools := ts; options := os; stream := streaming |}.

(** What a call leaves behind: its result, the instance and the requests
    the server has received so far. *)
Record Outcome (A : Type) : Type := {
  result : A;
  instance : Instance;
  sent : list ChatRequest
}.
Arguments result {A}.
Arguments instance {A}.
Arguments sent {A}.

Section WithServer.

Variable srv : Server.

(** [generateContent(request)]: the result is the wrapped error message
    or the unified response. *)
Definition generateContent (self : Instance) (log : list ChatRequest)
  (request : GenAI.GenerateContentParameters)
  : Outcome (string + GenAI.GenerateContentResponse) :=
  let p := mapGeminiParamsToOllama (toolsSupported self) request in
  let first := chatRequest self (p_messages p) (p_tools p) (p_options p) false in
  match chat srv log first with
  | inr response =>
      {| result := inr (toResponse response); instance := self;
         sent := log ++ [first] |}
  | inl error =>
      if isToolsNotSupportedError error && toolsSupported self then
        let retry := chatRequest self (p_messages p) None (p_options p) false in
        match chat srv (log ++ [first]) retry with
        | inr response =>
            {| result := inr (toResponse response); instance := disable self;
               sent := log ++ [first; retry] |}
        | inl error' =>
            {| result := inl (String.append "Ollama generateContent failed: " error');
               instance := disable self; sent := log ++ [first; retry] |}
        end
      else
        {| result := inl (String.append "Ollama generateContent failed: " error);
           instance := self; sent := log ++ [first] |}
  end.

(** *** Streaming *)

(** The variables of the generator that live across chunks. *)
Record StreamState : Type := {
  promptTokenCount : Z;
  candidatesTokenCount : Z;
  totalTokenCount : Z;
  accumulatedText : string;
  isPotentiallyJson : bool
}.

Definition initialStreamState : StreamState :=
  {| promptTokenCount := 0; candidatesTokenCount := 0; totalTokenCount := 0;
     accumulatedText := EmptyString; isPotentiallyJson := false |}.

(** [JSON.parse]; [None] stands for a thrown [SyntaxError]. *)
Variable JSON_parse : string -> option JValue.

(** The test of the first version on the accumulated text. *)
Definition looksLikeJson (acc : string) : bool :=
  JS.startsWith "{" (JS.trim acc) && JS.includes (JS.quoted "name") acc.

(** [parsed.name && parsed.arguments] inside the [try]: the two values
    when both are truthy.  Reading a property of [null] throws and is
    caught; other values that are not objects have neither property. *)
Definition rescued (parsed : option JValue) : option (JValue * JValue) :=
  match parsed with
  | Some (JObject o) =>
      match JSON.get "name" o, JSON.get "arguments" o with
      | Some n, Some a =>
          if JSON.truthy n && JSON.truthy a then Some (n, a) else None
      | _, _ => None
      end
  | _ => None
  end.

(** [parts.find((p) => p.text)?.text || undefined] *)
Fixpoint firstText (ps : list GenAI.ResponsePart) : option string :=
  match ps with
  | [] => None
  | GenAI.TextPart t :: r => if JS.truthy_string t then Some t else firstText r
  | GenAI.FunctionCallPart _ _ _ :: r => firstText r
  end.

(** The body of the [for await] loop on one chunk: the new state and the
    chunk it yields, if any. *)
Definition streamStep (st : StreamState) (chunk : ChatResponse)
  : StreamState * option StreamChunk :=
  let content := contentOf (message chunk) in
  (* text *)
  let acc1 :=
    if JS.truthy_string content
    then String.append (accumulatedText st) content else accumulatedText st in
  let json1 :=
    if JS.truthy_string content && looksLikeJson acc1
    then true else isPotentiallyJson st in
  let flushNow := JS.truthy_string content && negb json1 in
  let parts1 := if flushNow then [GenAI.TextPart acc1] else [] in
  let acc2 := if flushNow then EmptyString else acc1 in
  (* structured tool calls *)
  let parts2 := parts1 ++ toolCallParts (message chunk) in
  (* usage *)
  let prompt :=
    if truthy_count (prompt_eval_count chunk)
    then or_zero (prompt_eval_count chunk) else promptTokenCount st in
  let candidates :=
    if truthy_count (eval_count chunk)
    then or_zero (eval_count chunk) else candidatesTokenCount st in
  let total :=
    if truthy_count (prompt_eval_count chunk) || truthy_count (eval_count chunk)
    then prompt + candidates else totalTokenCount st in
  let chunkFunctionCalls :=
    match message chunk with
    | Some msg =>
        option_map
          (List.map (fun tc => (function_name tc, function_arguments tc)))
          (tool_calls msg)
    | None => None
    end in
  (* the final chunk, with buffered text *)
  let finale :=
    done chunk && json1 && JS.truthy_string (JS.trim acc2) in
  let hit := if finale then rescued (JSON_parse (JS.trim acc2)) else None in
  let parts3 :=
    match hit with
    | Some (n, a) => parts2 ++ [GenAI.FunctionCallPart (Some n) (Some a) None]
    | None => parts2
    end in
  (* the push reaches [chunkFunctionCalls] only when it is an array *)
  let calls3 :=
    match hit, chunkFunctionCalls with
    | Some (n, a), Some l => Some (l ++ [(Some n, a)])
    | _, _ => chunkFunctionCalls
    end in
  let acc3 := match hit with Some _ => EmptyString | None => acc2 end in
  let leftover := finale && JS.truthy_string acc3 in
  let parts4 := if leftover then parts3 ++ [GenAI.TextPart acc3] else parts3 in
  let acc4 := if leftover then EmptyString else acc3 in
  let st' :=
    {| promptTokenCount := prompt; candidatesTokenCount := candidates;
       totalTokenCount := total; accumulatedText := acc4;
       isPotentiallyJson := json1 |} in
  (st',
   if nonEmpty parts4 || done chunk then
     Some {| response :=
               {| GenAI.responseParts := parts4;
                  GenAI.finishReason := if done chunk then Some "STOP" else None;
                  GenAI.usageMetadata :=
                    {| GenAI.promptTokenCount := prompt;
                       GenAI.candidatesTokenCount := candidates;
                       GenAI.totalTokenCount := total |} |};
             text := firstText parts4;
             functionCalls := calls3 |}
   else None).

(** The whole loop: every chunk yielded, in order. *)
Fixpoint streamLoop (st : StreamState) (cs : list ChatResponse)
  : list StreamChunk :=
  match cs with
  | [] => []
  | chunk :: rest =>
      let '(st', y) := streamStep st chunk in
      match y with
      | Some out => out :: streamLoop st' rest
      | None => streamLoop st' rest
      end
  end.

Definition wrapStreamError (e : string) : string :=
  String.append "Ollama generateContentStream failed: " e.

Definition drain (s : ChatStream) : Drained :=
  {| yielded := streamLoop initialStreamState (chunks s);
     thrown := option_map wrapStreamError (failure s) |}.

(** The generator returned by [generateContentStream]: the request and
    the translation made when the method was called. *)
Record Generator : Type := {
  request : GenAI.GenerateContentParameters;
  mapped : Params
}.

(** [generateContentStream(request)]: translates at once, calls the
    server only when the generator is first pulled. *)
Definition generateContentStream (self : Instance)
  (request : GenAI.GenerateContentParameters) : Generator :=
  {| request := request;
     mapped := mapGeminiParamsToOllama (toolsSupported self) request |}.

(** Draining the generator. *)
Definition runGenerator (self : Instance) (log : list ChatRequest)
  (g : Generator) : Outcome Drained :=
  let first :=
    chatRequest self (p_messages (mapped g)) (p_tools (mapped g))
      (p_options (mapped g)) true in
  match chatStream srv log first with
  | inr s => {| result := drain s; instance := self; sent := log ++ [first] |}
  | inl error =>
      if isToolsNotSupportedError error && toolsSupported self then
        let remapped := mapGeminiParamsToOllama false (request g) in
        let retry :=
          chatRequest self (p_messages remapped) None (p_options remapped) true in
        match chatStream srv (log ++ [first]) retry with
        | inr s =>
            {| result := drain s; instance := disable self;
               sent := log ++ [first; retry] |}
        | inl error' =>
            {| result := {| yielded := []; thrown := Some (wrapStreamError error') |};
               instance := disable self; sent := log ++ [first; retry] |}
        end
      else
        {| result := {| yielded := []; thrown := Some (wrapStreamError error) |};
           instance := self; sent := log ++ [first] |}
  end.

(** *** Token estimate and embeddings *)

(** [p.text || JSON.stringify(p.functionCall || {})] *)
Definition partText (p : GenAI.Part) : string :=
  if GenAI.hasText p then JS.or_string (GenAI.text p) EmptyString
  else
    JSON.stringify
      (JObject (match GenAI.functionCall p with Some fc => fc | None => [] end)).

(** What one content adds to [totalText]. *)
Definition contentText (c : GenAI.Content) : string :=
  match GenAI.parts c with
  | Some ps => JS.join " " (List.map partText ps)
  | None => EmptyString
  end.

Definition totalText (cs : GenAI.Contents) : string :=
  String.concat EmptyString (List.map contentText (GenAI.contentsArr cs)).

(** [countTokens(request)]: the [totalTokens] of the result. *)
Definition countTokens (cs : GenAI.Contents) : Z :=
  JS.ceil_div (Z.of_nat (String.length (totalText cs))) 4.

Definition joinTexts (ps : list GenAI.Part) : string :=
  JS.join " " (List.map (fun p => JS.or_string (GenAI.text p) EmptyString) ps).

(** The [input] of [embedContent]. *)
Definition embedInput (cs : GenAI.Contents) : string :=
  match cs with
  | GenAI.ContentsString s => s
  | GenAI.OneContent c =>
      match GenAI.parts c with
      | Some ps => joinTexts ps
      | None => EmptyString
      end
  | GenAI.ContentArray l =>
      JS.join " "
        (List.map (fun c => match GenAI.parts c with
                            | Some ps => joinTexts ps
                            | None => EmptyString
                            end) l)
  | GenAI.NoContents => EmptyString
  end.

(** [embedContent(request)]: the thrown message or the vector. *)
Definition embedContent (self : Instance) (cs : GenAI.Contents)
  : string + list Q :=
  let input := embedInput cs in
  if negb (JS.truthy_string input) then inl "No text content for embeddings"
  else embeddings srv (model self) input.

(** *** One instance over time *)

(** The calls a client can make on one instance.  A generator does
    nothing until it is pulled; [Pull i] drains the [i]-th generator
    handed out so far. *)
Inductive Op : Type :=
| CallGenerateContent (request : GenAI.GenerateContentParameters)
| CallGenerateContentStream (request : GenAI.GenerateContentParameters)
| Pull (i : nat)
| CallCountTokens (cs : GenAI.Contents)
| CallEmbedContent (cs : GenAI.Contents).

(** The instance, the requests the server has received, and the
    generators handed out, each with a flag telling whether it has run. *)
Record Session : Type := {
  self : Instance;
  log : list ChatRequest;
  generators : list (Generator * bool)
}.

Definition open (m : string) : Session :=
  {| self := create m; log := []; generators := [] |}.

Definition step (s : Session) (op : Op) : Session :=
  match op with
  | CallGenerateContent request =>
      let out := generateContent (self s) (log s) request in
      {| self := instance out; log := sent out; generators := generators s |}
  | CallGenerateContentStream request =>
      {| self := self s; log := log s;
         generators := generators s ++ [(generateContentStream (self s) request, false)] |}
  | Pull i =>
      match generators s !! i with
      | Some (g, false) =>
          let out := runGenerator (self s) (log s) g in
          {| self := instance out; log := sent out;
             generators := <[i := (g, true)]> (generators s) |}
      | _ => s
      end
  | CallCountTokens _ => s
  | CallEmbedContent _ => s
  end.

Definition run (ops : list Op) (s : Session) : Session :=
  List.fold_left step ops s.

End WithServer.

End Ollama.

(** ** The Ollama adapter, second version *)

(** The second file differs from the first in its streaming loop only.
    Its translation is embedded here statement by statement, as the loops
    of the source that push onto [messages] and [ollamaTools]. *)
Module OllamaPlain.

Import OllamaAPI.

Definition isToolsNotSupportedError (error : string) : bool :=
  JS.includes "does not support tools" error.

(** The inner loop over [functionDeclarations]. *)
Definition pushDeclarations (ollamaTools : list Tool)
  (fds : list GenAI.FunctionDeclaration) : list Tool :=
  List.fold_left
    (fun acc fd =>
       acc ++ [ {| type := "function";
                   function_name' := GenAI.name fd;
                   function_description :=
                     JS.or_string (GenAI.description fd) EmptyString;
                   function_parameters :=
                     or_value (GenAI.parameters fd)
                       (JObject [("type", JString "object");
                                 ("properties", JObject [])]) |} ])
    fds ollamaTools.

(** The outer loop over [request.config.tools]. *)
Definition pushTools (ts : list GenAI.Tool) : list Tool :=
  List.fold_left
    (fun acc t =>
       match GenAI.functionDeclarations t with
       | Some fds => pushDeclarations acc fds
       | None => acc
       end)
    ts [].

(** One turn of the loop over [contentsArr], from [messages] before the
    turn to [messages] after it. *)
Definition contentTurn (toolsSupported : bool) (messages : list Message)
  (c : GenAI.Content) : list Message :=
  let ollamaRole :=
    match GenAI.role c with
    | Some r => if String.eqb r "model" then "assistant" else "user"
    | None => "user"
    end in
  let functionResponseParts := GenAI.filterParts GenAI.hasFunctionResponse c in
  if nonEmpty functionResponseParts && negb toolsSupported then
    (* continue *) messages
  else
    let isToolResponse := nonEmpty functionResponseParts in
    let messages1 :=
      List.fold_left
        (fun acc part =>
           acc ++ [ {| role := "tool";
                       content :=
                         JSON.stringify
                           (or_value
                              (match GenAI.functionResponse part with
                               | Some fr => JSON.get "response" fr
                               | None => None
                               end) (JObject []));
                       tool_calls := None |} ])
        functionResponseParts messages in
    let textParts := GenAI.filterParts GenAI.hasText c in
    let functionCallParts := GenAI.filterParts GenAI.hasFunctionCall c in
    if negb isToolResponse || nonEmpty textParts || nonEmpty functionCallParts
    then
      let text :=
        JS.join EmptyString
          (List.map (fun p => JS.or_string (GenAI.text p) EmptyString) textParts) in
      let tool_calls_ :=
        if toolsSupported then
          List.fold_left
            (fun acc part =>
               acc ++ [ match GenAI.functionCall part with
                        | Some fc =>
                            {| function_name := JSON.get "name" fc;
                               function_arguments :=
                                 or_value (JSON.get "args" fc) (JObject []) |}
                        | None =>
                            {| function_name := None;
                               function_arguments := JObject [] |}
                        end ])
            functionCallParts []
        else [] in
      if JS.truthy_string text || nonEmpty tool_calls_
      then messages1 ++
           [ {| role := ollamaRole; content := text;
                tool_calls :=
                  if nonEmpty tool_calls_ then Some tool_calls_ else None |} ]
      else messages1
    else messages1.

(** [mapGeminiParamsToOllama(request)], reading [this.toolsSupported]. *)
Definition mapGeminiParamsToOllama (toolsSupported : bool)
  (request : GenAI.GenerateContentParameters) : Params :=
  let cfg := GenAI.config request in
  let messages0 :=
    match cfg with
    | Some c =>
        match GenAI.systemInstruction c with
        | Some si =>
            let truthy :=
              match si with
              | GenAI.InstructionString s => JS.truthy_string s
              | GenAI.InstructionContent _ => true
              end in
            let text := if truthy then systemInstructionText si else EmptyString in
            if truthy && JS.truthy_string text
            then [ {| role := "system"; content := text; tool_calls := None |} ]
            else []
        | None => []
        end
    | None => []
    end in
  let ollamaTools :=
    match cfg with
    | Some c =>
        match GenAI.tools c with
        | Some ts =>
            if toolsSupported && nonEmpty ts then Some (pushTools ts) else None
        | None => None
        end
    | None => None
    end in
  let messages1 :=
    List.fold_left (contentTurn toolsSupported)
      (GenAI.contentsArr (GenAI.contents request)) messages0 in
  {| p_messages := messages1;
     p_tools :=
       match ollamaTools with
       | Some l => if nonEmpty l then Some l else None
       | None => None
       end;
     p_options :=
       {| temperature :=
            match cfg with
            | Some c => GenAI.temperature c
            | None => None
            end |} |}.

(** The body of the [for await] loop of the second version: every chunk
    is yielded. *)
Definition streamStep (counts : Z * Z * Z) (chunk : ChatResponse)
  : (Z * Z * Z) * StreamChunk :=
  let '(prompt0, candidates0, total0) := counts in
  let content := Ollama.contentOf (message chunk) in
  let parts :=
    (if JS.truthy_string content then [GenAI.TextPart content] else []) ++
    Ollama.toolCallParts (message chunk) in
  let prompt :=
    if Ollama.truthy_count (prompt_eval_count chunk)
    then Ollama.or_zero (prompt_eval_count chunk) else prompt0 in
  let candidates :=
    if Ollama.truthy_count (eval_count chunk)
    then Ollama.or_zero (eval_count chunk) else candidates0 in
  let total :=
    if Ollama.truthy_count (prompt_eval_count chunk)
       || Ollama.truthy_count (eval_count chunk)
    then prompt + candidates else total0 in
  ((prompt, candidates, total),
   {| response :=
        {| GenAI.responseParts := parts;
           GenAI.finishReason := if done chunk then Some "STOP" else None;
           GenAI.usageMetadata :=
             {| GenAI.promptTokenCount := prompt;
                GenAI.candidatesTokenCount := candidates;
                GenAI.totalTokenCount := total |} |};
      text := if JS.truthy_string content then Some content else None;
      functionCalls :=
        match message chunk with
        | Some msg =>
            option_map
              (List.map (fun tc => (function_name tc, function_arguments tc)))
              (tool_calls msg)
        | None => None
        end |}).

Fixpoint streamLoop (counts : Z * Z * Z) (cs : list ChatResponse)
  : list StreamChunk :=
  match cs with
  | [] => []
  | chunk :: rest =>
      let '(counts', out) := streamStep counts chunk in
      out :: streamLoop counts' rest
  end.

End OllamaPlain.

(** ** API-key storage *)

(** An awaited promise: rejected with a message, or fulfilled. *)
Definition Awaited (A : Type) : Type := (string + A)%type.

Module TokenStorage.

Record OAuthToken : Type := {
  accessToken : string;
  tokenType : string
}.

Record OAuthCredentials : Type := {
  serverName : string;
  token : option OAuthToken;
  updatedAt : Z
}.

(** What the helpers ask of the [storage] object: three operations on a
    store in state [S], each of which may throw.  A throwing [set] or
    [delete] still leaves the store in some state. *)
Class Store (S : Type) : Type := {
  getCredentials : S -> string -> Awaited (option OAuthCredentials);
  setCredentials : S -> OAuthCredentials -> S * Awaited unit;
  deleteCredentials : S -> string -> S * Awaited unit
}.

(** Modelled from the spec: [HybridTokenStorage] is imported from
    [../mcp/token-storage/hybrid-token-storage.js] and is not among the
    sources at hand.  The spec gives it as a keyed store,
    [get(key) -> credentials | absent], [set(key, credentials) -> ok],
    [delete(key) -> ok], whose operations may fail.  This store is its
    entries and, for each operation, the error it currently fails with,
    if any; a failed operation leaves the entries as they were. *)
Record KeyedStore : Type := {
  entries : gmap string OAuthCredentials;
  getError : option string;
  setError : option string;
  deleteError : option string
}.

Definition withEntries (st : KeyedStore) (m : gmap string OAuthCredentials)
  : KeyedStore :=
  {| entries := m; getError := getError st; setError := setError st;
     deleteError := deleteError st |}.

(** Modelled from the spec: the three operations of the keyed store. *)
#[global] Instance keyedStore : Store KeyedStore := {
  getCredentials st key :=
    match getError st with
    | Some e => inl e
    | None => inr (entries st !! key)
    end;
  setCredentials st c :=
    match setError st with
    | Some e => (st, inl e)
    | None => (withEntries st (<[serverName c := c]> (entries st)), inr tt)
    end;
  deleteCredentials st key :=
    match deleteError st with
    | Some e => (st, inl e)
    | None => (withEntries st (delete key (entries st)), inr tt)
    end
}.

End TokenStorage.

Module ApiKeyCredentialStorage.

Import TokenStorage.

Definition DEFAULT_API_KEY_ENTRY : string := "default-api-key".
Definition ANTHROPIC_API_KEY_ENTRY : string := "anthropic-api-key".

(** [credentials?.token?.accessToken] when truthy, else [null]. *)
Definition accessTokenOf (credentials : option OAuthCredentials) : option string :=
  match credentials with
  | Some c =>
      match token c with
      | Some t => if JS.truthy_string (accessToken t) then Some (accessToken t) else None
      | None => None
      end
  | None => None
  end.

Section WithStore.

Context {S : Type} `{Store S}.

(** The body shared by [loadApiKey] and [loadAnthropicApiKey]: the
    [catch] logs and returns [null]. *)
Definition loadEntry (entry : string) (st : S) : Awaited (option string) :=
  match getCredentials st entry with
  | inr credentials => inr (accessTokenOf credentials)
  | inl _ => inr None
  end.

Definition loadApiKey : S -> Awaited (option string) :=
  loadEntry DEFAULT_API_KEY_ENTRY.
Definition loadAnthropicApiKey : S -> Awaited (option string) :=
  loadEntry ANTHROPIC_API_KEY_ENTRY.

(** The body shared by [clearApiKey] and [clearAnthropicApiKey]: the
    [catch] logs and the function returns normally. *)
Definition clearEntry (entry : string) (st : S) : S * Awaited unit :=
  match deleteCredentials st entry with
  | (st', inr _) => (st', inr tt)
  | (st', inl _) => (st', inr tt)
  end.

Definition clearApiKey : S -> S * Awaited unit := clearEntry DEFAULT_API_KEY_ENTRY.
Definition clearAnthropicApiKey : S -> S * Awaited unit :=
  clearEntry ANTHROPIC_API_KEY_ENTRY.

(** The body shared by [saveApiKey] and [saveAnthropicApiKey]; [now] is
    [Date.now()].  A failing [setCredentials] is not caught. *)
Definition saveEntry (entry : string) (st : S) (apiKey : option string)
  (now : Z) : S * Awaited unit :=
  match apiKey with
  | Some k =>
      if negb (JS.truthy_string k) || negb (JS.truthy_string (JS.trim k))
      then clearEntry entry st
      else
        setCredentials st
          {| serverName := entry;
             token := Some {| accessToken := k; tokenType := "ApiKey" |};
             updatedAt := now |}
  | None => clearEntry entry st
  end.

Definition saveApiKey := saveEntry DEFAULT_API_KEY_ENTRY.
Definition saveAnthropicApiKey := saveEntry ANTHROPIC_API_KEY_ENTRY.

End WithStore.

End ApiKeyCredentialStorage.

(** ** The Anthropic adapter *)

Module AnthropicAPI.

Inductive ContentBlockParam : Type :=
| ToolResultParam (tool_use_id : JValue) (content : string)
| TextParam (text : string)
| ToolUseParam (id : JValue) (name : option JValue) (input : JValue).

Record MessageParam : Type := {
  role : string;
  content : list ContentBlockParam
}.

Record Tool : Type := {
  name : option string;
  description : string;
  input_schema : JValue
}.

(** The argument of [messages.create] and [messages.stream]. *)
Record MessagesRequest : Type := {
  model : string;
  system : option string;
  messages : list MessageParam;
  tools : option (list Tool);
  temperature : option Q;
  max_tokens : Z
}.

Inductive ContentBlock : Type :=
| TextBlock (text : string)
| ToolUseBlock (id : string) (name : string) (input : JValue)
| OtherBlock.

Record Message : Type := {
  blocks : list ContentBlock;
  input_tokens : Z;
  output_tokens : Z
}.

(** Stream events, as far as the generator tells them apart. *)
Inductive StreamEvent : Type :=
| MessageStart (usage_input_tokens : option Z)
| TextDelta (text : string)
| MessageDelta (usage_output_tokens : option Z)
| OtherEvent.

(** A streamed reply: its events, the error that ends the iteration if
    any, and what [finalMessage()] gives; the usage of the final message
    may be missing. *)
Record MessageStream : Type := {
  events : list StreamEvent;
  failure : option string;
  finalBlocks : list ContentBlock;
  finalOutputTokens : option Z;
  finalFailure : option string
}.

Record Server : Type := {
  create : list MessagesRequest -> MessagesRequest -> string + Message;
  stream : list MessagesRequest -> MessagesRequest -> string + MessageStream
}.

End AnthropicAPI.

Module Anthropic.

Import AnthropicAPI.

Definition resolveModel (m : string) : string :=
  if JS.startsWith "anthropic/" m
  then String.substring 10 (String.length m - 10) m else m.

(** An instance: [this.model] and the client, once it has a key. *)
Record Instance : Type := {
  model : string;
  anthropic : option string
}.

Definition create (m : string) : Instance :=
  {| model := resolveModel m; anthropic := None |}.

(** What the adapter reads of its surroundings: the environment variable
    [ANTHROPIC_API_KEY] and the credential store. *)
Record Environment (S : Type) : Type := {
  ANTHROPIC_API_KEY : option string;
  storage : S
}.
Arguments ANTHROPIC_API_KEY {S}.
Arguments storage {S}.

(** [getAnthropic()]: the instance with its client and the key of the
    client, or the thrown message. *)
Definition getAnthropic {S : Type} `{TokenStorage.Store S}
  (self : Instance) (env : Environment S) : Awaited (Instance * string) :=
  match anthropic self with
  | Some key => inr (self, key)
  | None =>
      let key : Awaited (option string) :=
        match ANTHROPIC_API_KEY env with
        | Some k =>
            if JS.truthy_string k then inr (Some k)
            else ApiKeyCredentialStorage.loadAnthropicApiKey (storage env)
        | None => ApiKeyCredentialStorage.loadAnthropicApiKey (storage env)
        end in
      match key with
      | inr (Some k) =>
          if JS.truthy_string k
          then inr ({| model := model self; anthropic := Some k |}, k)
          else inl "Anthropic API key is missing. Please set ANTHROPIC_API_KEY or run 'auth' to set it."
      | inr None =>
          inl "Anthropic API key is missing. Please set ANTHROPIC_API_KEY or run 'auth' to set it."
      | inl e => inl e
      end
  end.

(** The result of [mapGeminiParamsToAnthropic]. *)
Record Params : Type := {
  p_system : option string;
  p_messages : list MessageParam;
  p_tools : option (list Tool);
  p_temperature : option Q;
  p_max_tokens : Z
}.

Definition mapDeclaration (fd : GenAI.FunctionDeclaration) : Tool :=
  {| name := GenAI.name fd;
     description := JS.or_string (GenAI.description fd) EmptyString;
     input_schema :=
       or_value (GenAI.parameters fd)
         (JObject [("type", JString "object"); ("properties", JObject [])]) |}.

Definition toolResultBlock (part : GenAI.Part) : ContentBlockParam :=
  match GenAI.functionResponse part with
  | Some fr =>
      ToolResultParam (or_value (JSON.get "id" fr) (JString "unknown_id"))
        (JSON.stringify (or_value (JSON.get "response" fr) (JObject [])))
  | None => ToolResultParam (JString "unknown_id") (JSON.stringify (JObject []))
  end.

Definition toolUseBlock (part : GenAI.Part) : ContentBlockParam :=
  match GenAI.functionCall part with
  | Some fc =>
      ToolUseParam (or_value (JSON.get "id" fc) (JString "unknown_id"))
        (JSON.get "name" fc) (or_value (JSON.get "args" fc) (JObject []))
  | None => ToolUseParam (JString "unknown_id") None (JObject [])
  end.

(** One turn of the loop over [contentsArr]. *)
Definition mapContent (c : GenAI.Content) : list MessageParam :=
  let role :=
    match GenAI.role c with
    | Some r => if String.eqb r "model" then "assistant" else "user"
    | None => "user"
    end in
  let functionResponseParts := GenAI.filterParts GenAI.hasFunctionResponse c in
  let textParts := GenAI.filterParts GenAI.hasText c in
  let functionCallParts := GenAI.filterParts GenAI.hasFunctionCall c in
  let contentBlocks :=
    List.map toolResultBlock functionResponseParts ++
    (if nonEmpty textParts
     then [TextParam
             (JS.join EmptyString
                (List.map (fun p => JS.or_string (GenAI.text p) EmptyString)
                   textParts))]
     else []) ++
    List.map toolUseBlock functionCallParts in
  if nonEmpty contentBlocks
  then [ {| role := role; content := contentBlocks |} ]
  else [].

(** [mapGeminiParamsToAnthropic(request)]; the instance has no
    tool-support flag to read. *)
Definition mapGeminiParamsToAnthropic
  (request : GenAI.GenerateContentParameters) : Params :=
  let systemText :=
    match GenAI.config request with
    | Some cfg =>
        match GenAI.systemInstruction cfg with
        | Some (GenAI.InstructionString EmptyString) => EmptyString
        | Some si => systemInstructionText si
        | None => EmptyString
        end
    | None => EmptyString
    end in
  let anthropicTools :=
    match GenAI.config request with
    | Some cfg =>
        match GenAI.tools cfg with
        | Some ts =>
            if nonEmpty ts
            then Some (List.map mapDeclaration (GenAI.declarations request))
            else None
        | None => None
        end
    | None => None
    end in
  {| p_system := if JS.truthy_string systemText then Some systemText else None;
     p_messages :=
       List.flat_map mapContent (GenAI.contentsArr (GenAI.contents request));
     p_tools :=
       match anthropicTools with
       | Some (t :: ts) => Some (t :: ts)
       | _ => None
       end;
     p_temperature :=
       match GenAI.config request with
       | Some cfg => GenAI.temperature cfg
       | None => None
       end;
     p_max_tokens := 8192 |}.

(** The argument both public methods build from [params]. *)
Definition messagesRequest (m : string) (params : Params) : MessagesRequest :=
  {| AnthropicAPI.model := m; system := p_system params;
     messages := p_messages params; tools := p_tools params;
     temperature := p_temperature params; max_tokens := p_max_tokens params |}.

(** The parts of a message: text blocks and tool-use blocks. *)
Definition partsOf (bs : list ContentBlock) : list GenAI.ResponsePart :=
  List.flat_map
    (fun block =>
       match block with
       | TextBlock t => [GenAI.TextPart t]
       | ToolUseBlock i n input =>
           [GenAI.FunctionCallPart (Some (JString n)) (Some input) (Some (JString i))]
       | OtherBlock => []
       end) bs.

Definition toResponse (response : Message) : GenAI.GenerateContentResponse :=
  {| GenAI.responseParts := partsOf (blocks response);
     GenAI.finishReason := None;
     GenAI.usageMetadata :=
       {| GenAI.promptTokenCount := input_tokens response;
          GenAI.candidatesTokenCount := output_tokens response;
          GenAI.totalTokenCount := input_tokens response + output_tokens response |} |}.

Record Outcome (A : Type) : Type := {
  result : A;
  instance : Instance;
  sent : list MessagesRequest
}.
Arguments result {A}.
Arguments instance {A}.
Arguments sent {A}.

Section WithServer.

Context {S : Type} `{TokenStorage.Store S}.
Variable srv : Server.
Variable env : Environment S.

Definition wrapError (e : string) : string :=
  String.append "Anthropic generateContent failed: " e.

(** [generateContent(request)] *)
Definition generateContent (self : Instance) (log : list MessagesRequest)
  (request : GenAI.GenerateContentParameters)
  : Outcome (string + GenAI.GenerateContentResponse) :=
  let params := mapGeminiParamsToAnthropic request in
  match getAnthropic self env with
  | inl e => {| result := inl (wrapError e); instance := self; sent := log |}
  | inr (self', _) =>
      let args := messagesRequest (model self) params in
      match AnthropicAPI.create srv log args with
      | inr response =>
          {| result := inr (toResponse response); instance := self';
             sent := log ++ [args] |}
      | inl e =>
          {| result := inl (wrapError e); instance := self'; sent := log ++ [args] |}
      end
  end.

(** The variables of the generator that live across events. *)
Record StreamState : Type := {
  promptTokenCount : Z;
  candidatesTokenCount : Z;
  currentText : string
}.

Definition chunkOf (st : StreamState) (ps : list GenAI.ResponsePart)
  : GenAI.GenerateContentResponse :=
  {| GenAI.responseParts := ps;
     GenAI.finishReason := None;
     GenAI.usageMetadata :=
       {| GenAI.promptTokenCount := promptTokenCount st;
          GenAI.candidatesTokenCount := candidatesTokenCount st;
          GenAI.totalTokenCount := promptTokenCount st + candidatesTokenCount st |} |}.

(** The body of the [for await] loop: every event yields the text so far. *)
Definition streamStep (st : StreamState) (chunk : StreamEvent)
  : StreamState * GenAI.GenerateContentResponse :=
  let st' :=
    match chunk with
    | MessageStart (Some n) =>
        {| promptTokenCount := n; candidatesTokenCount := candidatesTokenCount st;
           currentText := currentText st |}
    | TextDelta t =>
        {| promptTokenCount := promptTokenCount st;
           candidatesTokenCount := candidatesTokenCount st;
           currentText := String.append (currentText st) t |}
    | MessageDelta (Some n) =>
        {| promptTokenCount := promptTokenCount st; candidatesTokenCount := n;
           currentText := currentText st |}
    | _ => st
    end in
  (st', chunkOf st' [GenAI.TextPart (currentText st')]).

Fixpoint streamLoop (st : StreamState) (es : list StreamEvent)
  : StreamState * list GenAI.GenerateContentResponse :=
  match es with
  | [] => (st, [])
  | e :: rest =>
      let '(st1, y) := streamStep st e in
      let '(st2, ys) := streamLoop st1 rest in
      (st2, y :: ys)
  end.

Record Drained : Type := {
  yielded : list GenAI.GenerateContentResponse;
  thrown : option string
}.

Definition wrapStreamError (e : string) : string :=
  String.append "Anthropic generateContentStream failed: " e.

(** The generator body once the stream is established. *)
Definition drain (s : MessageStream) : Drained :=
  let '(st, ys) :=
    streamLoop {| promptTokenCount := 0; candidatesTokenCount := 0;
                  currentText := EmptyString |} (events s) in
  match failure s with
  | Some e => {| yielded := ys; thrown := Some (wrapStreamError e) |}
  | None =>
      match finalFailure s with
      | Some e => {| yielded := ys; thrown := Some (wrapStreamError e) |}
      | None =>
          let st' :=
            match finalOutputTokens s with
            | Some n =>
                {| promptTokenCount := promptTokenCount st;
                   candidatesTokenCount := n; currentText := currentText st |}
            | None => st
            end in
          let parts := partsOf (finalBlocks s) in
          {| yielded := if nonEmpty parts then ys ++ [chunkOf st' parts] else ys;
             thrown := None |}
      end
  end.

(** [generateContentStream(request)], drained.  A missing key is thrown
    by the method itself, before any generator exists, and is not
    wrapped. *)
Definition generateContentStream (self : Instance) (log : list MessagesRequest)
  (request : GenAI.GenerateContentParameters) : Outcome Drained :=
  let params := mapGeminiParamsToAnthropic request in
  match getAnthropic self env with
  | inl e =>
      {| result := {| yielded := []; thrown := Some e |}; instance := self;
         sent := log |}
  | inr (self', _) =>
      let args := messagesRequest (model self) params in
      match AnthropicAPI.stream srv log args with
      | inr s => {| result := drain s; instance := self'; sent := log ++ [args] |}
      | inl e =>
          {| result := {| yielded := []; thrown := Some (wrapStreamError e) |};
             instance := self'; sent := log ++ [args] |}
      end
  end.

End WithServer.

(** [p.text || JSON.stringify(p.functionCall || {})] *)
Definition partText (p : GenAI.Part) : string :=
  if GenAI.hasText p then JS.or_string (GenAI.text p) EmptyString
  else
    JSON.stringify
      (JObject (match GenAI.functionCall p with Some fc => fc | None => [] end)).

Definition contentText (c : GenAI.Content) : string :=
  match GenAI.parts c with
  | Some ps => JS.join " " (List.map partText ps)
  | None => EmptyString
  end.

Definition totalText (cs : GenAI.Contents) : string :=
  String.concat EmptyString (List.map contentText (GenAI.contentsArr cs)).

(** [countTokens(request)]: the [totalTokens] of the result. *)
Definition countTokens (cs : GenAI.Contents) : Z :=
  JS.ceil_div (Z.of_nat (String.length (totalText cs))) 4.

(** [embedContent(request)] always throws. *)
Definition embedContent (cs : GenAI.Contents) : string + list Q :=
  inl "Embeddings API is not supported via Anthropic module yet.".

End Anthropic.

(** ** The adapters side by side *)

(** The tool-support state of the spec; the Ollama instance holds it as
    the boolean [toolsSupported]. *)
Inductive ToolSupportState : Type := Enabled | Disabled.

Definition isEnabled (st : ToolSupportState) : bool :=
  match st with Enabled => true | Disabled => false end.

Definition toolSupportState (self : Ollama.Instance) : ToolSupportState :=
  if Ollama.toolsSupported self then Enabled else Disabled.

Inductive Backend : Type := OllamaBackend | AnthropicBackend.

(** Whether the translated payload carries tool declarations.  Only the
    Ollama translation reads the state. *)
Definition translationHasTools (b : Backend) (st : ToolSupportState)
  (request : GenAI.GenerateContentParameters) : bool :=
  match b with
  | OllamaBackend =>
      nonEmpty
        (match OllamaAPI.p_tools (Ollama.mapGeminiParamsToOllama (isEnabled st) request) with
         | Some l => l
         | None => []
         end)
  | AnthropicBackend =>
      nonEmpty
        (match Anthropic.p_tools (Anthropic.mapGeminiParamsToAnthropic request) with
         | Some l => l
         | None => []
         end)
  end.

Definition hasDeclaration (request : GenAI.GenerateContentParameters) : bool :=
  nonEmpty (GenAI.declarations request).

(** Tool content of an Ollama request: declarations, tool-result
    messages, tool calls attached to a message. *)
Definition toolResultMessages (ms : list OllamaAPI.Message) : list OllamaAPI.Message :=
  List.filter OllamaAPI.isToolMessage ms.

Definition carriesToolCalls (m : OllamaAPI.Message) : bool :=
  match OllamaAPI.tool_calls m with Some _ => true | None => false end.

Definition declarationCount (r : OllamaAPI.ChatRequest) : nat :=
  match OllamaAPI.tools r with Some l => List.length l | None => O end.

(** An adapter with what its [embedContent] needs. *)
Inductive Adapter : Type :=
| OllamaAdapter (srv : OllamaAPI.Server) (self : Ollama.Instance)
| AnthropicAdapter (self : Anthropic.Instance).


Definition embedContent (a : Adapter) (cs : GenAI.Contents) : string + list Q :=
  match a with
  | OllamaAdapter srv self => Ollama.embedContent srv self cs
  | AnthropicAdapter _ => Anthropic.embedContent cs
  end.


(** All parts of a drained stream, in order. *)
Definition allParts (ys : list OllamaAPI.StreamChunk) : list GenAI.ResponsePart :=
  List.flat_map (fun y => GenAI.responseParts (OllamaAPI.response y)) ys.

Definition textPartsOf (ps : list GenAI.ResponsePart) : list GenAI.ResponsePart :=
  List.filter GenAI.isTextPart ps.

Definition functionCallPartsOf (ps : list GenAI.ResponsePart) : list GenAI.ResponsePart :=
  List.filter GenAI.isFunctionCallPart ps.

(** The last element of a list, if there is one. *)
Fixpoint lastOf {A : Type} (l : list A) : option A :=
  match l with
  | [] => None
  | [x] => Some x
  | _ :: r => lastOf r
  end.

(** ** The token estimate in the words of the spec *)

Module SpecWords.

(** "all text parts and the stringified form of all function-call/response
    payloads": what one part contributes. *)
Definition pieces (p : GenAI.Part) : list string :=
  (match GenAI.text p with Some s => [s] | None => [] end) ++
  (match GenAI.functionCall p with Some fc => [JSON.stringify (JObject fc)] | None => [] end) ++
  (match GenAI.functionResponse p with Some fr => [JSON.stringify (JObject fr)] | None => [] end).

(** "across all messages in the request, separated by spaces" *)
Definition concatenation (cs : GenAI.Contents) : string :=
  JS.join " "
    (List.flat_map
       (fun c => match GenAI.parts c with
                 | Some ps => List.flat_map pieces ps
                 | None => []
                 end)
       (GenAI.contentsArr cs)).

(** "return ceil(characterCount / 4)" *)
Definition countTokens (cs : GenAI.Contents) : Z :=
  JS.ceil_div (Z.of_nat (String.length (concatenation cs))) 4.

End SpecWords.

(** The length the source counts: message by message, the parts' strings
    and one space between neighbours; nothing between messages. *)
Definition partLength (p : GenAI.Part) : nat :=
  match GenAI.text p with
  | Some (String c r) => String.length (String c r)
  | _ =>
      String.length
        (JSON.stringify
           (JObject (match GenAI.functionCall p with Some fc => fc | None => [] end)))
  end.

Definition sumNat (l : list nat) : nat := List.fold_right Nat.add O l.

Definition contentLength (c : GenAI.Content) : nat :=
  match GenAI.parts c with
  | Some ps => (sumNat (List.map partLength ps) + (List.length ps - 1))%nat
  | None => O
  end.

Definition estimatedLength (cs : GenAI.Contents) : nat :=
  sumNat (List.map contentLength (GenAI.contentsArr cs)).

(** ** Sample data *)

Module Samples.

Definition userText (s : string) : GenAI.Content :=
  {| GenAI.role := Some "user"; GenAI.parts := Some [GenAI.textPart s] |}.

Definition weatherDeclaration : GenAI.FunctionDeclaration :=
  {| GenAI.name := Some "get_weather"; GenAI.description := None;
     GenAI.parameters := None |}.

Definition weatherConfig : GenAI.Config :=
  {| GenAI.systemInstruction := None;
     GenAI.tools := Some [ {| GenAI.functionDeclarations := Some [weatherDeclaration] |} ];
     GenAI.temperature := None |}.

(** A request that declares one tool and has no contents. *)
Definition declaringRequest : GenAI.GenerateContentParameters :=
  {| GenAI.config := Some weatherConfig; GenAI.contents := GenAI.NoContents |}.

(** A conversation in which the model called the tool and the caller
    answered. *)
Definition toolRoundTrip : GenAI.GenerateContentParameters :=
  {| GenAI.config := Some weatherConfig;
     GenAI.contents :=
       GenAI.ContentArray
         [ userText "weather in Paris?";
           {| GenAI.role := Some "model";
              GenAI.parts :=
                Some [GenAI.functionCallPart
                        [("name", JString "get_weather");
                         ("args", JObject [("city", JString "Paris")])]] |};
           {| GenAI.role := Some "user";
              GenAI.parts :=
                Some [GenAI.functionResponsePart
                        [("name", JString "get_weather");
                         ("response", JObject [("celsius", JNumber 21)])]] |} ] |}.

Definition reply (s : string) (d : bool) : OllamaAPI.ChatResponse :=
  {| OllamaAPI.message :=
       Some {| OllamaAPI.role := "assistant"; OllamaAPI.content := s;
               OllamaAPI.tool_calls := None |};
     OllamaAPI.prompt_eval_count := None; OllamaAPI.eval_count := None;
     OllamaAPI.done := d |}.

(** A model without tool support: the server rejects every request that
    declares tools. *)
Definition refusingServer : OllamaAPI.Server :=
  {| OllamaAPI.chat := fun _ r =>
       match OllamaAPI.tools r with
       | Some _ => inl "registry.ollama.ai/library/gemma:2b does not support tools"
       | None => inr (reply "21 degrees" true)
       end;
     OllamaAPI.chatStream := fun _ r =>
       match OllamaAPI.tools r with
       | Some _ => inl "registry.ollama.ai/library/gemma:2b does not support tools"
       | None =>
           inr {| OllamaAPI.chunks := [reply "21 " false; reply "degrees" true];
                  OllamaAPI.failure := None |}
       end;
     OllamaAPI.embeddings := fun _ _ => inr [] |}.

(** The three fragments of the spec's streaming case, closed by an empty
    final chunk, and the same with the last fragment closing the stream. *)
Definition splitBrace : list OllamaAPI.ChatResponse :=
  [ reply "{" false; reply (JS.q "'name':'foo',") false;
    reply (JS.q "'arguments':{}}") false; reply EmptyString true ].

Definition splitBrace' : list OllamaAPI.ChatResponse :=
  [ reply "{" false; reply (JS.q "'name':'foo',") false;
    reply (JS.q "'arguments':{}}") true ].

(** The same text cut after the first property. *)
Definition splitAfterName : list OllamaAPI.ChatResponse :=
  [ reply (JS.q "{'name':'foo',") false;
    reply (JS.q "'arguments':{}}") false; reply EmptyString true ].

Definition fooCallText : string := JS.q "{'name':'foo','arguments':{}}".

Definition fooCall : JValue :=
  JObject [("name", JString "foo"); ("arguments", JObject [])].

Definition twoMessages : GenAI.Contents :=
  GenAI.ContentArray [userText "ab"; userText "ab"].

Definition answeredCall : GenAI.Contents :=
  GenAI.OneContent
    {| GenAI.role := Some "user";
       GenAI.parts :=
         Some [GenAI.functionResponsePart
                 [("response", JObject [("celsius", JNumber 21)])]] |}.

Definition eightCharacters : GenAI.Contents := GenAI.OneContent (userText "abcdefgh").

Definition storedKey : TokenStorage.OAuthCredentials :=
  {| TokenStorage.serverName := "anthropic-api-key";
     TokenStorage.token :=
       Some {| TokenStorage.accessToken := "sk-ant-old";
               TokenStorage.tokenType := "ApiKey" |};
     TokenStorage.updatedAt := 1700000000000 |}.

(** A store that holds a key and works. *)
Definition workingStore : TokenStorage.KeyedStore :=
  {| TokenStorage.entries := {[ "anthropic-api-key" := storedKey ]};
     TokenStorage.getError := None; TokenStorage.setError := None;
     TokenStorage.deleteError := None |}.

(** A store that holds a key and cannot be read. *)
Definition unreadableStore : TokenStorage.KeyedStore :=
  {| TokenStorage.entries := {[ "anthropic-api-key" := storedKey ]};
     TokenStorage.getError := Some "keychain locked";
     TokenStorage.setError := None; TokenStorage.deleteError := None |}.

(** A store that holds a key and refuses to delete. *)
Definition undeletableStore : TokenStorage.KeyedStore :=
  {| TokenStorage.entries := {[ "anthropic-api-key" := storedKey ]};
     TokenStorage.getError := None; TokenStorage.setError := None;
     TokenStorage.deleteError := Some "keychain is read-only" |}.

Definition helloStream : AnthropicAPI.MessageStream :=
  {| AnthropicAPI.events :=
       [ AnthropicAPI.MessageStart (Some 12); AnthropicAPI.TextDelta "Hello";
         AnthropicAPI.MessageDelta (Some 2) ];
     AnthropicAPI.failure := None;
     AnthropicAPI.finalBlocks := [AnthropicAPI.TextBlock "Hello"];
     AnthropicAPI.finalOutputTokens := Some 2;
     AnthropicAPI.finalFailure := None |}.

Definition helloServer : AnthropicAPI.Server :=
  {| AnthropicAPI.create := fun _ _ =>
       inr {| AnthropicAPI.blocks := [AnthropicAPI.TextBlock "Hello"];
              AnthropicAPI.input_tokens := 12; AnthropicAPI.output_tokens := 2 |};
     AnthropicAPI.stream := fun _ _ => inr helloStream |}.

Definition keyInEnvironment : Anthropic.Environment TokenStorage.KeyedStore :=
  {| Anthropic.ANTHROPIC_API_KEY := Some "sk-ant-env";
     Anthropic.storage := workingStore |}.

Definition greeting : GenAI.GenerateContentParameters :=
  {| GenAI.config := None; GenAI.contents := GenAI.OneContent (userText "Hi") |}.

End Samples.


(** ** The input filters of the two dialogs *)

(** [text.replace(/[class]/g, '')]: every code unit of the class is
    dropped. *)
Fixpoint removeAll (inClass : ascii -> bool) (text : string) : string :=
  match text with
  | EmptyString => EmptyString
  | String c r =>
      if inClass c then removeAll inClass r else String c (removeAll inClass r)
  end.

(** The class [[\r\n]]. *)
Definition isLineBreak (c : ascii) : bool :=
  (nat_of_ascii c =? 13)%nat || (nat_of_ascii c =? 10)%nat.

Module AnthropicAuthDialog.

(** The complement of the class [[^a-zA-Z0-9_-]]. *)
Definition isKeyCharacter (c : ascii) : bool :=
  let n := nat_of_ascii c in
  ((97 <=? n) && (n <=? 122))%nat || ((65 <=? n) && (n <=? 90))%nat
  || ((48 <=? n) && (n <=? 57))%nat || (n =? 95)%nat || (n =? 45)%nat.

(** [inputFilter] of the text buffer. *)
Definition inputFilter (text : string) : string :=
  removeAll isLineBreak (removeAll (fun c => negb (isKeyCharacter c)) text).

End AnthropicAuthDialog.

Module OllamaModelDialog.

(** [inputFilter] of the text buffer. *)
Definition inputFilter (text : string) : string := removeAll isLineBreak text.

End OllamaModelDialog.

(** ** Words for the properties below *)

(** A message that says something: a tool result, a text that is not
    empty, or at least one tool call. *)
Definition saysSomething (m : OllamaAPI.Message) : Prop :=
  OllamaAPI.isToolMessage m = true
  \/ JS.truthy_string (OllamaAPI.content m) = true
  \/ exists call calls, OllamaAPI.tool_calls m = Some (call :: calls).

(** [tool_calls] is absent or holds at least one call. *)
Definition callsWellFormed (m : OllamaAPI.Message) : Prop :=
  OllamaAPI.tool_calls m <> Some [].

Definition hasStop (y : OllamaAPI.StreamChunk) : bool :=
  match GenAI.finishReason (OllamaAPI.response y) with
  | Some r => String.eqb r "STOP"
  | None => false
  end.

Definition usageAddsUp (u : GenAI.UsageMetadata) : Prop :=
  GenAI.totalTokenCount u = GenAI.promptTokenCount u + GenAI.candidatesTokenCount u.

(** The parts a server chunk holds by itself: its text, if any, then its
    structured tool calls. *)
Definition ownParts (chunk : OllamaAPI.ChatResponse) : list GenAI.ResponsePart :=
  (if JS.truthy_string (Ollama.contentOf (OllamaAPI.message chunk))
   then [GenAI.TextPart (Ollama.contentOf (OllamaAPI.message chunk))] else []) ++
  Ollama.toolCallParts (OllamaAPI.message chunk).

(** The text of the text deltas of a list of events, in order. *)
Fixpoint deltaText (es : list AnthropicAPI.StreamEvent) : string :=
  match es with
  | [] => EmptyString
  | AnthropicAPI.TextDelta t :: r => String.append t (deltaText r)
  | _ :: r => deltaText r
  end.

(** The identifier of a block that refers to a tool call. *)
Definition blockId (b : AnthropicAPI.ContentBlockParam) : option JValue :=
  match b with
  | AnthropicAPI.ToolResultParam i _ => Some i
  | AnthropicAPI.ToolUseParam i _ _ => Some i
  | AnthropicAPI.TextParam _ => None
  end.

Definition isKeyMissingMessage (e : string) : bool :=
  String.eqb e
    "Anthropic API key is missing. Please set ANTHROPIC_API_KEY or run 'auth' to set it.".

(** ** More sample data *)

Module MoreSamples.

(** A server that cannot be reached. *)
Definition downServer : OllamaAPI.Server :=
  {| OllamaAPI.chat := fun _ _ => inl "connect ECONNREFUSED 127.0.0.1:11434";
     OllamaAPI.chatStream := fun _ _ => inl "connect ECONNREFUSED 127.0.0.1:11434";
     OllamaAPI.embeddings := fun _ _ => inl "connect ECONNREFUSED 127.0.0.1:11434" |}.

Definition disabledInstance : Ollama.Instance :=
  Ollama.disable (Ollama.create "ollama/gemma:2b").

Definition helloWorld : list OllamaAPI.ChatResponse :=
  [ Samples.reply "Hello " false; Samples.reply "world" false;
    Samples.reply EmptyString true ].

(** A stream whose text looks like a tool call but is not valid JSON. *)
Definition brokenCall : list OllamaAPI.ChatResponse :=
  [ Samples.reply (JS.q "{'name': oops") false ].

Definition heldBack : Ollama.StreamState :=
  {| Ollama.promptTokenCount := 0; Ollama.candidatesTokenCount := 0;
     Ollama.totalTokenCount := 0;
     Ollama.accumulatedText := JS.q "{'name': ";
     Ollama.isPotentiallyJson := true |}.

Definition emptyStore : TokenStorage.KeyedStore :=
  {| TokenStorage.entries := ∅;
     TokenStorage.getError := None; TokenStorage.setError := None;
     TokenStorage.deleteError := None |}.

Definition readOnlyStore : TokenStorage.KeyedStore :=
  {| TokenStorage.entries := ∅;
     TokenStorage.getError := None;
     TokenStorage.setError := Some "keychain is read-only";
     TokenStorage.deleteError := Some "keychain is read-only" |}.

Definition noKey : Anthropic.Environment TokenStorage.KeyedStore :=
  {| Anthropic.ANTHROPIC_API_KEY := None; Anthropic.storage := emptyStore |}.

Definition keyInStore : Anthropic.Environment TokenStorage.KeyedStore :=
  {| Anthropic.ANTHROPIC_API_KEY := Some EmptyString;
     Anthropic.storage := Samples.workingStore |}.

Definition keyInBoth : Anthropic.Environment TokenStorage.KeyedStore :=
  {| Anthropic.ANTHROPIC_API_KEY := Some "sk-ant-env";
     Anthropic.storage := Samples.unreadableStore |}.

End MoreSamples.

(** * Properties *)

(** ** Lists and strings *)

Section ListFacts.

Context {A B : Type}.

Lemma fold_left_push (f : A -> B) (l : list A) (init : list B) :
  List.fold_left (fun acc x => acc ++ [f x]) l init = init ++ List.map f l.
Proof.
  revert init; induction l as [|x l IH]; intros init; simpl.
  - now rewrite app_nil_r.
  - rewrite IH, <- app_assoc. reflexivity.
Qed.

Lemma fold_left_push_many (f : A -> list B) (step : list B -> A -> list B)
  (l : list A) (init : list B) :
  (forall acc x, step acc x = acc ++ f x) ->
  List.fold_left step l init = init ++ List.flat_map f l.
Proof.
  intros Hstep. revert init; induction l as [|x l IH]; intros init; simpl.
  - now rewrite app_nil_r.
  - rewrite IH, Hstep, <- app_assoc. reflexivity.
Qed.

Lemma map_flat_map' {C : Type} (f : B -> C) (g : A -> list B) (l : list A) :
  List.map f (List.flat_map g l) = List.flat_map (fun x => List.map f (g x)) l.
Proof.
  induction l as [|x l IH]; simpl; [reflexivity|].
  now rewrite List.map_app, IH.
Qed.

Lemma nonEmpty_app (l1 l2 : list A) :
  nonEmpty (l1 ++ l2) = nonEmpty l1 || nonEmpty l2.
Proof. destruct l1; reflexivity. Qed.

Lemma nonEmpty_map (f : A -> B) (l : list A) : nonEmpty (List.map f l) = nonEmpty l.
Proof. destruct l; reflexivity. Qed.

Lemma nonEmpty_false (l : list A) : nonEmpty l = false -> l = [].
Proof. destruct l; [reflexivity | discriminate]. Qed.

End ListFacts.

Lemma string_length_append (a b : string) :
  String.length (String.append a b) = (String.length a + String.length b)%nat.
Proof. induction a as [|c a IH]; simpl; [reflexivity | now rewrite IH]. Qed.

Lemma string_append_empty (a : string) : String.append a EmptyString = a.
Proof.
  induction a as [|c a IH]; [reflexivity|].
  change (String c (String.append a EmptyString) = String c a).
  now rewrite IH.
Qed.

Lemma ceil_div_4_bounds (n : Z) :
  4 * (JS.ceil_div n 4 - 1) < n <= 4 * JS.ceil_div n 4.
Proof.
  unfold JS.ceil_div.
  pose proof (Z.div_mod (n + 4 - 1) 4 ltac:(lia)) as Hdm.
  pose proof (Z.mod_pos_bound (n + 4 - 1) 4 ltac:(lia)) as Hb.
  lia.
Qed.

(** ** The two versions of the Ollama translation *)

Lemma pushDeclarations_map (acc : list OllamaAPI.Tool)
  (fds : list GenAI.FunctionDeclaration) :
  OllamaPlain.pushDeclarations acc fds = acc ++ List.map Ollama.mapDeclaration fds.
Proof. unfold OllamaPlain.pushDeclarations. apply fold_left_push. Qed.

Lemma pushTools_declarations (ts : list GenAI.Tool) :
  OllamaPlain.pushTools ts =
  List.map Ollama.mapDeclaration
    (List.flat_map
       (fun t => match GenAI.functionDeclarations t with
                 | Some fds => fds
                 | None => []
                 end) ts).
Proof.
  unfold OllamaPlain.pushTools.
  rewrite (fold_left_push_many
             (fun t => List.map Ollama.mapDeclaration
                         (match GenAI.functionDeclarations t with
                          | Some fds => fds
                          | None => []
                          end))).
  - simpl. now rewrite map_flat_map'.
  - intros acc t. destruct (GenAI.functionDeclarations t) as [fds|]; simpl.
    + apply pushDeclarations_map.
    + now rewrite app_nil_r.
Qed.

Lemma contentTurn_mapContent (b : bool) (ms : list OllamaAPI.Message)
  (c : GenAI.Content) :
  OllamaPlain.contentTurn b ms c = ms ++ Ollama.mapContent b c.
Proof.
  unfold OllamaPlain.contentTurn, Ollama.mapContent.
  destruct (nonEmpty (GenAI.filterParts GenAI.hasFunctionResponse c) && negb b).
  - now rewrite app_nil_r.
  - rewrite (fold_left_push Ollama.toolResultMessage).
    rewrite (fold_left_push Ollama.toolCallOf). simpl.
    destruct (negb (nonEmpty (GenAI.filterParts GenAI.hasFunctionResponse c))
              || nonEmpty (GenAI.filterParts GenAI.hasText c)
              || nonEmpty (GenAI.filterParts GenAI.hasFunctionCall c)).
    + match goal with
      | |- context [if ?t then _ ++ [ _ ] else _] => destruct t
      end.
      * now rewrite <- app_assoc.
      * now rewrite app_nil_r.
    + now rewrite app_nil_r.
Qed.

(** C10.  The translation of the second version of the Ollama generator
    returns, for every request and every value of the tools-supported
    flag, the payload the first version returns: same messages, same
    tools, same options. *)
Theorem mapGeminiParamsToOllama_versions_agree
  (toolsSupported : bool) (request : GenAI.GenerateContentParameters) :
  Ollama.mapGeminiParamsToOllama toolsSupported request =
  OllamaPlain.mapGeminiParamsToOllama toolsSupported request.
Proof.
  unfold Ollama.mapGeminiParamsToOllama, OllamaPlain.mapGeminiParamsToOllama.
  rewrite (fold_left_push_many (Ollama.mapContent toolsSupported))
    by (intros; apply contentTurn_mapContent).
  f_equal.
  - f_equal. unfold Ollama.systemMessages.
    destruct (GenAI.config request) as [cfg|]; [|reflexivity].
    destruct (GenAI.systemInstruction cfg) as [[[|ch s]|ps]|]; reflexivity.
  - unfold Ollama.ollamaTools, GenAI.declarations.
    destruct (GenAI.config request) as [cfg|]; [|reflexivity].
    destruct (GenAI.tools cfg) as [ts|]; [|reflexivity].
    destruct (toolsSupported && nonEmpty ts); [|reflexivity].
    rewrite pushTools_declarations.
    now destruct (List.map Ollama.mapDeclaration _).
Qed.

(** ** Tool declarations in the translated payload *)

Lemma declarations_of_tools (cfg : GenAI.Config) (ts : list GenAI.Tool)
  (request : GenAI.GenerateContentParameters) :
  GenAI.config request = Some cfg -> GenAI.tools cfg = Some ts ->
  nonEmpty ts = false -> GenAI.declarations request = [].
Proof.
  intros Hc Ht Hts. unfold GenAI.declarations. rewrite Hc, Ht.
  now rewrite (nonEmpty_false _ Hts).
Qed.

Lemma ollama_tools_present (b : bool) (request : GenAI.GenerateContentParameters) :
  nonEmpty
    (match OllamaAPI.p_tools (Ollama.mapGeminiParamsToOllama b request) with
     | Some l => l
     | None => []
     end) = b && hasDeclaration request.
Proof.
  unfold hasDeclaration. simpl. unfold Ollama.ollamaTools.
  destruct (GenAI.config request) as [cfg|] eqn:Hc;
    [|unfold GenAI.declarations; rewrite Hc; now rewrite andb_false_r].
  destruct (GenAI.tools cfg) as [ts|] eqn:Ht;
    [|unfold GenAI.declarations; rewrite Hc, Ht; now rewrite andb_false_r].
  destruct b; simpl.
  - destruct (nonEmpty ts) eqn:Hts.
    + rewrite <- (nonEmpty_map Ollama.mapDeclaration).
      now destruct (List.map Ollama.mapDeclaration _).
    + now rewrite (declarations_of_tools cfg ts request Hc Ht Hts).
  - reflexivity.
Qed.

Lemma anthropic_tools_present (request : GenAI.GenerateContentParameters) :
  nonEmpty
    (match Anthropic.p_tools (Anthropic.mapGeminiParamsToAnthropic request) with
     | Some l => l
     | None => []
     end) = hasDeclaration request.
Proof.
  unfold hasDeclaration. simpl.
  destruct (GenAI.config request) as [cfg|] eqn:Hc;
    [|unfold GenAI.declarations; now rewrite Hc].
  destruct (GenAI.tools cfg) as [ts|] eqn:Ht;
    [|unfold GenAI.declarations; now rewrite Hc, Ht].
  destruct (nonEmpty ts) eqn:Hts.
  - rewrite <- (nonEmpty_map Anthropic.mapDeclaration).
    now destruct (List.map Anthropic.mapDeclaration _).
  - now rewrite (declarations_of_tools cfg ts request Hc Ht Hts).
Qed.

(** C4, as stated, fails on the Anthropic adapter: with the state
    Disabled and a request that declares one tool, the translated payload
    still carries the declaration. *)
Lemma anthropic_translation_ignores_state :
  ~ (translationHasTools AnthropicBackend Disabled Samples.declaringRequest = true
     <-> Disabled = Enabled /\ hasDeclaration Samples.declaringRequest = true).
Proof.
  intros [Hto _]. destruct (Hto eq_refl) as [Hst _]. discriminate Hst.
Qed.

(** C4, amended.  For every request and every tool-support state, the
    Ollama payload includes tool declarations if and only if the state is
    Enabled and the request contains at least one declaration; the
    Anthropic payload, whose adapter has no tool-support state, includes
    them if and only if the request contains at least one declaration. *)
Theorem tool_declarations_translated_iff
  (request : GenAI.GenerateContentParameters) (st : ToolSupportState) :
  (translationHasTools OllamaBackend st request = true
   <-> st = Enabled /\ hasDeclaration request = true)
  /\
  (translationHasTools AnthropicBackend st request = true
   <-> hasDeclaration request = true).
Proof.
  unfold translationHasTools.
  rewrite ollama_tools_present, anthropic_tools_present.
  split; [|tauto].
  rewrite andb_true_iff. destruct st; simpl; intuition discriminate.
Qed.

(** ** The Anthropic payload *)



(** ** Embeddings *)



(** Two empty text parts are joined into one space, which is not
    empty: such a request is sent on to the server. *)
Lemma embedInput_of_empty_parts :
  Ollama.embedInput
    (GenAI.OneContent
       {| GenAI.role := Some "user";
          GenAI.parts := Some [GenAI.textPart EmptyString; GenAI.textPart EmptyString] |})
  = " ".
Proof. reflexivity. Qed.

(** ** Stored API keys *)

Lemma keyedStore_delete_then_get (st : TokenStorage.KeyedStore) (key : string)
  (st' : TokenStorage.KeyedStore) :
  TokenStorage.deleteCredentials st key = (st', inr tt) ->
  forall c, TokenStorage.getCredentials st' key <> inr (Some c).
Proof.
  simpl. destruct (TokenStorage.deleteError st); [discriminate|].
  intros [= <-] c. simpl.
  destruct (TokenStorage.getError st); [discriminate|].
  rewrite lookup_delete_eq. discriminate.
Qed.

(** C8, as stated, fails when the store refuses the delete: the clear
    returns normally and the next load gives the old key. *)
Lemma clear_then_load_returns_old_key :
  snd (TokenStorage.deleteCredentials Samples.undeletableStore
         ApiKeyCredentialStorage.ANTHROPIC_API_KEY_ENTRY)
  = inl "keychain is read-only"
  /\
  snd (ApiKeyCredentialStorage.clearAnthropicApiKey Samples.undeletableStore)
  = inr tt
  /\
  ApiKeyCredentialStorage.loadAnthropicApiKey
    (fst (ApiKeyCredentialStorage.clearAnthropicApiKey Samples.undeletableStore))
  = inr (Some "sk-ant-old")
  /\
  ApiKeyCredentialStorage.loadAnthropicApiKey
    (fst (ApiKeyCredentialStorage.clearAnthropicApiKey Samples.undeletableStore))
  <> inr None.
Proof.
  split; [reflexivity|]. split; [reflexivity|].
  assert (H : ApiKeyCredentialStorage.loadAnthropicApiKey
                (fst (ApiKeyCredentialStorage.clearAnthropicApiKey
                        Samples.undeletableStore))
              = inr (Some "sk-ant-old")) by (vm_compute; reflexivity).
  split; [exact H | rewrite H; discriminate].
Qed.

(** C8, amended.  On every store, neither a read failure nor a delete
    failure reaches the caller: loading the stored Anthropic key is never
    rejected, and returns absent when the read fails; clearing is never
    rejected; and after a clear whose delete succeeded, the store no
    longer giving an entry for the key, the next load returns absent. *)
Theorem storage_failures_read_as_absent
  {S : Type} `{TokenStorage.Store S} (st : S) :
  (exists v, ApiKeyCredentialStorage.loadAnthropicApiKey st = inr v)
  /\
  snd (ApiKeyCredentialStorage.clearAnthropicApiKey st) = inr tt
  /\
  (forall e,
     TokenStorage.getCredentials st ApiKeyCredentialStorage.ANTHROPIC_API_KEY_ENTRY
     = inl e ->
     ApiKeyCredentialStorage.loadAnthropicApiKey st = inr None)
  /\
  (forall st',
     TokenStorage.deleteCredentials st ApiKeyCredentialStorage.ANTHROPIC_API_KEY_ENTRY
     = (st', inr tt) ->
     (forall c,
        TokenStorage.getCredentials st' ApiKeyCredentialStorage.ANTHROPIC_API_KEY_ENTRY
        <> inr (Some c)) ->
     ApiKeyCredentialStorage.loadAnthropicApiKey
       (fst (ApiKeyCredentialStorage.clearAnthropicApiKey st)) = inr None).
Proof.
  unfold ApiKeyCredentialStorage.loadAnthropicApiKey,
    ApiKeyCredentialStorage.clearAnthropicApiKey,
    ApiKeyCredentialStorage.loadEntry, ApiKeyCredentialStorage.clearEntry.
  split; [|split; [|split]].
  - destruct (TokenStorage.getCredentials st _); eexists; reflexivity.
  - destruct (TokenStorage.deleteCredentials st _) as [st' [e|u]]; reflexivity.
  - intros e He. now rewrite He.
  - intros st' Hdel Hgone. rewrite Hdel. simpl.
    destruct (TokenStorage.getCredentials st' _) as [e|[c|]] eqn:Hget;
      [reflexivity | | reflexivity].
    exfalso. exact (Hgone c eq_refl).
Qed.

Lemma storage_failures_read_as_absent_witness :
  ApiKeyCredentialStorage.loadAnthropicApiKey Samples.unreadableStore = inr None
  /\
  ApiKeyCredentialStorage.loadAnthropicApiKey
    (fst (ApiKeyCredentialStorage.clearAnthropicApiKey Samples.workingStore))
  = inr None.
Proof.
  split.
  - apply (proj1 (proj2 (proj2
             (storage_failures_read_as_absent Samples.unreadableStore)))
             "keychain locked").
    reflexivity.
  - apply (proj2 (proj2 (proj2
             (storage_failures_read_as_absent Samples.workingStore)))
             (TokenStorage.withEntries Samples.workingStore
                (delete ApiKeyCredentialStorage.ANTHROPIC_API_KEY_ENTRY
                   (TokenStorage.entries Samples.workingStore)))).
    + reflexivity.
    + apply (keyedStore_delete_then_get Samples.workingStore). reflexivity.
Defined.

(** ** The token estimate *)

Lemma join_length (sep : string) (l : list string) :
  String.length (JS.join sep l) =
  (sumNat (List.map String.length l)
   + (List.length l - 1) * String.length sep)%nat.
Proof.
  induction l as [|x [|y r] IH].
  - reflexivity.
  - simpl. lia.
  - change (JS.join sep (x :: y :: r))
      with (String.append x (String.append sep (JS.join sep (y :: r)))).
    rewrite !string_length_append, IH.
    cbn [List.map sumNat List.fold_right List.length Nat.sub].
    rewrite !Nat.sub_0_r. cbn [Nat.mul]. lia.
Qed.

Lemma concat_empty_length (l : list string) :
  String.length (String.concat EmptyString l) = sumNat (List.map String.length l).
Proof.
  induction l as [|x [|y r] IH].
  - reflexivity.
  - simpl. lia.
  - change (String.concat EmptyString (x :: y :: r))
      with (String.append x
              (String.append EmptyString (String.concat EmptyString (y :: r)))).
    rewrite !string_length_append, IH. simpl. lia.
Qed.

Lemma partText_length (p : GenAI.Part) :
  String.length (Ollama.partText p) = partLength p.
Proof.
  unfold Ollama.partText, partLength, GenAI.hasText.
  destruct (GenAI.text p) as [[|c r]|]; reflexivity.
Qed.

Lemma contentText_length (c : GenAI.Content) :
  String.length (Ollama.contentText c) = contentLength c.
Proof.
  unfold Ollama.contentText, contentLength.
  destruct (GenAI.parts c) as [ps|]; [|reflexivity].
  rewrite join_length, List.map_map, List.length_map.
  rewrite (List.map_ext _ _ partText_length). simpl. lia.
Qed.

Lemma totalText_length (cs : GenAI.Contents) :
  String.length (Ollama.totalText cs) = estimatedLength cs.
Proof.
  unfold Ollama.totalText, estimatedLength.
  rewrite concat_empty_length, List.map_map.
  now rewrite (List.map_ext _ _ contentText_length).
Qed.

(** C6, as stated, fails: two messages with the text [ab] each count
    four characters in the source, which puts nothing between messages,
    and five in the spec's concatenation; a function response counts as
    the two characters of an empty object, not as its payload. *)
Lemma countTokens_differs_from_spec_words :
  Ollama.countTokens Samples.twoMessages = 1
  /\ Anthropic.countTokens Samples.twoMessages = 1
  /\ SpecWords.countTokens Samples.twoMessages = 2
  /\ Ollama.countTokens Samples.answeredCall = 1
  /\ SpecWords.countTokens Samples.answeredCall = 7
  /\ Ollama.countTokens Samples.twoMessages
     <> SpecWords.countTokens Samples.twoMessages.
Proof. vm_compute. repeat split; discriminate. Qed.

(** C6, amended.  On both adapters countTokens returns ceil(n / 4),
    where n adds up, message by message, the lengths of the parts'
    strings and one space between neighbouring parts of the same message,
    nothing between messages; a part's string is its text when that is
    not empty, and otherwise the stringified function call, or the two
    characters of an empty object when the part has none. *)
Theorem countTokens_is_ceiling_of_estimated_length (cs : GenAI.Contents) :
  Anthropic.countTokens cs = Ollama.countTokens cs
  /\ Ollama.countTokens cs = JS.ceil_div (Z.of_nat (estimatedLength cs)) 4
  /\ 4 * (Ollama.countTokens cs - 1)
     < Z.of_nat (estimatedLength cs)
     <= 4 * Ollama.countTokens cs.
Proof.
  split; [reflexivity|].
  unfold Ollama.countTokens. rewrite totalText_length.
  split; [reflexivity | apply ceil_div_4_bounds].
Qed.

Lemma countTokens_eight_characters_and_empty :
  Ollama.countTokens Samples.eightCharacters = 2
  /\ Anthropic.countTokens Samples.eightCharacters = 2
  /\ Ollama.countTokens GenAI.NoContents = 0
  /\ Anthropic.countTokens (GenAI.ContentArray []) = 0.
Proof. vm_compute. repeat split. Qed.

(** ** The tool-support flag over time *)

Section FlagOverTime.

Variable srv : OllamaAPI.Server.
Variable JSON_parse : string -> option JValue.

Lemma generateContent_keeps_disabled (self : Ollama.Instance)
  (log : list OllamaAPI.ChatRequest) (request : GenAI.GenerateContentParameters) :
  Ollama.toolsSupported self = false ->
  Ollama.toolsSupported
    (Ollama.instance (Ollama.generateContent srv self log request)) = false.
Proof.
  intros Hoff. unfold Ollama.generateContent.
  destruct (OllamaAPI.chat srv log _) as [e|r]; [|exact Hoff].
  rewrite Hoff, andb_false_r. exact Hoff.
Qed.

Lemma runGenerator_keeps_disabled (self : Ollama.Instance)
  (log : list OllamaAPI.ChatRequest) (g : Ollama.Generator) :
  Ollama.toolsSupported self = false ->
  Ollama.toolsSupported
    (Ollama.instance (Ollama.runGenerator srv JSON_parse self log g)) = false.
Proof.
  intros Hoff. unfold Ollama.runGenerator.
  destruct (OllamaAPI.chatStream srv log _) as [e|r]; [|exact Hoff].
  rewrite Hoff, andb_false_r. exact Hoff.
Qed.

Lemma step_keeps_disabled (s : Ollama.Session) (op : Ollama.Op) :
  Ollama.toolsSupported (Ollama.self s) = false ->
  Ollama.toolsSupported (Ollama.self (Ollama.step srv JSON_parse s op)) = false.
Proof.
  intros Hoff. destruct op as [request|request|i|cs|cs]; simpl; try exact Hoff.
  - now apply generateContent_keeps_disabled.
  - destruct (Ollama.generators s !! i) as [[g [|]]|]; simpl; try exact Hoff.
    now apply runGenerator_keeps_disabled.
Qed.

Lemma run_keeps_disabled (ops : list Ollama.Op) (s : Ollama.Session) :
  Ollama.toolsSupported (Ollama.self s) = false ->
  Ollama.toolsSupported (Ollama.self (Ollama.run srv JSON_parse ops s)) = false.
Proof.
  revert s. induction ops as [|op ops IH]; intros s Hoff; simpl.
  - exact Hoff.
  - apply IH. now apply step_keeps_disabled.
Qed.

End FlagOverTime.

(** C3.  For every server and every sequence of calls on one instance
    (generateContent, generateContentStream, pulling a generator handed
    out earlier, countTokens, embedContent), once the tool-support flag is
    off it is off after every further call: the state never goes from
    Disabled back to Enabled. *)
Theorem toolsSupported_never_reenabled
  (srv : OllamaAPI.Server) (JSON_parse : string -> option JValue)
  (s : Ollama.Session) (before after : list Ollama.Op) :
  Ollama.toolsSupported (Ollama.self (Ollama.run srv JSON_parse before s)) = false ->
  Ollama.toolsSupported
    (Ollama.self (Ollama.run srv JSON_parse (before ++ after) s)) = false.
Proof.
  intros Hoff. unfold Ollama.run. rewrite List.fold_left_app.
  now apply run_keeps_disabled.
Qed.

Lemma toolsSupported_never_reenabled_witness :
  Ollama.toolsSupported
    (Ollama.self
       (Ollama.run Samples.refusingServer JSON.parse
          ([Ollama.CallGenerateContentStream Samples.toolRoundTrip;
            Ollama.CallGenerateContent Samples.toolRoundTrip]
           ++ [Ollama.Pull 0; Ollama.CallGenerateContent Samples.declaringRequest;
               Ollama.CallCountTokens Samples.twoMessages])
          (Ollama.open "ollama/gemma:2b"))) = false.
Proof.
  apply toolsSupported_never_reenabled. vm_compute. reflexivity.
Defined.

(** ** The fallback when the model rejects tools *)

(** In the disabled state the translation carries no tool content. *)
Lemma mapContent_disabled_tool_free (c : GenAI.Content) :
  List.Forall
    (fun m => OllamaAPI.isToolMessage m = false /\ carriesToolCalls m = false)
    (Ollama.mapContent false c).
Proof.
  unfold Ollama.mapContent.
  destruct (nonEmpty (GenAI.filterParts GenAI.hasFunctionResponse c)) eqn:Hfr; simpl.
  - constructor.
  - rewrite (nonEmpty_false _ Hfr). simpl.
    rewrite orb_false_r.
    destruct (JS.truthy_string _); [|constructor].
    constructor; [|constructor].
    split; [|reflexivity].
    unfold OllamaAPI.isToolMessage. simpl.
    destruct (GenAI.role c) as [r|]; [|reflexivity].
    destruct (String.eqb r "model"); reflexivity.
Qed.

Lemma disabled_translation_is_tool_free (request : GenAI.GenerateContentParameters) :
  OllamaAPI.p_tools (Ollama.mapGeminiParamsToOllama false request) = None
  /\ toolResultMessages
       (OllamaAPI.p_messages (Ollama.mapGeminiParamsToOllama false request)) = []
  /\ List.existsb carriesToolCalls
       (OllamaAPI.p_messages (Ollama.mapGeminiParamsToOllama false request)) = false.
Proof.
  assert (Hall : List.Forall
            (fun m => OllamaAPI.isToolMessage m = false /\ carriesToolCalls m = false)
            (OllamaAPI.p_messages (Ollama.mapGeminiParamsToOllama false request))).
  { simpl. apply List.Forall_app. split.
    - unfold Ollama.systemMessages.
      destruct (GenAI.config request) as [cfg|]; [|constructor].
      destruct (GenAI.systemInstruction cfg) as [[[|ch s]|ps]|]; simpl;
        try destruct (JS.truthy_string _); repeat constructor.
    - induction (GenAI.contentsArr (GenAI.contents request)) as [|c cs IH]; simpl.
      + constructor.
      + apply List.Forall_app. split; [apply mapContent_disabled_tool_free | exact IH]. }
  split; [|split].
  - simpl. unfold Ollama.ollamaTools.
    destruct (GenAI.config request) as [cfg|]; [|reflexivity].
    destruct (GenAI.tools cfg); reflexivity.
  - unfold toolResultMessages.
    induction Hall as [|m ms [Hm _] _ IH]; simpl; [reflexivity|].
    now rewrite Hm.
  - induction Hall as [|m ms [_ Hm] _ IH]; simpl; [reflexivity|].
    now rewrite Hm.
Qed.

Section Fallback.

Variable srv : OllamaAPI.Server.
Variable JSON_parse : string -> option JValue.
Variable self : Ollama.Instance.
Variable log : list OllamaAPI.ChatRequest.
Variable request : GenAI.GenerateContentParameters.

Let translated := Ollama.mapGeminiParamsToOllama (Ollama.toolsSupported self) request.

(** The streaming path retries once, with the request translated again
    in the disabled state. *)
Lemma runGenerator_retries_tool_free (e : string) :
  let g := Ollama.generateContentStream self request in
  let first :=
    Ollama.chatRequest self (OllamaAPI.p_messages translated)
      (OllamaAPI.p_tools translated) (OllamaAPI.p_options translated) true in
  let again := Ollama.mapGeminiParamsToOllama false request in
  let retry :=
    Ollama.chatRequest self (OllamaAPI.p_messages again) None
      (OllamaAPI.p_options again) true in
  Ollama.toolsSupported self = true ->
  OllamaAPI.chatStream srv log first = inl e ->
  Ollama.isToolsNotSupportedError e = true ->
  let out := Ollama.runGenerator srv JSON_parse self log g in
  Ollama.sent out = log ++ [first; retry]
  /\ Ollama.toolsSupported (Ollama.instance out) = false
  /\ declarationCount retry = O
  /\ toolResultMessages (OllamaAPI.messages retry) = []
  /\ List.existsb carriesToolCalls (OllamaAPI.messages retry) = false.
Proof.
  intros g first again retry Hon Hfail Hclass out.
  subst out. unfold Ollama.runGenerator.
  change (Ollama.mapped g) with translated.
  fold first. rewrite Hfail, Hclass, Hon. simpl.
  destruct (disabled_translation_is_tool_free request) as (_ & Hres & Hcalls).
  subst retry again. simpl in Hres, Hcalls |- *.
  match goal with
  | |- context [OllamaAPI.chatStream srv (log ++ [first]) ?r] =>
      destruct (OllamaAPI.chatStream srv (log ++ [first]) r)
  end; simpl; repeat split; assumption.
Qed.

(** The non-streaming path retries once as well, and sends the messages
    of the first attempt again. *)
Lemma generateContent_retries_once (e : string) :
  let first :=
    Ollama.chatRequest self (OllamaAPI.p_messages translated)
      (OllamaAPI.p_tools translated) (OllamaAPI.p_options translated) false in
  let retry :=
    Ollama.chatRequest self (OllamaAPI.p_messages translated) None
      (OllamaAPI.p_options translated) false in
  Ollama.toolsSupported self = true ->
  OllamaAPI.chat srv log first = inl e ->
  Ollama.isToolsNotSupportedError e = true ->
  let out := Ollama.generateContent srv self log request in
  Ollama.sent out = log ++ [first; retry]
  /\ Ollama.toolsSupported (Ollama.instance out) = false
  /\ OllamaAPI.messages retry = OllamaAPI.messages first.
Proof.
  intros first retry Hon Hfail Hclass out.
  subst out. unfold Ollama.generateContent.
  fold translated. fold first. rewrite Hfail, Hclass, Hon. simpl.
  match goal with
  | |- context [OllamaAPI.chat srv (log ++ [first]) ?r] =>
      destruct (OllamaAPI.chat srv (log ++ [first]) r)
  end; simpl; repeat split.
Qed.

(** Any other failure, and a tools failure when the flag is already off,
    is rethrown wrapped, after the one request. *)
Lemma generateContent_propagates (e : string) :
  let first :=
    Ollama.chatRequest self (OllamaAPI.p_messages translated)
      (OllamaAPI.p_tools translated) (OllamaAPI.p_options translated) false in
  OllamaAPI.chat srv log first = inl e ->
  Ollama.isToolsNotSupportedError e = false \/ Ollama.toolsSupported self = false ->
  Ollama.generateContent srv self log request =
  {| Ollama.result := inl (String.append "Ollama generateContent failed: " e);
     Ollama.instance := self; Ollama.sent := log ++ [first] |}.
Proof.
  intros first Hfail Hwhy. unfold Ollama.generateContent.
  fold translated. fold first. rewrite Hfail.
  destruct Hwhy as [H|H]; rewrite H; [|rewrite andb_false_r]; reflexivity.
Qed.

Lemma runGenerator_propagates (e : string) :
  let g := Ollama.generateContentStream self request in
  let first :=
    Ollama.chatRequest self (OllamaAPI.p_messages translated)
      (OllamaAPI.p_tools translated) (OllamaAPI.p_options translated) true in
  OllamaAPI.chatStream srv log first = inl e ->
  Ollama.isToolsNotSupportedError e = false \/ Ollama.toolsSupported self = false ->
  Ollama.runGenerator srv JSON_parse self log g =
  {| Ollama.result :=
       {| OllamaAPI.yielded := [];
          OllamaAPI.thrown := Some (Ollama.wrapStreamError e) |};
     Ollama.instance := self; Ollama.sent := log ++ [first] |}.
Proof.
  intros g first Hfail Hwhy. unfold Ollama.runGenerator.
  change (Ollama.mapped g) with translated.
  fold first. rewrite Hfail.
  destruct Hwhy as [H|H]; rewrite H; [|rewrite andb_false_r]; reflexivity.
Qed.

End Fallback.

(** C1, on generateContent.  A model without tool support is asked to
    continue a conversation that holds a tool call and its result.  The
    adapter disables tool support and retries once, but the retry carries
    the messages of the first attempt: one tool-result message and one
    message with a tool call, where the translation of the same request in
    the disabled state has neither. *)
Theorem generateContent_retry_keeps_tool_messages :
  let out :=
    Ollama.generateContent Samples.refusingServer (Ollama.create "gemma:2b") []
      Samples.toolRoundTrip in
  let again := Ollama.mapGeminiParamsToOllama false Samples.toolRoundTrip in
  exists first retry,
    Ollama.sent out = [first; retry]
    /\ Ollama.toolsSupported (Ollama.instance out) = false
    /\ declarationCount first = 1%nat
    /\ declarationCount retry = O
    /\ OllamaAPI.messages retry = OllamaAPI.messages first
    /\ List.length (toolResultMessages (OllamaAPI.messages retry)) = 1%nat
    /\ List.existsb carriesToolCalls (OllamaAPI.messages retry) = true
    /\ toolResultMessages (OllamaAPI.p_messages again) = []
    /\ List.existsb carriesToolCalls (OllamaAPI.p_messages again) = false
    /\ OllamaAPI.messages retry <> OllamaAPI.p_messages again.
Proof.
  vm_compute. do 2 eexists. repeat split. discriminate.
Qed.

(** ** The streaming loop of the first Ollama version *)

(** While the text is held back and the stream goes on, a chunk yields no
    text part: only the structured tool calls of the chunk, if any. *)
Lemma streamStep_withholds (JSON_parse : string -> option JValue)
  (st : Ollama.StreamState) (chunk : OllamaAPI.ChatResponse) :
  Ollama.isPotentiallyJson st = true ->
  OllamaAPI.done chunk = false ->
  let '(st', y) := Ollama.streamStep JSON_parse st chunk in
  Ollama.isPotentiallyJson st' = true
  /\ Ollama.accumulatedText st' =
     String.append (Ollama.accumulatedText st)
       (Ollama.contentOf (OllamaAPI.message chunk))
  /\ match y with
     | Some out =>
         GenAI.responseParts (OllamaAPI.response out)
         = Ollama.toolCallParts (OllamaAPI.message chunk)
     | None => True
     end.
Proof.
  intros Hjson Hgo. unfold Ollama.streamStep. rewrite Hjson, Hgo. simpl.
  pose proof string_append_empty as Happ.
  destruct (JS.truthy_string (Ollama.contentOf (OllamaAPI.message chunk))) eqn:Hc;
    simpl.
  - destruct (Ollama.looksLikeJson _); simpl; rewrite !orb_false_r;
      (split; [reflexivity|]); (split; [reflexivity|]);
      destruct (nonEmpty _); reflexivity.
  - rewrite !orb_false_r. split; [reflexivity|]. split.
    + destruct (Ollama.contentOf (OllamaAPI.message chunk)); [|discriminate Hc].
      now rewrite Happ.
    + destruct (nonEmpty _); reflexivity.
Qed.

(** C2, as stated, fails: the lone brace of the first fragment does not
    contain the word [name] in quotes, so it is yielded as text at once and
    the buffer is emptied; the later fragments no longer begin with a
    brace.  The stream yields three text parts and no function call,
    whether the end of the stream is a chunk of its own or the last
    fragment. *)
Lemma split_brace_is_yielded_as_text :
  allParts (Ollama.streamLoop JSON.parse Ollama.initialStreamState Samples.splitBrace)
  = [ GenAI.TextPart "{"; GenAI.TextPart (JS.q "'name':'foo',");
      GenAI.TextPart (JS.q "'arguments':{}}") ]
  /\
  allParts (Ollama.streamLoop JSON.parse Ollama.initialStreamState Samples.splitBrace')
  = [ GenAI.TextPart "{"; GenAI.TextPart (JS.q "'name':'foo',");
      GenAI.TextPart (JS.q "'arguments':{}}") ]
  /\
  ~ (textPartsOf
       (allParts
          (Ollama.streamLoop JSON.parse Ollama.initialStreamState Samples.splitBrace))
     = []
     /\
     functionCallPartsOf
       (allParts
          (Ollama.streamLoop JSON.parse Ollama.initialStreamState Samples.splitBrace))
     = [GenAI.FunctionCallPart (Some (JString "foo")) (Some (JObject [])) None]).
Proof.
  split; [vm_compute; reflexivity|].
  split; [vm_compute; reflexivity|].
  intros [Htext _]. vm_compute in Htext. discriminate Htext.
Qed.

(** C2, amended.  When the first fragment already holds the brace and
    the word [name] in quotes, as in the fragments
    [{"name":"foo",] and ["arguments":{}}] followed by the end of the
    stream, the text is held back from then on and parsed at the end: the
    stream yields no text part and exactly one function call named [foo]
    with empty arguments.  This holds for every parser that reads the
    joined text as the object it denotes. *)
Theorem json_text_rescued_when_name_comes_with_brace
  (JSON_parse : string -> option JValue) :
  JSON_parse Samples.fooCallText = Some Samples.fooCall ->
  textPartsOf
    (allParts
       (Ollama.streamLoop JSON_parse Ollama.initialStreamState Samples.splitAfterName))
  = []
  /\
  functionCallPartsOf
    (allParts
       (Ollama.streamLoop JSON_parse Ollama.initialStreamState Samples.splitAfterName))
  = [GenAI.FunctionCallPart (Some (JString "foo")) (Some (JObject [])) None]
  /\
  List.map (fun y => GenAI.finishReason (OllamaAPI.response y))
    (Ollama.streamLoop JSON_parse Ollama.initialStreamState Samples.splitAfterName)
  = [Some "STOP"].
Proof.
  intros Hparse. cbv in Hparse. cbv. rewrite Hparse. cbv.
  repeat split.
Qed.

Lemma json_text_rescued_when_name_comes_with_brace_witness :
  textPartsOf
    (allParts
       (Ollama.streamLoop JSON.parse Ollama.initialStreamState Samples.splitAfterName))
  = []
  /\
  functionCallPartsOf
    (allParts
       (Ollama.streamLoop JSON.parse Ollama.initialStreamState Samples.splitAfterName))
  = [GenAI.FunctionCallPart (Some (JString "foo")) (Some (JObject [])) None]
  /\
  List.map (fun y => GenAI.finishReason (OllamaAPI.response y))
    (Ollama.streamLoop JSON.parse Ollama.initialStreamState Samples.splitAfterName)
  = [Some "STOP"].
Proof.
  apply json_text_rescued_when_name_comes_with_brace. vm_compute. reflexivity.
Defined.

(** ** The finish marker *)

Lemma lastOf_cons {A : Type} (x : A) (l : list A) (y : A) :
  lastOf l = Some y -> lastOf (x :: l) = Some y.
Proof. destruct l as [|z l]; [discriminate | intros H; exact H]. Qed.

Lemma ollama_streamLoop_cons (JSON_parse : string -> option JValue)
  (st : Ollama.StreamState) (c : OllamaAPI.ChatResponse)
  (rest : list OllamaAPI.ChatResponse) :
  Ollama.streamLoop JSON_parse st (c :: rest) =
  match snd (Ollama.streamStep JSON_parse st c) with
  | Some out =>
      out :: Ollama.streamLoop JSON_parse (fst (Ollama.streamStep JSON_parse st c)) rest
  | None => Ollama.streamLoop JSON_parse (fst (Ollama.streamStep JSON_parse st c)) rest
  end.
Proof.
  cbn [Ollama.streamLoop].
  now destruct (Ollama.streamStep JSON_parse st c) as [st' [out|]].
Qed.

Lemma ollamaPlain_streamLoop_cons (counts : Z * Z * Z)
  (c : OllamaAPI.ChatResponse) (rest : list OllamaAPI.ChatResponse) :
  OllamaPlain.streamLoop counts (c :: rest) =
  snd (OllamaPlain.streamStep counts c)
  :: OllamaPlain.streamLoop (fst (OllamaPlain.streamStep counts c)) rest.
Proof.
  cbn [OllamaPlain.streamLoop].
  now destruct (OllamaPlain.streamStep counts c) as [counts' out].
Qed.

(** Both Ollama versions mark the chunk they yield for a server chunk
    with [done], and that chunk is always yielded. *)
Lemma ollama_streamLoop_last_marked (JSON_parse : string -> option JValue)
  (cs : list OllamaAPI.ChatResponse) (st : Ollama.StreamState)
  (final : OllamaAPI.ChatResponse) :
  lastOf cs = Some final -> OllamaAPI.done final = true ->
  exists y,
    lastOf (Ollama.streamLoop JSON_parse st cs) = Some y
    /\ GenAI.finishReason (OllamaAPI.response y) = Some "STOP".
Proof.
  revert st. induction cs as [|c [|c' r] IH]; intros st Hlast Hdone.
  - discriminate Hlast.
  - injection Hlast as ->.
    rewrite ollama_streamLoop_cons.
    unfold Ollama.streamStep. rewrite Hdone, orb_true_r.
    eexists; split; reflexivity.
  - change (lastOf (c :: c' :: r)) with (lastOf (c' :: r)) in Hlast.
    rewrite ollama_streamLoop_cons.
    destruct (IH (fst (Ollama.streamStep JSON_parse st c)) Hlast Hdone)
      as (y & Hy & Hstop).
    exists y. split; [|exact Hstop].
    destruct (snd (Ollama.streamStep JSON_parse st c));
      [now apply lastOf_cons | exact Hy].
Qed.

Lemma ollamaPlain_streamLoop_last_marked
  (cs : list OllamaAPI.ChatResponse) (counts : Z * Z * Z)
  (final : OllamaAPI.ChatResponse) :
  lastOf cs = Some final -> OllamaAPI.done final = true ->
  exists y,
    lastOf (OllamaPlain.streamLoop counts cs) = Some y
    /\ GenAI.finishReason (OllamaAPI.response y) = Some "STOP".
Proof.
  revert counts. induction cs as [|c [|c' r] IH]; intros counts Hlast Hdone.
  - discriminate Hlast.
  - injection Hlast as ->.
    rewrite ollamaPlain_streamLoop_cons.
    destruct counts as [[p0 c0] t0]. unfold OllamaPlain.streamStep.
    rewrite Hdone. eexists; split; reflexivity.
  - change (lastOf (c :: c' :: r)) with (lastOf (c' :: r)) in Hlast.
    rewrite ollamaPlain_streamLoop_cons.
    destruct (IH (fst (OllamaPlain.streamStep counts c)) Hlast Hdone)
      as (y & Hy & Hstop).
    exists y. split; [now apply lastOf_cons | exact Hstop].
Qed.

(** No chunk of the Anthropic generator carries a finish reason. *)
Lemma anthropic_streamLoop_unmarked (es : list AnthropicAPI.StreamEvent)
  (st : Anthropic.StreamState) :
  List.Forall (fun y => GenAI.finishReason y = None)
    (snd (Anthropic.streamLoop st es)).
Proof.
  revert st. induction es as [|e es IH]; intros st; simpl.
  - constructor.
  - destruct (Anthropic.streamLoop _ es) as [st2 ys] eqn:Hloop.
    simpl. constructor; [reflexivity|].
    specialize (IH (fst (Anthropic.streamStep st e))).
    simpl in IH. rewrite Hloop in IH. exact IH.
Qed.

Lemma anthropic_stream_never_marked {S : Type} `{TokenStorage.Store S}
  (srv : AnthropicAPI.Server) (env : Anthropic.Environment S)
  (self : Anthropic.Instance) (log : list AnthropicAPI.MessagesRequest)
  (request : GenAI.GenerateContentParameters) :
  List.Forall (fun y => GenAI.finishReason y = None)
    (Anthropic.yielded
       (Anthropic.result
          (Anthropic.generateContentStream srv env self log request))).
Proof.
  unfold Anthropic.generateContentStream.
  destruct (Anthropic.getAnthropic self env) as [e|[self' key]]; simpl;
    [constructor|].
  destruct (AnthropicAPI.stream srv log _) as [e|s]; simpl; [constructor|].
  unfold Anthropic.drain.
  pose proof (anthropic_streamLoop_unmarked (AnthropicAPI.events s)
                {| Anthropic.promptTokenCount := 0;
                   Anthropic.candidatesTokenCount := 0;
                   Anthropic.currentText := EmptyString |}) as Hloop.
  destruct (Anthropic.streamLoop _ (AnthropicAPI.events s)) as [st ys].
  simpl in Hloop.
  destruct (AnthropicAPI.failure s); simpl; [exact Hloop|].
  destruct (AnthropicAPI.finalFailure s); simpl; [exact Hloop|].
  destruct (nonEmpty _); [|exact Hloop].
  apply List.Forall_app. split; [exact Hloop | repeat constructor].
Qed.

(** C5, on the Anthropic adapter.  A stream that starts, delivers the
    text [Hello] and completes is drained without error into four chunks,
    and the last of them, like the others, has no finish reason. *)
Theorem anthropic_last_chunk_has_no_finish_marker :
  let out :=
    Anthropic.generateContentStream Samples.helloServer Samples.keyInEnvironment
      (Anthropic.create "anthropic/claude-sonnet") [] Samples.greeting in
  Anthropic.thrown (Anthropic.result out) = None
  /\ List.length (Anthropic.yielded (Anthropic.result out)) = 4%nat
  /\ option_map GenAI.responseParts (lastOf (Anthropic.yielded (Anthropic.result out)))
     = Some [GenAI.TextPart "Hello"]
  /\ option_map GenAI.finishReason (lastOf (Anthropic.yielded (Anthropic.result out)))
     = Some None.
Proof. vm_compute. repeat split. Qed.

(** * Further properties *)

(** ** The Ollama translation *)

Lemma toolResultMessage_is_tool (p : GenAI.Part) :
  OllamaAPI.isToolMessage (Ollama.toolResultMessage p) = true.
Proof. reflexivity. Qed.

Lemma ollamaRole_not_tool (c : GenAI.Content) (t : string)
  (calls : option (list OllamaAPI.ToolCall)) :
  OllamaAPI.isToolMessage
    {| OllamaAPI.role :=
         match GenAI.role c with
         | Some r => if String.eqb r "model" then "assistant" else "user"
         | None => "user"
         end;
       OllamaAPI.content := t; OllamaAPI.tool_calls := calls |} = false.
Proof.
  unfold OllamaAPI.isToolMessage. simpl.
  destruct (GenAI.role c) as [r|]; [destruct (String.eqb r "model")|]; reflexivity.
Qed.

Lemma systemMessages_shape (request : GenAI.GenerateContentParameters) :
  Ollama.systemMessages request = []
  \/ exists t, JS.truthy_string t = true
               /\ Ollama.systemMessages request
                  = [ {| OllamaAPI.role := "system"; OllamaAPI.content := t;
                         OllamaAPI.tool_calls := None |} ].
Proof.
  unfold Ollama.systemMessages.
  destruct (GenAI.config request) as [cfg|]; [|now left].
  destruct (GenAI.systemInstruction cfg) as [[[|ch s]|ps]|]; try (now left).
  - right. eexists; split; [|reflexivity]. reflexivity.
  - simpl. destruct (JS.truthy_string _) eqn:Ht; [|now left].
    right. eexists; split; [exact Ht | reflexivity].
Qed.

Lemma mapContent_says_something (b : bool) (c : GenAI.Content) :
  List.Forall (fun m => saysSomething m /\ callsWellFormed m) (Ollama.mapContent b c).
Proof.
  unfold Ollama.mapContent.
  destruct (nonEmpty (GenAI.filterParts GenAI.hasFunctionResponse c) && negb b);
    [constructor|].
  apply List.Forall_app. split.
  - induction (GenAI.filterParts GenAI.hasFunctionResponse c) as [|p ps IH]; simpl;
      constructor; [|exact IH].
    split; [left; reflexivity | discriminate].
  - destruct (negb _ || _ || _); [|constructor].
    destruct (JS.truthy_string _) eqn:Ht; simpl.
    + constructor; [|constructor]. split.
      * right; left. exact Ht.
      * unfold callsWellFormed. simpl.
        destruct (if b then _ else _); discriminate.
    + destruct (if b then _ else _) as [|call calls] eqn:Hc; simpl; [constructor|].
      constructor; [|constructor]. split.
      * right; right. simpl. eauto.
      * discriminate.
Qed.

(** X1.  Whatever the flag, the translation never holds a blank turn:
    every message is a tool result, has a text that is not empty, or
    carries at least one tool call, and [tool_calls] is never an empty
    array. *)
Theorem ollama_translation_has_no_blank_message
  (toolsSupported : bool) (request : GenAI.GenerateContentParameters) :
  List.Forall (fun m => saysSomething m /\ callsWellFormed m)
    (OllamaAPI.p_messages (Ollama.mapGeminiParamsToOllama toolsSupported request)).
Proof.
  simpl. apply List.Forall_app. split.
  - destruct (systemMessages_shape request) as [->|(t & Ht & ->)];
      [constructor|].
    constructor; [|constructor]. split; [|discriminate].
    right; left. exact Ht.
  - induction (GenAI.contentsArr (GenAI.contents request)) as [|c cs IH]; simpl;
      [constructor|].
    apply List.Forall_app. split; [apply mapContent_says_something | exact IH].
Qed.

Lemma mapContent_roles (b : bool) (c : GenAI.Content) :
  List.Forall
    (fun m => List.In (OllamaAPI.role m) ["user"; "assistant"; "tool"])
    (Ollama.mapContent b c).
Proof.
  unfold Ollama.mapContent.
  destruct (nonEmpty (GenAI.filterParts GenAI.hasFunctionResponse c) && negb b);
    [constructor|].
  apply List.Forall_app. split.
  - induction (GenAI.filterParts GenAI.hasFunctionResponse c) as [|p ps IH]; simpl;
      constructor; [|exact IH].
    right; right; left; reflexivity.
  - destruct (negb _ || _ || _); [|constructor].
    destruct (JS.truthy_string _ || _); [|constructor].
    constructor; [|constructor]. simpl.
    destruct (GenAI.role c) as [r|]; [destruct (String.eqb r "model")|]; auto.
Qed.

(** X2.  The translated messages are at most one system message, which
    comes first and whose text is not empty, followed by messages whose
    role is user, assistant or tool and never system. *)
Theorem ollama_translation_roles
  (toolsSupported : bool) (request : GenAI.GenerateContentParameters) :
  exists system rest,
    OllamaAPI.p_messages (Ollama.mapGeminiParamsToOllama toolsSupported request)
    = system ++ rest
    /\ (List.length system <= 1)%nat
    /\ List.Forall
         (fun m => OllamaAPI.role m = "system"
                   /\ JS.truthy_string (OllamaAPI.content m) = true) system
    /\ List.Forall
         (fun m => List.In (OllamaAPI.role m) ["user"; "assistant"; "tool"]) rest.
Proof.
  exists (Ollama.systemMessages request),
    (List.flat_map (Ollama.mapContent toolsSupported)
       (GenAI.contentsArr (GenAI.contents request))).
  split; [reflexivity|].
  split; [|split].
  - destruct (systemMessages_shape request) as [->|(t & Ht & ->)]; simpl; lia.
  - destruct (systemMessages_shape request) as [->|(t & Ht & ->)];
      [constructor|].
    constructor; [split; [reflexivity | exact Ht] | constructor].
  - induction (GenAI.contentsArr (GenAI.contents request)) as [|c cs IH]; simpl;
      [constructor|].
    apply List.Forall_app. split; [apply mapContent_roles | exact IH].
Qed.

(** X3.  With tool support enabled, the payload's tools are the
    request's function declarations, one for one and in order, each with
    its name, its description or the empty string, and its parameters or
    an empty object schema; the [tools] field is left out when there is no
    declaration, and is never an empty array. *)
Theorem ollama_tools_follow_declarations
  (request : GenAI.GenerateContentParameters) :
  match OllamaAPI.p_tools (Ollama.mapGeminiParamsToOllama true request) with
  | Some ts =>
      ts = List.map Ollama.mapDeclaration (GenAI.declarations request)
      /\ ts <> []
      /\ List.map OllamaAPI.function_name' ts
         = List.map GenAI.name (GenAI.declarations request)
  | None => GenAI.declarations request = []
  end.
Proof.
  simpl. unfold Ollama.ollamaTools.
  destruct (GenAI.config request) as [cfg|] eqn:Hc;
    [|unfold GenAI.declarations; now rewrite Hc].
  destruct (GenAI.tools cfg) as [ts|] eqn:Ht;
    [|unfold GenAI.declarations; now rewrite Hc, Ht].
  simpl. destruct (nonEmpty ts) eqn:Hts.
  - destruct (GenAI.declarations request) as [|d ds]; simpl; [reflexivity|].
    split; [reflexivity|]. split; [discriminate|].
    f_equal. rewrite List.map_map. reflexivity.
  - exact (declarations_of_tools cfg ts request Hc Ht Hts).
Qed.

Lemma filter_tool_results (ps : list GenAI.Part) :
  List.filter OllamaAPI.isToolMessage (List.map Ollama.toolResultMessage ps)
  = List.map Ollama.toolResultMessage ps.
Proof. induction ps as [|p ps IH]; simpl; [reflexivity | now rewrite IH]. Qed.

Lemma mapContent_tool_results (c : GenAI.Content) :
  List.filter OllamaAPI.isToolMessage (Ollama.mapContent true c)
  = List.map Ollama.toolResultMessage
      (GenAI.filterParts GenAI.hasFunctionResponse c).
Proof.
  unfold Ollama.mapContent. rewrite andb_false_r.
  rewrite List.filter_app, filter_tool_results.
  destruct (negb _ || _ || _); [|now rewrite app_nil_r].
  destruct (JS.truthy_string _ || _); [|now rewrite app_nil_r].
  cbn [List.filter]. rewrite ollamaRole_not_tool. now rewrite app_nil_r.
Qed.

(** X4.  With tool support enabled, every function-response part of the
    request becomes exactly one message of role tool, in the order of the
    request, whose content is the stringified response, or the text of an
    empty object when the part has no response; nothing else becomes a
    tool message. *)
Theorem ollama_tool_results_follow_responses
  (request : GenAI.GenerateContentParameters) :
  toolResultMessages
    (OllamaAPI.p_messages (Ollama.mapGeminiParamsToOllama true request))
  = List.map Ollama.toolResultMessage
      (List.flat_map (GenAI.filterParts GenAI.hasFunctionResponse)
         (GenAI.contentsArr (GenAI.contents request))).
Proof.
  unfold toolResultMessages. simpl. rewrite List.filter_app.
  replace (List.filter OllamaAPI.isToolMessage (Ollama.systemMessages request))
    with (@nil OllamaAPI.Message)
    by (destruct (systemMessages_shape request) as [->|(t & _ & ->)]; reflexivity).
  simpl.
  induction (GenAI.contentsArr (GenAI.contents request)) as [|c cs IH]; simpl;
    [reflexivity|].
  now rewrite List.filter_app, List.map_app, mapContent_tool_results, IH.
Qed.

(** X5.  With tool support disabled, the payload holds no tool
    declaration, no tool-result message and no message with tool calls,
    whatever the request declares or contains. *)
Theorem ollama_disabled_payload_is_tool_free
  (request : GenAI.GenerateContentParameters) :
  let p := Ollama.mapGeminiParamsToOllama false request in
  OllamaAPI.p_tools p = None
  /\ toolResultMessages (OllamaAPI.p_messages p) = []
  /\ List.Forall (fun m => OllamaAPI.tool_calls m = None) (OllamaAPI.p_messages p).
Proof.
  intros p. subst p.
  destruct (disabled_translation_is_tool_free request) as (Htools & Hres & Hcalls).
  split; [exact Htools|]. split; [exact Hres|].
  clear Htools Hres. revert Hcalls.
  generalize (OllamaAPI.p_messages (Ollama.mapGeminiParamsToOllama false request)).
  intros l. induction l as [|m ms IH]; intros Hcalls; [constructor|].
  cbn [List.existsb] in Hcalls. apply orb_false_iff in Hcalls as [Hm Hms].
  constructor; [|exact (IH Hms)].
  unfold carriesToolCalls in Hm. now destruct (OllamaAPI.tool_calls m).
Qed.

(** ** The Ollama calls *)

(** X6.  generateContent sends one request after those already sent,
    or two; it sends the second only when tool support was enabled, turns
    it off then, and leaves the [tools] field out of that second request.
    In every other case the instance is left as it was. *)
Theorem ollama_generateContent_requests
  (srv : OllamaAPI.Server) (self : Ollama.Instance)
  (log : list OllamaAPI.ChatRequest) (request : GenAI.GenerateContentParameters) :
  let p := Ollama.mapGeminiParamsToOllama (Ollama.toolsSupported self) request in
  let first :=
    Ollama.chatRequest self (OllamaAPI.p_messages p) (OllamaAPI.p_tools p)
      (OllamaAPI.p_options p) false in
  let out := Ollama.generateContent srv self log request in
  (Ollama.sent out = log ++ [first] /\ Ollama.instance out = self)
  \/
  (exists retry,
     Ollama.sent out = log ++ [first; retry]
     /\ Ollama.toolsSupported self = true
     /\ Ollama.instance out = Ollama.disable self
     /\ OllamaAPI.tools retry = None
     /\ OllamaAPI.stream retry = false
     /\ OllamaAPI.model retry = Ollama.model self).
Proof.
  intros p first out. subst out. unfold Ollama.generateContent.
  fold p. fold first.
  destruct (OllamaAPI.chat srv log first) as [e|r]; [|left; split; reflexivity].
  destruct (Ollama.isToolsNotSupportedError e); simpl;
    [|left; split; reflexivity].
  destruct (Ollama.toolsSupported self) eqn:Hon; [|left; split; reflexivity].
  right.
  exists (Ollama.chatRequest self (OllamaAPI.p_messages p) None
            (OllamaAPI.p_options p) false).
  destruct (OllamaAPI.chat srv (log ++ [first]) _); simpl; repeat split.
Qed.

(** X7.  Once tool support is off, generateContent sends exactly one
    request, and that request holds no tool declaration, no tool-result
    message and no tool call; the instance stays as it is. *)
Theorem ollama_generateContent_disabled_is_tool_free
  (srv : OllamaAPI.Server) (self : Ollama.Instance)
  (log : list OllamaAPI.ChatRequest) (request : GenAI.GenerateContentParameters) :
  Ollama.toolsSupported self = false ->
  let out := Ollama.generateContent srv self log request in
  Ollama.instance out = self
  /\ exists r,
       Ollama.sent out = log ++ [r]
       /\ declarationCount r = O
       /\ toolResultMessages (OllamaAPI.messages r) = []
       /\ List.existsb carriesToolCalls (OllamaAPI.messages r) = false.
Proof.
  intros Hoff out.
  destruct (ollama_generateContent_requests srv self log request)
    as [[Hsent Hself]|(retry & _ & Hon & _)]; [|congruence].
  fold out in Hsent, Hself. split; [exact Hself|].
  eexists. split; [exact Hsent|].
  rewrite Hoff.
  destruct (disabled_translation_is_tool_free request) as (Htools & Hres & Hcalls).
  unfold declarationCount. cbn [OllamaAPI.tools OllamaAPI.messages Ollama.chatRequest].
  rewrite Htools. repeat split; assumption.
Qed.

Lemma ollama_generateContent_disabled_is_tool_free_witness :
  let out :=
    Ollama.generateContent Samples.refusingServer MoreSamples.disabledInstance []
      Samples.toolRoundTrip in
  Ollama.instance out = MoreSamples.disabledInstance
  /\ exists r,
       Ollama.sent out = [] ++ [r]
       /\ declarationCount r = O
       /\ toolResultMessages (OllamaAPI.messages r) = []
       /\ List.existsb carriesToolCalls (OllamaAPI.messages r) = false.
Proof.
  apply (ollama_generateContent_disabled_is_tool_free Samples.refusingServer
           MoreSamples.disabledInstance [] Samples.toolRoundTrip).
  reflexivity.
Defined.

(** X8.  Whenever generateContent fails, its message is the text
    [Ollama generateContent failed: ] followed by the message of a
    failure of the server. *)
Theorem ollama_generateContent_failures_are_wrapped
  (srv : OllamaAPI.Server) (self : Ollama.Instance)
  (log : list OllamaAPI.ChatRequest) (request : GenAI.GenerateContentParameters)
  (m : string) :
  Ollama.result (Ollama.generateContent srv self log request) = inl m ->
  exists e history r,
    m = String.append "Ollama generateContent failed: " e
    /\ OllamaAPI.chat srv history r = inl e
    /\ JS.startsWith "Ollama generateContent failed: " m = true.
Proof.
  unfold Ollama.generateContent.
  destruct (OllamaAPI.chat srv log _) as [e|r] eqn:Hfirst; [|discriminate].
  destruct (Ollama.isToolsNotSupportedError e && Ollama.toolsSupported self).
  - destruct (OllamaAPI.chat srv (log ++ _) _) as [e'|r'] eqn:Hretry;
      [|discriminate].
    simpl. intros [= <-]. exists e'. do 2 eexists.
    split; [reflexivity|]. split; [exact Hretry | reflexivity].
  - simpl. intros [= <-]. exists e. do 2 eexists.
    split; [reflexivity|]. split; [exact Hfirst | reflexivity].
Qed.

Lemma ollama_generateContent_failures_are_wrapped_witness :
  exists e history r,
    "Ollama generateContent failed: connect ECONNREFUSED 127.0.0.1:11434"
    = String.append "Ollama generateContent failed: " e
    /\ OllamaAPI.chat MoreSamples.downServer history r = inl e
    /\ JS.startsWith "Ollama generateContent failed: "
         "Ollama generateContent failed: connect ECONNREFUSED 127.0.0.1:11434"
       = true.
Proof.
  apply (ollama_generateContent_failures_are_wrapped MoreSamples.downServer
           (Ollama.create "llama3") [] Samples.toolRoundTrip).
  reflexivity.
Defined.


Lemma includes_after_generateContent_prefix (e : string) :
  JS.includes "does not support tools"
    (String.append "Ollama generateContent failed: " e)
  = JS.includes "does not support tools" e.
Proof. reflexivity. Qed.

Lemma includes_after_stream_prefix (e : string) :
  JS.includes "does not support tools"
    (String.append "Ollama generateContentStream failed: " e)
  = JS.includes "does not support tools" e.
Proof. reflexivity. Qed.

(** X10.  Wrapping an error keeps its class: the message that
    generateContent or the generator throws is classified as a
    tools-not-supported error exactly when the server's message is, so a
    caller that catches the wrapped error can still tell. *)
Theorem ollama_wrapping_keeps_the_classification (e : string) :
  Ollama.isToolsNotSupportedError
    (String.append "Ollama generateContent failed: " e)
  = Ollama.isToolsNotSupportedError e
  /\
  Ollama.isToolsNotSupportedError (Ollama.wrapStreamError e)
  = Ollama.isToolsNotSupportedError e.
Proof.
  split.
  - apply includes_after_generateContent_prefix.
  - apply includes_after_stream_prefix.
Qed.

(** ** The streaming loops of the Ollama adapter *)

Lemma ollama_streamStep_usage (JSON_parse : string -> option JValue)
  (st : Ollama.StreamState) (chunk : OllamaAPI.ChatResponse) :
  Ollama.totalTokenCount st
  = Ollama.promptTokenCount st + Ollama.candidatesTokenCount st ->
  Ollama.totalTokenCount (fst (Ollama.streamStep JSON_parse st chunk))
  = Ollama.promptTokenCount (fst (Ollama.streamStep JSON_parse st chunk))
    + Ollama.candidatesTokenCount (fst (Ollama.streamStep JSON_parse st chunk))
  /\
  match snd (Ollama.streamStep JSON_parse st chunk) with
  | Some y => usageAddsUp (GenAI.usageMetadata (OllamaAPI.response y))
  | None => True
  end.
Proof.
  intros Hinv. unfold Ollama.streamStep, usageAddsUp.
  cbn [fst snd Ollama.totalTokenCount Ollama.promptTokenCount
       Ollama.candidatesTokenCount].
  assert (Hsum :
    (if Ollama.truthy_count (OllamaAPI.prompt_eval_count chunk)
        || Ollama.truthy_count (OllamaAPI.eval_count chunk)
     then (if Ollama.truthy_count (OllamaAPI.prompt_eval_count chunk)
           then Ollama.or_zero (OllamaAPI.prompt_eval_count chunk)
           else Ollama.promptTokenCount st)
          + (if Ollama.truthy_count (OllamaAPI.eval_count chunk)
             then Ollama.or_zero (OllamaAPI.eval_count chunk)
             else Ollama.candidatesTokenCount st)
     else Ollama.totalTokenCount st)
    = (if Ollama.truthy_count (OllamaAPI.prompt_eval_count chunk)
       then Ollama.or_zero (OllamaAPI.prompt_eval_count chunk)
       else Ollama.promptTokenCount st)
      + (if Ollama.truthy_count (OllamaAPI.eval_count chunk)
         then Ollama.or_zero (OllamaAPI.eval_count chunk)
         else Ollama.candidatesTokenCount st)).
  { destruct (Ollama.truthy_count (OllamaAPI.prompt_eval_count chunk)),
      (Ollama.truthy_count (OllamaAPI.eval_count chunk)); simpl; lia. }
  split; [exact Hsum|].
  match goal with |- match (if ?c then _ else _) with _ => _ end => destruct c end;
    [exact Hsum | exact I].
Qed.

Lemma ollama_streamLoop_usage (JSON_parse : string -> option JValue)
  (cs : list OllamaAPI.ChatResponse) (st : Ollama.StreamState) :
  Ollama.totalTokenCount st
  = Ollama.promptTokenCount st + Ollama.candidatesTokenCount st ->
  List.Forall (fun y => usageAddsUp (GenAI.usageMetadata (OllamaAPI.response y)))
    (Ollama.streamLoop JSON_parse st cs).
Proof.
  revert st. induction cs as [|c cs IH]; intros st Hinv; [constructor|].
  rewrite ollama_streamLoop_cons.
  destruct (ollama_streamStep_usage JSON_parse st c Hinv) as [Hnext Hy].
  destruct (snd (Ollama.streamStep JSON_parse st c)) as [y|].
  - constructor; [exact Hy | exact (IH _ Hnext)].
  - exact (IH _ Hnext).
Qed.

Lemma ollamaPlain_streamLoop_usage (cs : list OllamaAPI.ChatResponse)
  (p c t : Z) :
  t = p + c ->
  List.Forall (fun y => usageAddsUp (GenAI.usageMetadata (OllamaAPI.response y)))
    (OllamaPlain.streamLoop (p, c, t) cs).
Proof.
  revert p c t. induction cs as [|ch cs IH]; intros p c t Hinv; [constructor|].
  rewrite ollamaPlain_streamLoop_cons. unfold OllamaPlain.streamStep.
  cbn [fst snd].
  assert (Hsum :
    (if Ollama.truthy_count (OllamaAPI.prompt_eval_count ch)
        || Ollama.truthy_count (OllamaAPI.eval_count ch)
     then (if Ollama.truthy_count (OllamaAPI.prompt_eval_count ch)
           then Ollama.or_zero (OllamaAPI.prompt_eval_count ch) else p)
          + (if Ollama.truthy_count (OllamaAPI.eval_count ch)
             then Ollama.or_zero (OllamaAPI.eval_count ch) else c)
     else t)
    = (if Ollama.truthy_count (OllamaAPI.prompt_eval_count ch)
       then Ollama.or_zero (OllamaAPI.prompt_eval_count ch) else p)
      + (if Ollama.truthy_count (OllamaAPI.eval_count ch)
         then Ollama.or_zero (OllamaAPI.eval_count ch) else c)).
  { destruct (Ollama.truthy_count (OllamaAPI.prompt_eval_count ch)),
      (Ollama.truthy_count (OllamaAPI.eval_count ch)); simpl; lia. }
  constructor; [exact Hsum | apply IH; exact Hsum].
Qed.

(** X11.  In both versions, every chunk a generator yields reports a
    total token count that is the sum of its prompt and candidate counts,
    whatever counts the server reports, repeats or leaves out. *)
Theorem ollama_stream_usage_adds_up
  (JSON_parse : string -> option JValue) (cs : list OllamaAPI.ChatResponse) :
  List.Forall (fun y => usageAddsUp (GenAI.usageMetadata (OllamaAPI.response y)))
    (Ollama.streamLoop JSON_parse Ollama.initialStreamState cs)
  /\
  List.Forall (fun y => usageAddsUp (GenAI.usageMetadata (OllamaAPI.response y)))
    (OllamaPlain.streamLoop (0, 0, 0) cs).
Proof.
  split.
  - apply ollama_streamLoop_usage. reflexivity.
  - apply ollamaPlain_streamLoop_usage. reflexivity.
Qed.

Lemma ollama_streamStep_stop (JSON_parse : string -> option JValue)
  (st : Ollama.StreamState) (chunk : OllamaAPI.ChatResponse) :
  match snd (Ollama.streamStep JSON_parse st chunk) with
  | Some y => hasStop y = OllamaAPI.done chunk
  | None => OllamaAPI.done chunk = false
  end.
Proof.
  unfold Ollama.streamStep. cbn [snd].
  destruct (OllamaAPI.done chunk); [rewrite orb_true_r; reflexivity|].
  rewrite orb_false_r.
  match goal with |- match (if ?c then _ else _) with _ => _ end => destruct c end;
    reflexivity.
Qed.

(** In both versions the chunks marked [STOP] are exactly those
    yielded for a server chunk with [done]: there are as many of the one
    as of the other, and in the second version the marks sit at the same
    positions. *)
Lemma ollama_stop_marks_done_chunks
  (JSON_parse : string -> option JValue) (cs : list OllamaAPI.ChatResponse)
  (st : Ollama.StreamState) (counts : Z * Z * Z) :
  List.length (List.filter hasStop (Ollama.streamLoop JSON_parse st cs))
  = List.length (List.filter OllamaAPI.done cs)
  /\
  List.map hasStop (OllamaPlain.streamLoop counts cs) = List.map OllamaAPI.done cs.
Proof.
  split.
  - revert st. induction cs as [|c cs IH]; intros st; [reflexivity|].
    rewrite ollama_streamLoop_cons.
    pose proof (ollama_streamStep_stop JSON_parse st c) as Hstep.
    destruct (snd (Ollama.streamStep JSON_parse st c)) as [y|];
      cbn [List.filter]; [rewrite Hstep | rewrite Hstep];
      [destruct (OllamaAPI.done c); cbn [List.length]; now rewrite IH
      | apply IH].
  - revert counts. induction cs as [|c cs IH]; intros counts; [reflexivity|].
    rewrite ollamaPlain_streamLoop_cons. cbn [List.map]. rewrite IH. f_equal.
    destruct counts as [[p0 c0] t0]. unfold OllamaPlain.streamStep, hasStop.
    cbn [snd]. cbn. now destruct (OllamaAPI.done c).
Qed.

(** X12.  When the last chunk of the server stream has [done], the
    last chunk the generator yields is marked [STOP], in both versions,
    even if that chunk has no part. *)
Theorem ollama_last_chunk_is_marked
  (JSON_parse : string -> option JValue) (cs : list OllamaAPI.ChatResponse)
  (final : OllamaAPI.ChatResponse) :
  lastOf cs = Some final -> OllamaAPI.done final = true ->
  option_map hasStop
    (lastOf (Ollama.streamLoop JSON_parse Ollama.initialStreamState cs)) = Some true
  /\
  option_map hasStop (lastOf (OllamaPlain.streamLoop (0, 0, 0) cs)) = Some true.
Proof.
  intros Hlast Hdone. split.
  - destruct (ollama_streamLoop_last_marked JSON_parse cs
                Ollama.initialStreamState final Hlast Hdone) as (y & -> & Hy).
    simpl. unfold hasStop. now rewrite Hy.
  - destruct (ollamaPlain_streamLoop_last_marked cs (0, 0, 0) final Hlast Hdone)
      as (y & -> & Hy).
    simpl. unfold hasStop. now rewrite Hy.
Qed.

Lemma ollama_last_chunk_is_marked_witness :
  option_map hasStop
    (lastOf (Ollama.streamLoop JSON.parse Ollama.initialStreamState
               MoreSamples.helloWorld)) = Some true
  /\
  option_map hasStop
    (lastOf (OllamaPlain.streamLoop (0, 0, 0) MoreSamples.helloWorld)) = Some true.
Proof.
  apply (ollama_last_chunk_is_marked JSON.parse MoreSamples.helloWorld
           (Samples.reply EmptyString true)); reflexivity.
Defined.

Lemma ollama_streamStep_plain (JSON_parse : string -> option JValue)
  (st : Ollama.StreamState) (chunk : OllamaAPI.ChatResponse) :
  Ollama.accumulatedText st = EmptyString ->
  Ollama.isPotentiallyJson st = false ->
  Ollama.looksLikeJson (Ollama.contentOf (OllamaAPI.message chunk)) = false ->
  Ollama.accumulatedText (fst (Ollama.streamStep JSON_parse st chunk)) = EmptyString
  /\ Ollama.isPotentiallyJson (fst (Ollama.streamStep JSON_parse st chunk)) = false
  /\ option_map (fun y => GenAI.responseParts (OllamaAPI.response y))
       (snd (Ollama.streamStep JSON_parse st chunk))
     = if nonEmpty (ownParts chunk) || OllamaAPI.done chunk
       then Some (ownParts chunk) else None.
Proof.
  intros Hacc Hjson Hlook. unfold Ollama.streamStep, ownParts.
  rewrite Hacc, Hjson.
  destruct (JS.truthy_string (Ollama.contentOf (OllamaAPI.message chunk)));
    cbv iota;
    change (String.append EmptyString (Ollama.contentOf (OllamaAPI.message chunk)))
      with (Ollama.contentOf (OllamaAPI.message chunk));
    rewrite ?Hlook;
    cbn [andb negb fst snd Ollama.accumulatedText Ollama.isPotentiallyJson];
    rewrite ?andb_false_r; cbn [andb app];
    (split; [reflexivity|]); (split; [reflexivity|]);
    match goal with |- option_map _ (if ?c then _ else _) = _ => destruct c end;
    reflexivity.
Qed.

Lemma ollama_streamLoop_plain (JSON_parse : string -> option JValue)
  (cs : list OllamaAPI.ChatResponse) (st : Ollama.StreamState) :
  Ollama.accumulatedText st = EmptyString ->
  Ollama.isPotentiallyJson st = false ->
  List.Forall
    (fun c => Ollama.looksLikeJson (Ollama.contentOf (OllamaAPI.message c)) = false)
    cs ->
  List.map (fun y => GenAI.responseParts (OllamaAPI.response y))
    (Ollama.streamLoop JSON_parse st cs)
  = List.map ownParts
      (List.filter (fun c => nonEmpty (ownParts c) || OllamaAPI.done c) cs).
Proof.
  revert st. induction cs as [|c cs IH]; intros st Hacc Hjson Hall; [reflexivity|].
  inversion Hall as [|c' cs' Hc Hcs]; subst.
  rewrite ollama_streamLoop_cons.
  destruct (ollama_streamStep_plain JSON_parse st c Hacc Hjson Hc)
    as (Hacc' & Hjson' & Hy).
  cbn [List.filter].
  destruct (snd (Ollama.streamStep JSON_parse st c)) as [y|];
    destruct (nonEmpty (ownParts c) || OllamaAPI.done c); try discriminate Hy.
  - cbn [List.map]. injection Hy as Hy. rewrite Hy. f_equal.
    exact (IH _ Hacc' Hjson' Hcs).
  - exact (IH _ Hacc' Hjson' Hcs).
Qed.

(** X13.  Text that never looks like the start of a tool call streams
    through the first version unbuffered: when no fragment, trimmed,
    begins with a brace and contains the word [name] in quotes, the chunks
    yielded are, in order, the parts of each server chunk that has text,
    tool calls or [done]: its text as one text part, then its tool
    calls. *)
Theorem ollama_plain_text_streams_through
  (JSON_parse : string -> option JValue) (cs : list OllamaAPI.ChatResponse) :
  List.Forall
    (fun c => Ollama.looksLikeJson (Ollama.contentOf (OllamaAPI.message c)) = false)
    cs ->
  List.map (fun y => GenAI.responseParts (OllamaAPI.response y))
    (Ollama.streamLoop JSON_parse Ollama.initialStreamState cs)
  = List.map ownParts
      (List.filter (fun c => nonEmpty (ownParts c) || OllamaAPI.done c) cs).
Proof. intros Hall. now apply ollama_streamLoop_plain. Qed.

Lemma ollama_plain_text_streams_through_witness :
  List.map (fun y => GenAI.responseParts (OllamaAPI.response y))
    (Ollama.streamLoop JSON.parse Ollama.initialStreamState MoreSamples.helloWorld)
  = List.map ownParts
      (List.filter (fun c => nonEmpty (ownParts c) || OllamaAPI.done c)
         MoreSamples.helloWorld).
Proof.
  apply ollama_plain_text_streams_through.
  repeat constructor.
Defined.

Lemma ollama_streamStep_held_back (JSON_parse : string -> option JValue)
  (st : Ollama.StreamState) (chunk : OllamaAPI.ChatResponse) :
  Ollama.isPotentiallyJson st = true ->
  OllamaAPI.done chunk = false ->
  Ollama.isPotentiallyJson (fst (Ollama.streamStep JSON_parse st chunk)) = true
  /\ match snd (Ollama.streamStep JSON_parse st chunk) with
     | Some out => GenAI.responseParts (OllamaAPI.response out)
     | None => []
     end = Ollama.toolCallParts (OllamaAPI.message chunk).
Proof.
  intros Hjson Hgo. unfold Ollama.streamStep. rewrite Hjson, Hgo. simpl.
  destruct (JS.truthy_string (Ollama.contentOf (OllamaAPI.message chunk))); simpl.
  - destruct (Ollama.looksLikeJson _); simpl; rewrite !orb_false_r;
      (split; [reflexivity|]);
      destruct (nonEmpty _) eqn:Hne; simpl;
      first [reflexivity | symmetry; exact (nonEmpty_false _ Hne)].
  - rewrite !orb_false_r. split; [reflexivity|].
    destruct (nonEmpty _) eqn:Hne; simpl;
      first [reflexivity | symmetry; exact (nonEmpty_false _ Hne)].
Qed.

(** X14.  While text is held back and no server chunk has [done], the
    first version yields no text part at all: the chunks it yields hold
    the structured tool calls of the server chunks and nothing else. *)
Theorem ollama_held_back_text_is_not_yielded
  (JSON_parse : string -> option JValue) (cs : list OllamaAPI.ChatResponse)
  (st : Ollama.StreamState) :
  Ollama.isPotentiallyJson st = true ->
  List.Forall (fun c => OllamaAPI.done c = false) cs ->
  allParts (Ollama.streamLoop JSON_parse st cs)
  = List.flat_map (fun c => Ollama.toolCallParts (OllamaAPI.message c)) cs
  /\ textPartsOf (allParts (Ollama.streamLoop JSON_parse st cs)) = [].
Proof.
  intros Hjson Hall.
  assert (Hparts :
    allParts (Ollama.streamLoop JSON_parse st cs)
    = List.flat_map (fun c => Ollama.toolCallParts (OllamaAPI.message c)) cs).
  { revert st Hjson. induction Hall as [|c cs Hgo _ IH]; intros st Hjson;
      [reflexivity|].
    rewrite ollama_streamLoop_cons.
    destruct (ollama_streamStep_held_back JSON_parse st c Hjson Hgo)
      as (Hjson' & Hy).
    cbn [List.flat_map]. rewrite <- Hy, <- (IH _ Hjson').
    now destruct (snd (Ollama.streamStep JSON_parse st c)). }
  split; [exact Hparts|].
  rewrite Hparts. clear Hparts Hjson. unfold textPartsOf.
  induction Hall as [|c cs _ _ IH]; [reflexivity|].
  cbn [List.flat_map]. rewrite List.filter_app, IH.
  rewrite app_nil_r. unfold Ollama.toolCallParts.
  destruct (OllamaAPI.message c) as [msg|]; [|reflexivity].
  destruct (OllamaAPI.tool_calls msg) as [tcs|]; [|reflexivity].
  induction tcs as [|tc tcs IHt]; [reflexivity | exact IHt].
Qed.

Lemma ollama_held_back_text_is_not_yielded_witness :
  allParts
    (Ollama.streamLoop JSON.parse MoreSamples.heldBack
       [Samples.reply "oops" false; Samples.reply " again" false])
  = List.flat_map (fun c => Ollama.toolCallParts (OllamaAPI.message c))
      [Samples.reply "oops" false; Samples.reply " again" false]
  /\ textPartsOf
       (allParts
          (Ollama.streamLoop JSON.parse MoreSamples.heldBack
             [Samples.reply "oops" false; Samples.reply " again" false])) = [].
Proof.
  apply ollama_held_back_text_is_not_yielded.
  - reflexivity.
  - repeat constructor.
Defined.

Lemma trim_truthy (s : string) :
  JS.truthy_string (JS.trim s) = true -> JS.truthy_string s = true.
Proof. destruct s; [discriminate | reflexivity]. Qed.

(** X15.  On a chunk with [done], text that was held back is settled:
    if the trimmed text parses to an object whose [name] and [arguments]
    are both truthy, the chunk carries one function call made of them and
    the text is dropped; in every other case, a parse error included, the
    chunk carries the whole text, untrimmed, as one text part.  Either way
    the part comes after the structured tool calls of the chunk and the
    buffer is empty afterwards. *)
Theorem ollama_held_back_text_is_settled_at_the_end
  (JSON_parse : string -> option JValue)
  (st : Ollama.StreamState) (chunk : OllamaAPI.ChatResponse) :
  Ollama.isPotentiallyJson st = true ->
  OllamaAPI.done chunk = true ->
  JS.truthy_string
    (JS.trim (String.append (Ollama.accumulatedText st)
                (Ollama.contentOf (OllamaAPI.message chunk)))) = true ->
  exists out,
    snd (Ollama.streamStep JSON_parse st chunk) = Some out
    /\ Ollama.accumulatedText (fst (Ollama.streamStep JSON_parse st chunk))
       = EmptyString
    /\ GenAI.responseParts (OllamaAPI.response out)
       = Ollama.toolCallParts (OllamaAPI.message chunk) ++
         match
           Ollama.rescued
             (JSON_parse
                (JS.trim (String.append (Ollama.accumulatedText st)
                            (Ollama.contentOf (OllamaAPI.message chunk)))))
         with
         | Some (n, a) => [GenAI.FunctionCallPart (Some n) (Some a) None]
         | None =>
             [GenAI.TextPart
                (String.append (Ollama.accumulatedText st)
                   (Ollama.contentOf (OllamaAPI.message chunk)))]
         end.
Proof.
  intros Hjson Hdone Htrim.
  pose proof (trim_truthy _ Htrim) as Htext.
  unfold Ollama.streamStep. rewrite Hjson, Hdone.
  assert (Hacc :
    (if JS.truthy_string (Ollama.contentOf (OllamaAPI.message chunk))
     then String.append (Ollama.accumulatedText st)
            (Ollama.contentOf (OllamaAPI.message chunk))
     else Ollama.accumulatedText st)
    = String.append (Ollama.accumulatedText st)
        (Ollama.contentOf (OllamaAPI.message chunk))).
  { destruct (Ollama.contentOf (OllamaAPI.message chunk));
      [now rewrite string_append_empty | reflexivity]. }
  rewrite Hacc.
  set (text := String.append (Ollama.accumulatedText st)
                 (Ollama.contentOf (OllamaAPI.message chunk))) in *.
  replace (if JS.truthy_string (Ollama.contentOf (OllamaAPI.message chunk))
              && Ollama.looksLikeJson text then true else true)
    with true by (now destruct (_ && _)).
  cbn [negb]. rewrite andb_false_r. cbv iota. cbn [app andb].
  rewrite Htrim. cbv iota.
  destruct (Ollama.rescued (JSON_parse (JS.trim text))) as [[n a]|].
  - cbn [JS.truthy_string]. cbv iota. rewrite orb_true_r.
    eexists. cbn [fst snd Ollama.accumulatedText OllamaAPI.response
                  GenAI.responseParts].
    repeat split.
  - rewrite Htext. cbv iota. rewrite orb_true_r.
    eexists. cbn [fst snd Ollama.accumulatedText OllamaAPI.response
                  GenAI.responseParts].
    repeat split.
Qed.

Lemma ollama_held_back_text_is_settled_at_the_end_witness :
  exists out,
    snd (Ollama.streamStep JSON.parse MoreSamples.heldBack
           (Samples.reply "oops" true)) = Some out
    /\ Ollama.accumulatedText
         (fst (Ollama.streamStep JSON.parse MoreSamples.heldBack
                 (Samples.reply "oops" true))) = EmptyString
    /\ GenAI.responseParts (OllamaAPI.response out)
       = Ollama.toolCallParts (OllamaAPI.message (Samples.reply "oops" true)) ++
         match
           Ollama.rescued
             (JSON.parse
                (JS.trim
                   (String.append (Ollama.accumulatedText MoreSamples.heldBack)
                      (Ollama.contentOf
                         (OllamaAPI.message (Samples.reply "oops" true))))))
         with
         | Some (n, a) => [GenAI.FunctionCallPart (Some n) (Some a) None]
         | None =>
             [GenAI.TextPart
                (String.append (Ollama.accumulatedText MoreSamples.heldBack)
                   (Ollama.contentOf
                      (OllamaAPI.message (Samples.reply "oops" true))))]
         end.
Proof.
  apply ollama_held_back_text_is_settled_at_the_end; reflexivity.
Defined.

Lemma ollamaPlain_streamLoop_parts (cs : list OllamaAPI.ChatResponse)
  (counts : Z * Z * Z) :
  List.map (fun y => GenAI.responseParts (OllamaAPI.response y))
    (OllamaPlain.streamLoop counts cs)
  = List.map ownParts cs.
Proof.
  revert counts. induction cs as [|c cs IH]; intros counts; [reflexivity|].
  rewrite ollamaPlain_streamLoop_cons. cbn [List.map]. rewrite IH. f_equal.
  now destruct counts as [[p0 c0] t0].
Qed.

(** The second version keeps no text across chunks: it yields
    exactly one chunk for every server chunk, in order, holding that
    chunk's text, if it has any, as one text part followed by its tool
    calls; a server chunk with nothing in it still yields a chunk, with no
    part. *)
Lemma ollamaPlain_yields_chunk_for_chunk
  (cs : list OllamaAPI.ChatResponse) (counts : Z * Z * Z) :
  List.length (OllamaPlain.streamLoop counts cs) = List.length cs
  /\
  List.map (fun y => GenAI.responseParts (OllamaAPI.response y))
    (OllamaPlain.streamLoop counts cs)
  = List.map ownParts cs.
Proof.
  split; [|apply ollamaPlain_streamLoop_parts].
  rewrite <- (List.length_map (fun y => GenAI.responseParts (OllamaAPI.response y))).
  now rewrite ollamaPlain_streamLoop_parts, List.length_map.
Qed.

Lemma flat_map_own_parts_filter (cs : list OllamaAPI.ChatResponse) :
  List.concat
    (List.map ownParts
       (List.filter (fun c => nonEmpty (ownParts c) || OllamaAPI.done c) cs))
  = List.concat (List.map ownParts cs).
Proof.
  induction cs as [|c cs IH]; [reflexivity|].
  cbn [List.filter List.map List.concat].
  destruct (nonEmpty (ownParts c)) eqn:Hne; cbn [orb].
  - cbn [List.map List.concat]. now rewrite IH.
  - destruct (OllamaAPI.done c); cbn [List.map List.concat];
      rewrite ?(nonEmpty_false _ Hne); cbn [app]; exact IH.
Qed.

Lemma allParts_concat (ys : list OllamaAPI.StreamChunk) :
  allParts ys
  = List.concat (List.map (fun y => GenAI.responseParts (OllamaAPI.response y)) ys).
Proof. unfold allParts. apply List.flat_map_concat_map. Qed.

(** X16.  On a stream whose text never looks like the start of a tool
    call, the two versions of the generator yield the same parts in the
    same order; they differ only in that the second also yields a chunk
    without parts for a server chunk that holds nothing. *)
Theorem ollama_versions_agree_on_plain_streams
  (JSON_parse : string -> option JValue) (cs : list OllamaAPI.ChatResponse) :
  List.Forall
    (fun c => Ollama.looksLikeJson (Ollama.contentOf (OllamaAPI.message c)) = false)
    cs ->
  allParts (Ollama.streamLoop JSON_parse Ollama.initialStreamState cs)
  = allParts (OllamaPlain.streamLoop (0, 0, 0) cs).
Proof.
  intros Hall. rewrite !allParts_concat.
  rewrite (ollama_streamLoop_plain JSON_parse cs Ollama.initialStreamState
             eq_refl eq_refl Hall).
  rewrite ollamaPlain_streamLoop_parts.
  apply flat_map_own_parts_filter.
Qed.

Lemma ollama_versions_agree_on_plain_streams_witness :
  allParts (Ollama.streamLoop JSON.parse Ollama.initialStreamState
              MoreSamples.helloWorld)
  = allParts (OllamaPlain.streamLoop (0, 0, 0) MoreSamples.helloWorld).
Proof.
  apply ollama_versions_agree_on_plain_streams. repeat constructor.
Defined.

(** ** The token estimate, further *)

Lemma sumNat_app (l1 l2 : list nat) :
  sumNat (l1 ++ l2) = (sumNat l1 + sumNat l2)%nat.
Proof. induction l1 as [|x l1 IH]; simpl; [reflexivity | rewrite IH; lia]. Qed.

Lemma estimatedLength_app (l1 l2 : list GenAI.Content) :
  estimatedLength (GenAI.ContentArray (l1 ++ l2))
  = (estimatedLength (GenAI.ContentArray l1)
     + estimatedLength (GenAI.ContentArray l2))%nat.
Proof.
  unfold estimatedLength. cbn [GenAI.contentsArr].
  now rewrite List.map_app, sumNat_app.
Qed.

(** X17.  Contents given as one string count as zero tokens on both
    adapters, whatever the string: only the parts of content objects are
    counted.  The estimate is never negative, and it is zero exactly when
    the counted text is empty. *)
Theorem countTokens_counts_parts_only (s : string) (cs : GenAI.Contents) :
  Ollama.countTokens (GenAI.ContentsString s) = 0
  /\ Anthropic.countTokens (GenAI.ContentsString s) = 0
  /\ 0 <= Ollama.countTokens cs
  /\ (Ollama.countTokens cs = 0 <-> Ollama.totalText cs = EmptyString).
Proof.
  assert (Hstring : Ollama.countTokens (GenAI.ContentsString s) = 0).
  { unfold Ollama.countTokens, Ollama.totalText. cbn [GenAI.contentsArr].
    destruct (JS.truthy_string s); reflexivity. }
  split; [exact Hstring|]. split; [exact Hstring|].
  pose proof (ceil_div_4_bounds (Z.of_nat (String.length (Ollama.totalText cs))))
    as Hb.
  fold (Ollama.countTokens cs) in Hb.
  split; [lia|]. split.
  - intros H0. rewrite H0 in Hb.
    destruct (Ollama.totalText cs); [reflexivity | simpl in Hb; lia].
  - intros Hempty. unfold Ollama.countTokens. now rewrite Hempty.
Qed.

(** X18.  Over arrays of contents the estimate grows with the
    conversation and is at most the sum of the estimates of its two
    halves: appending messages never lowers it, and splitting a request
    never lowers the total. *)
Theorem countTokens_of_appended_contents (l1 l2 : list GenAI.Content) :
  Ollama.countTokens (GenAI.ContentArray l1)
  <= Ollama.countTokens (GenAI.ContentArray (l1 ++ l2))
  <= Ollama.countTokens (GenAI.ContentArray l1)
     + Ollama.countTokens (GenAI.ContentArray l2)
  /\
  Anthropic.countTokens (GenAI.ContentArray l1)
  <= Anthropic.countTokens (GenAI.ContentArray (l1 ++ l2))
  <= Anthropic.countTokens (GenAI.ContentArray l1)
     + Anthropic.countTokens (GenAI.ContentArray l2).
Proof.
  assert (H :
    Ollama.countTokens (GenAI.ContentArray l1)
    <= Ollama.countTokens (GenAI.ContentArray (l1 ++ l2))
    <= Ollama.countTokens (GenAI.ContentArray l1)
       + Ollama.countTokens (GenAI.ContentArray l2)).
  { unfold Ollama.countTokens. rewrite !totalText_length, estimatedLength_app.
    pose proof (ceil_div_4_bounds
                  (Z.of_nat (estimatedLength (GenAI.ContentArray l1)))) as H1.
    pose proof (ceil_div_4_bounds
                  (Z.of_nat (estimatedLength (GenAI.ContentArray l2)))) as H2.
    pose proof (ceil_div_4_bounds
                  (Z.of_nat (estimatedLength (GenAI.ContentArray l1)
                             + estimatedLength (GenAI.ContentArray l2)))) as H12.
    lia. }
  split; exact H.
Qed.

(** ** The Anthropic translation *)

Lemma or_value_truthy (v : option JValue) (d : JValue) :
  JSON.truthy d = true -> JSON.truthy (or_value v d) = true.
Proof.
  intros Hd. unfold or_value. destruct v as [x|]; [|exact Hd].
  destruct (JSON.truthy x) eqn:Hx; [exact Hx | exact Hd].
Qed.

Lemma anthropic_mapContent_shape (c : GenAI.Content) :
  List.Forall
    (fun m =>
       AnthropicAPI.content m <> []
       /\ List.In (AnthropicAPI.role m) ["user"; "assistant"]
       /\ List.Forall
            (fun b => match blockId b with
                      | Some i => JSON.truthy i = true
                      | None => True
                      end) (AnthropicAPI.content m))
    (Anthropic.mapContent c).
Proof.
  unfold Anthropic.mapContent.
  destruct (nonEmpty _) eqn:Hne; [|constructor].
  constructor; [|constructor].
  cbn [AnthropicAPI.content AnthropicAPI.role]. split; [|split].
  - intros Hnil. rewrite Hnil in Hne. discriminate Hne.
  - destruct (GenAI.role c) as [r|]; [destruct (String.eqb r "model")|];
      simpl; auto.
  - clear Hne. apply List.Forall_app. split; [|apply List.Forall_app; split].
    + induction (GenAI.filterParts GenAI.hasFunctionResponse c) as [|p ps IH];
        simpl; constructor; [|exact IH].
      unfold Anthropic.toolResultBlock.
      destruct (GenAI.functionResponse p); simpl;
        [now apply or_value_truthy | reflexivity].
    + destruct (nonEmpty _); repeat constructor.
    + induction (GenAI.filterParts GenAI.hasFunctionCall c) as [|p ps IH];
        simpl; constructor; [|exact IH].
      unfold Anthropic.toolUseBlock.
      destruct (GenAI.functionCall p); simpl;
        [now apply or_value_truthy | reflexivity].
Qed.

(** X19.  The Anthropic translation sends no blank turn and only the
    roles user and assistant: every message has at least one content
    block, and every block that refers to a tool call, a result as well as
    a call, carries a truthy identifier, the text [unknown_id] standing in
    for a missing one.  The [system] field is left out rather than sent
    empty. *)
Theorem anthropic_translation_is_well_formed
  (request : GenAI.GenerateContentParameters) :
  List.Forall
    (fun m =>
       AnthropicAPI.content m <> []
       /\ List.In (AnthropicAPI.role m) ["user"; "assistant"]
       /\ List.Forall
            (fun b => match blockId b with
                      | Some i => JSON.truthy i = true
                      | None => True
                      end) (AnthropicAPI.content m))
    (Anthropic.p_messages (Anthropic.mapGeminiParamsToAnthropic request))
  /\
  Anthropic.p_system (Anthropic.mapGeminiParamsToAnthropic request)
  <> Some EmptyString.
Proof.
  split.
  - cbn [Anthropic.p_messages Anthropic.mapGeminiParamsToAnthropic].
    induction (GenAI.contentsArr (GenAI.contents request)) as [|c cs IH]; simpl;
      [constructor|].
    apply List.Forall_app. split; [apply anthropic_mapContent_shape | exact IH].
  - cbn [Anthropic.p_system Anthropic.mapGeminiParamsToAnthropic].
    match goal with |- (if JS.truthy_string ?t then _ else _) <> _ =>
      destruct t; [intros [= H]; discriminate H | discriminate] end.
Qed.

(** X20.  The Anthropic payload's tools are the request's function
    declarations, one for one and in order, whatever else the request
    holds; the [tools] field is left out when there is no declaration and
    is never an empty array. *)
Theorem anthropic_tools_follow_declarations
  (request : GenAI.GenerateContentParameters) :
  match Anthropic.p_tools (Anthropic.mapGeminiParamsToAnthropic request) with
  | Some ts =>
      ts = List.map Anthropic.mapDeclaration (GenAI.declarations request)
      /\ ts <> []
      /\ List.map AnthropicAPI.name ts
         = List.map GenAI.name (GenAI.declarations request)
  | None => GenAI.declarations request = []
  end.
Proof.
  cbn [Anthropic.p_tools Anthropic.mapGeminiParamsToAnthropic].
  destruct (GenAI.config request) as [cfg|] eqn:Hc;
    [|unfold GenAI.declarations; now rewrite Hc].
  destruct (GenAI.tools cfg) as [ts|] eqn:Ht;
    [|unfold GenAI.declarations; now rewrite Hc, Ht].
  destruct (nonEmpty ts) eqn:Hts.
  - destruct (GenAI.declarations request) as [|d ds]; simpl; [reflexivity|].
    split; [reflexivity|]. split; [discriminate|].
    f_equal. rewrite List.map_map. reflexivity.
  - exact (declarations_of_tools cfg ts request Hc Ht Hts).
Qed.

(** ** The Anthropic client and its key *)

Lemma loadEntry_gives_truthy_key {S : Type} `{TokenStorage.Store S}
  (entry : string) (st : S) (k : string) :
  ApiKeyCredentialStorage.loadEntry entry st = inr (Some k) ->
  JS.truthy_string k = true.
Proof.
  unfold ApiKeyCredentialStorage.loadEntry, ApiKeyCredentialStorage.accessTokenOf.
  destruct (TokenStorage.getCredentials st entry) as [e|[c|]]; try discriminate.
  destruct (TokenStorage.token c) as [t|]; [|discriminate].
  destruct (JS.truthy_string (TokenStorage.accessToken t)) eqn:Ht; [|discriminate].
  now intros [= <-].
Qed.

(** X21.  The key of the Anthropic client is resolved in a fixed
    order.  A client that exists is reused, whatever the environment says
    by then.  Otherwise a non-empty [ANTHROPIC_API_KEY] is taken, and the
    credential store plays no part, even one that cannot be read.
    Otherwise the stored key is taken.  With neither, the call fails with
    the message that the key is missing. *)
Theorem anthropic_key_resolution {S : Type} `{TokenStorage.Store S}
  (self : Anthropic.Instance) (env : Anthropic.Environment S) (k : string) :
  (Anthropic.anthropic self = Some k ->
   Anthropic.getAnthropic self env = inr (self, k))
  /\
  (Anthropic.anthropic self = None ->
   Anthropic.ANTHROPIC_API_KEY env = Some k -> JS.truthy_string k = true ->
   Anthropic.getAnthropic self env
   = inr ({| Anthropic.model := Anthropic.model self;
             Anthropic.anthropic := Some k |}, k))
  /\
  (Anthropic.anthropic self = None ->
   Anthropic.ANTHROPIC_API_KEY env = None
   \/ Anthropic.ANTHROPIC_API_KEY env = Some EmptyString ->
   ApiKeyCredentialStorage.loadAnthropicApiKey (Anthropic.storage env)
   = inr (Some k) ->
   Anthropic.getAnthropic self env
   = inr ({| Anthropic.model := Anthropic.model self;
             Anthropic.anthropic := Some k |}, k))
  /\
  (Anthropic.anthropic self = None ->
   Anthropic.ANTHROPIC_API_KEY env = None
   \/ Anthropic.ANTHROPIC_API_KEY env = Some EmptyString ->
   ApiKeyCredentialStorage.loadAnthropicApiKey (Anthropic.storage env)
   = inr None ->
   exists e, Anthropic.getAnthropic self env = inl e
             /\ isKeyMissingMessage e = true).
Proof.
  unfold Anthropic.getAnthropic. repeat split.
  - intros ->. reflexivity.
  - intros -> -> Hk. rewrite Hk. cbv iota beta. now rewrite Hk.
  - intros -> Henv Hload.
    pose proof (loadEntry_gives_truthy_key _ _ _ Hload) as Hk.
    destruct Henv as [->| ->]; cbn [JS.truthy_string]; now rewrite Hload, Hk.
  - intros -> Henv Hload.
    destruct Henv as [->| ->]; cbn [JS.truthy_string]; rewrite Hload;
      eexists; split; reflexivity.
Qed.

Lemma anthropic_key_resolution_witness :
  Anthropic.getAnthropic
    {| Anthropic.model := "claude"; Anthropic.anthropic := Some "sk-ant-old" |}
    MoreSamples.noKey
  = inr ({| Anthropic.model := "claude"; Anthropic.anthropic := Some "sk-ant-old" |},
         "sk-ant-old")
  /\
  Anthropic.getAnthropic (Anthropic.create "claude") MoreSamples.keyInBoth
  = inr ({| Anthropic.model := "claude"; Anthropic.anthropic := Some "sk-ant-env" |},
         "sk-ant-env")
  /\
  Anthropic.getAnthropic (Anthropic.create "claude") MoreSamples.keyInStore
  = inr ({| Anthropic.model := "claude"; Anthropic.anthropic := Some "sk-ant-old" |},
         "sk-ant-old")
  /\
  exists e, Anthropic.getAnthropic (Anthropic.create "claude") MoreSamples.noKey
            = inl e
            /\ isKeyMissingMessage e = true.
Proof.
  split; [|split; [|split]].
  - apply (proj1 (anthropic_key_resolution
                    {| Anthropic.model := "claude";
                       Anthropic.anthropic := Some "sk-ant-old" |}
                    MoreSamples.noKey "sk-ant-old")).
    reflexivity.
  - apply (proj1 (proj2 (anthropic_key_resolution (Anthropic.create "claude")
                           MoreSamples.keyInBoth "sk-ant-env")));
      reflexivity.
  - apply (proj1 (proj2 (proj2 (anthropic_key_resolution (Anthropic.create "claude")
                                  MoreSamples.keyInStore "sk-ant-old")))).
    + reflexivity.
    + right. reflexivity.
    + vm_compute. reflexivity.
  - apply (proj2 (proj2 (proj2 (anthropic_key_resolution (Anthropic.create "claude")
                                  MoreSamples.noKey EmptyString)))).
    + reflexivity.
    + left. reflexivity.
    + vm_compute. reflexivity.
Defined.

(** X22.  When no client can be made, neither method sends anything
    and the instance is left as it was; generateContent reports the
    failure wrapped as [Anthropic generateContent failed: ...], while
    generateContentStream throws it as it is and yields no chunk. *)
Theorem anthropic_without_client_nothing_is_sent {S : Type} `{TokenStorage.Store S}
  (srv : AnthropicAPI.Server) (env : Anthropic.Environment S)
  (self : Anthropic.Instance) (log : list AnthropicAPI.MessagesRequest)
  (request : GenAI.GenerateContentParameters) (e : string) :
  Anthropic.getAnthropic self env = inl e ->
  Anthropic.generateContent srv env self log request
  = {| Anthropic.result := inl (String.append "Anthropic generateContent failed: " e);
       Anthropic.instance := self; Anthropic.sent := log |}
  /\
  Anthropic.generateContentStream srv env self log request
  = {| Anthropic.result := {| Anthropic.yielded := []; Anthropic.thrown := Some e |};
       Anthropic.instance := self; Anthropic.sent := log |}.
Proof.
  intros Hfail. unfold Anthropic.generateContent, Anthropic.generateContentStream.
  rewrite Hfail. split; reflexivity.
Qed.

Lemma anthropic_without_client_nothing_is_sent_witness :
  Anthropic.generateContent Samples.helloServer MoreSamples.noKey
    (Anthropic.create "claude") [] Samples.greeting
  = {| Anthropic.result :=
         inl (String.append "Anthropic generateContent failed: "
                "Anthropic API key is missing. Please set ANTHROPIC_API_KEY or run 'auth' to set it.");
       Anthropic.instance := Anthropic.create "claude"; Anthropic.sent := [] |}
  /\
  Anthropic.generateContentStream Samples.helloServer MoreSamples.noKey
    (Anthropic.create "claude") [] Samples.greeting
  = {| Anthropic.result :=
         {| Anthropic.yielded := [];
            Anthropic.thrown :=
              Some "Anthropic API key is missing. Please set ANTHROPIC_API_KEY or run 'auth' to set it." |};
       Anthropic.instance := Anthropic.create "claude"; Anthropic.sent := [] |}.
Proof.
  apply anthropic_without_client_nothing_is_sent. vm_compute. reflexivity.
Defined.

(** X23.  Each of the two methods sends at most one request per call
    and never retries; a request is sent under the resolved model name,
    and after it the instance holds a client, which later calls reuse. *)
Theorem anthropic_sends_at_most_one_request {S : Type} `{TokenStorage.Store S}
  (srv : AnthropicAPI.Server) (env : Anthropic.Environment S)
  (self : Anthropic.Instance) (log : list AnthropicAPI.MessagesRequest)
  (request : GenAI.GenerateContentParameters) :
  let sentBy (out : list AnthropicAPI.MessagesRequest) (after : Anthropic.Instance) :=
    out = log
    \/ exists r k,
         out = log ++ [r]
         /\ AnthropicAPI.model r = Anthropic.model self
         /\ Anthropic.anthropic after = Some k
         /\ Anthropic.model after = Anthropic.model self in
  sentBy (Anthropic.sent (Anthropic.generateContent srv env self log request))
    (Anthropic.instance (Anthropic.generateContent srv env self log request))
  /\
  sentBy (Anthropic.sent (Anthropic.generateContentStream srv env self log request))
    (Anthropic.instance (Anthropic.generateContentStream srv env self log request)).
Proof.
  intros sentBy. subst sentBy. cbv beta.
  assert (Hclient : forall self' k,
            Anthropic.getAnthropic self env = inr (self', k) ->
            Anthropic.anthropic self' = Some k
            /\ Anthropic.model self' = Anthropic.model self).
  { unfold Anthropic.getAnthropic. intros self' k.
    destruct (Anthropic.anthropic self) as [k0|] eqn:Hk0.
    - intros [= <- <-]. split; [exact Hk0 | reflexivity].
    - match goal with |- match ?key with _ => _ end = _ -> _ =>
        destruct key as [e|[k1|]] end; try discriminate.
      destruct (JS.truthy_string k1); [|discriminate].
      intros [= <- <-]. split; reflexivity. }
  unfold Anthropic.generateContent, Anthropic.generateContentStream.
  destruct (Anthropic.getAnthropic self env) as [e|[self' k]];
    [split; left; reflexivity|].
  destruct (Hclient self' k eq_refl) as [Hk Hm].
  split.
  - right. destruct (AnthropicAPI.create srv log _); cbn [Anthropic.sent Anthropic.instance];
      do 2 eexists; repeat split; eassumption.
  - right. destruct (AnthropicAPI.stream srv log _); cbn [Anthropic.sent Anthropic.instance];
      do 2 eexists; repeat split; eassumption.
Qed.

(** ** The Anthropic streaming loop *)

Lemma string_append_assoc (a b c : string) :
  String.append (String.append a b) c = String.append a (String.append b c).
Proof.
  induction a as [|x a IH]; [reflexivity|].
  change (String x (String.append (String.append a b) c)
          = String x (String.append a (String.append b c))).
  now rewrite IH.
Qed.

Lemma anthropic_streamStep_text (st : Anthropic.StreamState)
  (e : AnthropicAPI.StreamEvent) :
  Anthropic.currentText (fst (Anthropic.streamStep st e))
  = String.append (Anthropic.currentText st) (deltaText [e])
  /\ GenAI.responseParts (snd (Anthropic.streamStep st e))
     = [GenAI.TextPart (String.append (Anthropic.currentText st) (deltaText [e]))]
  /\ usageAddsUp (GenAI.usageMetadata (snd (Anthropic.streamStep st e))).
Proof.
  destruct e as [[n|]|t|[n|]|]; cbn [deltaText];
    rewrite ?string_append_empty; repeat split.
Qed.

Lemma deltaText_cons (e : AnthropicAPI.StreamEvent)
  (es : list AnthropicAPI.StreamEvent) :
  deltaText (e :: es) = String.append (deltaText [e]) (deltaText es).
Proof.
  destruct e as [[n|]|t|[n|]|]; cbn [deltaText]; try reflexivity.
  now rewrite string_append_empty.
Qed.

(** X24.  The Anthropic generator yields one chunk for every event of
    the stream, of whatever type; the chunk has exactly one part, a text
    part holding all the text received up to and including that event, and
    its total token count is the sum of the two others.  After the loop
    the text is that of all text deltas, in order. *)
Theorem anthropic_stream_accumulates_text
  (es : list AnthropicAPI.StreamEvent) (st : Anthropic.StreamState) :
  List.length (snd (Anthropic.streamLoop st es)) = List.length es
  /\ Anthropic.currentText (fst (Anthropic.streamLoop st es))
     = String.append (Anthropic.currentText st) (deltaText es)
  /\ (forall (k : nat) (y : GenAI.GenerateContentResponse),
        List.nth_error (snd (Anthropic.streamLoop st es)) k = Some y ->
        GenAI.responseParts y
        = [GenAI.TextPart
             (String.append (Anthropic.currentText st)
                (deltaText (List.firstn (Datatypes.S k) es)))]
        /\ usageAddsUp (GenAI.usageMetadata y)).
Proof.
  revert st. induction es as [|e es IH]; intros st.
  - cbn [Anthropic.streamLoop fst snd List.length deltaText].
    rewrite string_append_empty.
    split; [reflexivity|]. split; [reflexivity|].
    intros k y Hy. destruct k; discriminate Hy.
  - cbn [Anthropic.streamLoop].
    destruct (anthropic_streamStep_text st e) as (Htext & Hparts & Husage).
    destruct (Anthropic.streamStep st e) as [st1 y1]. cbn [fst snd] in *.
    specialize (IH st1). destruct (Anthropic.streamLoop st1 es) as [st2 ys].
    cbn [fst snd] in *. destruct IH as (Hlen & Hcur & Hnth).
    split; [cbn [List.length]; now rewrite Hlen|].
    split.
    + rewrite Hcur, Htext, string_append_assoc. now rewrite <- deltaText_cons.
    + intros [|k] y Hy; cbn [List.nth_error] in Hy.
      * injection Hy as <-. split; [|exact Husage].
        rewrite Hparts. cbn [List.firstn]. reflexivity.
      * destruct (Hnth k y Hy) as [Hp Hu]. split; [|exact Hu].
        rewrite Hp, Htext, string_append_assoc.
        change (List.firstn (Datatypes.S (Datatypes.S k)) (e :: es))
          with (e :: List.firstn (Datatypes.S k) es).
        now rewrite <- deltaText_cons.
Qed.

Lemma anthropic_stream_accumulates_text_witness :
  GenAI.responseParts
    {| GenAI.responseParts := [GenAI.TextPart "Hello"];
       GenAI.finishReason := None;
       GenAI.usageMetadata :=
         {| GenAI.promptTokenCount := 12; GenAI.candidatesTokenCount := 0;
            GenAI.totalTokenCount := 12 |} |}
  = [GenAI.TextPart
       (String.append EmptyString
          (deltaText (List.firstn 2 (AnthropicAPI.events Samples.helloStream))))]
  /\ usageAddsUp
       (GenAI.usageMetadata
          {| GenAI.responseParts := [GenAI.TextPart "Hello"];
             GenAI.finishReason := None;
             GenAI.usageMetadata :=
               {| GenAI.promptTokenCount := 12; GenAI.candidatesTokenCount := 0;
                  GenAI.totalTokenCount := 12 |} |}).
Proof.
  apply (proj2 (proj2 (anthropic_stream_accumulates_text
                         (AnthropicAPI.events Samples.helloStream)
                         {| Anthropic.promptTokenCount := 0;
                            Anthropic.candidatesTokenCount := 0;
                            Anthropic.currentText := EmptyString |})) 1%nat).
  reflexivity.
Defined.

(** ** Stored API keys, further *)

Lemma keyedStore_set_then_get (st st1 : TokenStorage.KeyedStore)
  (c : TokenStorage.OAuthCredentials) :
  TokenStorage.getError st = None ->
  TokenStorage.setCredentials st c = (st1, inr tt) ->
  TokenStorage.getCredentials st1 (TokenStorage.serverName c) = inr (Some c).
Proof.
  intros Hget. simpl. destruct (TokenStorage.setError st); [discriminate|].
  intros [= <-]. simpl. rewrite Hget. now rewrite lookup_insert_eq.
Qed.

(** X25.  A key that was saved is the key that is loaded: on a store
    that gives back, for an entry, the credentials it accepted for it,
    saving a key that is not blank and then loading returns the key as it
    was given, untrimmed.  This holds for the default entry and for the
    Anthropic entry alike. *)
Theorem saved_key_is_loaded {S : Type} `{TokenStorage.Store S}
  (entry : string) (st st' : S) (k : string) (now : Z) :
  (forall c st1,
     TokenStorage.setCredentials st c = (st1, inr tt) ->
     TokenStorage.getCredentials st1 (TokenStorage.serverName c) = inr (Some c)) ->
  JS.truthy_string (JS.trim k) = true ->
  ApiKeyCredentialStorage.saveEntry entry st (Some k) now = (st', inr tt) ->
  ApiKeyCredentialStorage.loadEntry entry st' = inr (Some k).
Proof.
  intros Hstore Htrim Hsave. pose proof (trim_truthy _ Htrim) as Hk.
  unfold ApiKeyCredentialStorage.saveEntry in Hsave.
  rewrite Htrim, Hk in Hsave. cbn [negb orb] in Hsave.
  apply Hstore in Hsave. cbn [TokenStorage.serverName] in Hsave.
  unfold ApiKeyCredentialStorage.loadEntry. rewrite Hsave.
  unfold ApiKeyCredentialStorage.accessTokenOf.
  cbn [TokenStorage.token TokenStorage.accessToken]. now rewrite Hk.
Qed.

Lemma saved_key_is_loaded_witness :
  ApiKeyCredentialStorage.loadEntry ApiKeyCredentialStorage.ANTHROPIC_API_KEY_ENTRY
    (fst (ApiKeyCredentialStorage.saveEntry
            ApiKeyCredentialStorage.ANTHROPIC_API_KEY_ENTRY
            MoreSamples.emptyStore (Some "sk-ant-new") 1700000000000))
  = inr (Some "sk-ant-new").
Proof.
  apply (saved_key_is_loaded ApiKeyCredentialStorage.ANTHROPIC_API_KEY_ENTRY
           MoreSamples.emptyStore _ "sk-ant-new" 1700000000000).
  - intros c st1. apply keyedStore_set_then_get. reflexivity.
  - reflexivity.
  - reflexivity.
Defined.

(** X26.  Saving no key, an empty key or a key of white space only
    is a clear: the entry is deleted, nothing is written, and the call
    never fails, not even when the store's delete does. *)
Theorem saving_a_blank_key_clears {S : Type} `{TokenStorage.Store S}
  (entry : string) (st : S) (apiKey : option string) (now : Z) :
  match apiKey with
  | Some k => JS.truthy_string (JS.trim k) = false
  | None => True
  end ->
  ApiKeyCredentialStorage.saveEntry entry st apiKey now
  = ApiKeyCredentialStorage.clearEntry entry st
  /\ snd (ApiKeyCredentialStorage.saveEntry entry st apiKey now) = inr tt
  /\ fst (ApiKeyCredentialStorage.saveEntry entry st apiKey now)
     = fst (TokenStorage.deleteCredentials st entry).
Proof.
  intros Hblank.
  assert (Hsave : ApiKeyCredentialStorage.saveEntry entry st apiKey now
                  = ApiKeyCredentialStorage.clearEntry entry st).
  { unfold ApiKeyCredentialStorage.saveEntry. destruct apiKey as [k|]; [|reflexivity].
    rewrite Hblank. cbn [negb]. now rewrite orb_true_r. }
  rewrite Hsave. unfold ApiKeyCredentialStorage.clearEntry.
  destruct (TokenStorage.deleteCredentials st entry) as [st' [e|u]];
    repeat split.
Qed.

Lemma saving_a_blank_key_clears_witness :
  ApiKeyCredentialStorage.saveEntry ApiKeyCredentialStorage.ANTHROPIC_API_KEY_ENTRY
    Samples.undeletableStore (Some "   ") 0
  = ApiKeyCredentialStorage.clearEntry ApiKeyCredentialStorage.ANTHROPIC_API_KEY_ENTRY
      Samples.undeletableStore
  /\ snd (ApiKeyCredentialStorage.saveEntry
            ApiKeyCredentialStorage.ANTHROPIC_API_KEY_ENTRY
            Samples.undeletableStore (Some "   ") 0) = inr tt
  /\ fst (ApiKeyCredentialStorage.saveEntry
            ApiKeyCredentialStorage.ANTHROPIC_API_KEY_ENTRY
            Samples.undeletableStore (Some "   ") 0)
     = fst (TokenStorage.deleteCredentials Samples.undeletableStore
              ApiKeyCredentialStorage.ANTHROPIC_API_KEY_ENTRY).
Proof.
  apply (saving_a_blank_key_clears ApiKeyCredentialStorage.ANTHROPIC_API_KEY_ENTRY
           Samples.undeletableStore (Some "   ") 0).
  reflexivity.
Defined.

(** X27.  Loading a key, the default one or the Anthropic one, is
    never rejected, and the key it returns is never the empty string:
    credentials without a token, or with an empty access token, read as
    absent, as does every failure of the store. *)
Theorem loaded_key_is_never_empty {S : Type} `{TokenStorage.Store S} (st : S) :
  (exists v, ApiKeyCredentialStorage.loadApiKey st = inr v
             /\ v <> Some EmptyString)
  /\
  (exists v, ApiKeyCredentialStorage.loadAnthropicApiKey st = inr v
             /\ v <> Some EmptyString).
Proof.
  assert (Hany : forall entry,
            exists v, ApiKeyCredentialStorage.loadEntry entry st = inr v
                      /\ v <> Some EmptyString).
  { intros entry.
    destruct (ApiKeyCredentialStorage.loadEntry entry st) as [e|v] eqn:Hload.
    - unfold ApiKeyCredentialStorage.loadEntry in Hload.
      destruct (TokenStorage.getCredentials st entry); discriminate.
    - exists v. split; [reflexivity|]. intros ->.
      now pose proof (loadEntry_gives_truthy_key _ _ _ Hload). }
  split; apply Hany.
Qed.

(** ** The input filters *)

Lemma removeAll_as_filter (inClass : ascii -> bool) (text : string) :
  list_ascii_of_string (removeAll inClass text)
  = List.filter (fun c => negb (inClass c)) (list_ascii_of_string text).
Proof.
  induction text as [|c r IH]; [reflexivity|].
  cbn [removeAll list_ascii_of_string List.filter].
  destruct (inClass c); cbn [negb]; [exact IH|].
  cbn [list_ascii_of_string]. now rewrite IH.
Qed.

Lemma removeAll_idempotent (inClass : ascii -> bool) (text : string) :
  removeAll inClass (removeAll inClass text) = removeAll inClass text.
Proof.
  induction text as [|c r IH]; [reflexivity|].
  cbn [removeAll]. destruct (inClass c) eqn:Hc; [exact IH|].
  cbn [removeAll]. now rewrite Hc, IH.
Qed.

Lemma key_character_is_no_line_break (c : ascii) :
  AnthropicAuthDialog.isKeyCharacter c = true -> isLineBreak c = false.
Proof.
  destruct c as [[] [] [] [] [] [] [] []]; vm_compute; congruence.
Qed.

Lemma line_breaks_already_removed (text : string) :
  removeAll isLineBreak
    (removeAll (fun c => negb (AnthropicAuthDialog.isKeyCharacter c)) text)
  = removeAll (fun c => negb (AnthropicAuthDialog.isKeyCharacter c)) text.
Proof.
  induction text as [|c r IH]; [reflexivity|].
  cbn [removeAll].
  destruct (AnthropicAuthDialog.isKeyCharacter c) eqn:Hc; cbn [negb]; [|exact IH].
  cbn [removeAll]. now rewrite (key_character_is_no_line_break c Hc), IH.
Qed.

(** X28.  The filter of the API-key field keeps exactly the letters,
    digits, underscores and hyphens of the typed text, in their order, and
    drops every other character; its second replacement, of line breaks,
    never finds anything left to remove.  Filtering twice changes nothing
    more, and the result is never longer than the text. *)
Theorem anthropic_key_filter_keeps_key_characters (text : string) :
  list_ascii_of_string (AnthropicAuthDialog.inputFilter text)
  = List.filter AnthropicAuthDialog.isKeyCharacter (list_ascii_of_string text)
  /\ AnthropicAuthDialog.inputFilter (AnthropicAuthDialog.inputFilter text)
     = AnthropicAuthDialog.inputFilter text
  /\ (String.length (AnthropicAuthDialog.inputFilter text) <= String.length text)%nat.
Proof.
  unfold AnthropicAuthDialog.inputFilter.
  rewrite !line_breaks_already_removed. split; [|split].
  - rewrite removeAll_as_filter. apply List.filter_ext.
    intros c. now rewrite negb_involutive.
  - apply removeAll_idempotent.
  - induction text as [|c r IH]; [reflexivity|].
    cbn [removeAll]. destruct (negb _); cbn [String.length]; lia.
Qed.

(** X29.  The filter of the model-name field removes carriage returns
    and line feeds and nothing else: every other character is kept, in
    order, so a model name such as [llama3:8b] or [library/phi3] passes
    unchanged.  Filtering twice changes nothing more. *)
Theorem ollama_model_filter_removes_line_breaks (text : string) :
  list_ascii_of_string (OllamaModelDialog.inputFilter text)
  = List.filter (fun c => negb (isLineBreak c)) (list_ascii_of_string text)
  /\ OllamaModelDialog.inputFilter (OllamaModelDialog.inputFilter text)
     = OllamaModelDialog.inputFilter text
  /\ (List.forallb (fun c => negb (isLineBreak c)) (list_ascii_of_string text) = true ->
      OllamaModelDialog.inputFilter text = text).
Proof.
  unfold OllamaModelDialog.inputFilter. split; [|split].
  - apply removeAll_as_filter.
  - apply removeAll_idempotent.
  - induction text as [|c r IH]; [reflexivity|].
    cbn [list_ascii_of_string List.forallb removeAll].
    intros Hall. apply andb_true_iff in Hall as [Hc Hr].
    apply negb_true_iff in Hc. rewrite Hc. now rewrite (IH Hr).
Qed.

Lemma ollama_model_filter_removes_line_breaks_witness :
  OllamaModelDialog.inputFilter "library/phi3:mini" = "library/phi3:mini".
Proof.
  apply (proj2 (proj2 (ollama_model_filter_removes_line_breaks "library/phi3:mini"))).
  reflexivity.
Defined.

(** ** Model names *)

Lemma substring_whole (s : string) : String.substring 0 (String.length s) s = s.
Proof.
  induction s as [|c s IH]; [reflexivity|].
  cbn [String.length String.substring]. now rewrite IH.
Qed.

(** X30.  The constructors strip one leading provider prefix from
    the model name and nothing else: [ollama/] followed by a name gives
    the name, [anthropic/] likewise, and a name that does not begin with
    the prefix is kept as it is. *)
Theorem model_prefix_is_stripped (m : string) :
  Ollama.model (Ollama.create (String.append "ollama/" m)) = m
  /\ Anthropic.model (Anthropic.create (String.append "anthropic/" m)) = m
  /\ (JS.startsWith "ollama/" m = false -> Ollama.model (Ollama.create m) = m)
  /\ (JS.startsWith "anthropic/" m = false ->
      Anthropic.model (Anthropic.create m) = m).
Proof.
  split; [|split; [|split]].
  - cbn [Ollama.create Ollama.model]. unfold Ollama.resolveModel.
    change (JS.startsWith "ollama/" (String.append "ollama/" m)) with true.
    cbv iota.
    change (String.length (String.append "ollama/" m))
      with (7 + String.length m)%nat.
    replace (7 + String.length m - 7)%nat with (String.length m) by lia.
    change (String.substring 7 (String.length m) (String.append "ollama/" m))
      with (String.substring 0 (String.length m) m).
    apply substring_whole.
  - cbn [Anthropic.create Anthropic.model]. unfold Anthropic.resolveModel.
    change (JS.startsWith "anthropic/" (String.append "anthropic/" m)) with true.
    cbv iota.
    change (String.length (String.append "anthropic/" m))
      with (10 + String.length m)%nat.
    replace (10 + String.length m - 10)%nat with (String.length m) by lia.
    change (String.substring 10 (String.length m) (String.append "anthropic/" m))
      with (String.substring 0 (String.length m) m).
    apply substring_whole.
  - intros Hno. cbn [Ollama.create Ollama.model]. unfold Ollama.resolveModel.
    now rewrite Hno.
  - intros Hno. cbn [Anthropic.create Anthropic.model]. unfold Anthropic.resolveModel.
    now rewrite Hno.
Qed.

Lemma model_prefix_is_stripped_witness :
  Ollama.model (Ollama.create "llama3") = "llama3"
  /\ Anthropic.model (Anthropic.create "claude-sonnet") = "claude-sonnet".
Proof.
  split.
  - apply (proj1 (proj2 (proj2 (model_prefix_is_stripped "llama3")))). reflexivity.
  - apply (proj2 (proj2 (proj2 (model_prefix_is_stripped "claude-sonnet")))).
    reflexivity.
Defined.
